(** * The address-book assistant of [task1.py], embedded and verified

    The development follows the layout of the Python file: the
    [input_error] decorator, the field classes ([Field], [Name], [Phone],
    [Birthday]), [Record], [AddressBook] and the command handlers.

    Modelling conventions.
    - A Python [str] is a Rocq [string], one [ascii] per code point: the
      embedding covers the strings whose code points are all below 256
      (U+0000 .. U+00FF), and [String.length] is Python's [len].
    - Python integers are [Z].
    - An exception is a value of [exn]; code that may raise returns a
      [result].  Methods that mutate [self] are state transformers
      [M Record.t A]; handlers, which work on the address book and on the
      record objects reachable from it, are state transformers over a
      [World] holding the object store.
    - The calls into [datetime] are modelled in [Module datetime] from the
      documented behaviour of the library ([date] construction and
      [replace], comparison, [toordinal], [weekday], [date + timedelta],
      [strptime] and [strftime] for the one format the program uses).
      [strftime] is the one of CPython 3.11 on the GNU C library, which
      writes the year of [%Y] without leading zeros.
    - [datetime.today().date()] reads the clock; every function that calls
      it takes the date as the parameter [today]. *)

From stdpp Require Import base tactics option list strings functions.
From Stdlib Require Import ZArith Lia DecimalString Ascii String.

Local Open Scope Z_scope.

(** ** Exceptions and results *)

(** The code raises [ValueError] for every failure of its own and tells
    the failures apart by the message.  The error kinds of the
    specification are these messages: a validation error is
    "Phone number must contain exactly 10 digits." or
    "Birthday must be in DD.MM.YYYY format.", and a lookup error is
    "Phone number not found.", "Old phone number not found." or
    "Name not found in address book.". *)
Inductive exn : Type :=
| ValueError (msg : string)
| IndexError
| KeyError
| OverflowError (msg : string).

Inductive result (A : Type) : Type :=
| Ok (a : A)
| Raise (e : exn).

Arguments Ok {A} a.
Arguments Raise {A} e.

Definition is_Ok {A} (r : result A) : bool :=
  match r with Ok _ => true | Raise _ => false end.

(** ** State transformers that may raise

    [M S A] is a computation over a mutable state [S]: it ends normally with
    a value or raises, and in both cases leaves a state behind (what was
    mutated before a [raise] stays mutated). *)

Definition M (S A : Type) : Type := S -> result A * S.

Definition ret {S A} (a : A) : M S A := fun s => (Ok a, s).

Definition raise {S A} (e : exn) : M S A := fun s => (Raise e, s).

Definition bind {S A B} (m : M S A) (k : A -> M S B) : M S B :=
  fun s => match m s with
           | (Ok a, s') => k a s'
           | (Raise e, s') => (Raise e, s')
           end.

Definition get_state {S} : M S S := fun s => (Ok s, s).

Definition put_state {S} (s : S) : M S unit := fun _ => (Ok tt, s).

Definition modify {S} (f : S -> S) : M S unit := fun s => (Ok tt, f s).

(** [lift_result r] runs a computation that touches no state. *)
Definition lift_result {S A} (r : result A) : M S A := fun s => (r, s).

(** [try: m except h]: the handler [h] decides, per exception, whether it
    catches ([Some k]) or lets it through ([None]). *)
Definition try_except {S A} (m : M S A) (h : exn -> option (M S A)) : M S A :=
  fun s => match m s with
           | (Ok a, s') => (Ok a, s')
           | (Raise e, s') =>
               match h e with
               | Some k => k s'
               | None => (Raise e, s')
               end
           end.

Notation "'do' x <- m ; k" := (bind m (fun x => k))
  (at level 10, x name, m at level 99, k at level 200,
   format "'[v' 'do'  x  <-  m ; '/' k ']'").

(** ** Characters and strings of the Python runtime *)

Definition ord (c : ascii) : Z := Z.of_nat (nat_of_ascii c).

(** [lo <= c <= hi] on code points: a character range [[lo-hi]] of a regular
    expression. *)
Definition in_range (lo hi c : ascii) : bool :=
  (ord lo <=? ord c) && (ord c <=? ord hi).

(** Characters with Unicode category Nd below U+0100: what the regular
    expression class [\d] matches and what [int] converts. *)
Definition is_decimal (c : ascii) : bool := in_range "0" "9" c.

(** Characters with Numeric_Type Digit or Decimal below U+0100: the ten
    decimal digits and the superscripts U+00B2, U+00B3 and U+00B9. *)
Definition is_digit_char (c : ascii) : bool :=
  is_decimal c || (ord c =? 178) || (ord c =? 179) || (ord c =? 185).

(** Code points below U+0080. *)
Definition is_ascii (c : ascii) : bool := ord c <? 128.

Fixpoint string_forall (p : ascii -> bool) (s : string) : bool :=
  match s with
  | EmptyString => true
  | String c s' => p c && string_forall p s'
  end.

(** [str.isdigit]: every character is a digit and there is at least one. *)
Definition isdigit (s : string) : bool :=
  match s with
  | EmptyString => false
  | String _ _ => string_forall is_digit_char s
  end.

(** [len] of a string, as a Python integer. *)
Definition len (s : string) : Z := Z.of_nat (String.length s).

(** [str(n)] of an integer. *)
Definition str_of_int (n : Z) : string := NilZero.string_of_int (Z.to_int n).

(** [sep.join(parts)]. *)
Fixpoint join (sep : string) (parts : list string) : string :=
  match parts with
  | [] => EmptyString
  | [p] => p
  | p :: ps => p +:+ sep +:+ join sep ps
  end.

(** [s.startswith(prefix)]. *)
Fixpoint startswith (prefix s : string) : bool :=
  match prefix, s with
  | EmptyString, _ => true
  | String a p, String b s' => bool_decide (a = b) && startswith p s'
  | String _ _, EmptyString => false
  end.

(** ** The [datetime] library *)

Module datetime.

Record date : Type := mkdate { year : Z; month : Z; day : Z }.

Definition MINYEAR : Z := 1.
Definition MAXYEAR : Z := 9999.

Definition is_leap (y : Z) : bool :=
  (y mod 4 =? 0) && (negb (y mod 100 =? 0) || (y mod 400 =? 0)).

Definition days_in_month (y m : Z) : Z :=
  match m with
  | 1 => 31 | 2 => if is_leap y then 29 else 28 | 3 => 31 | 4 => 30
  | 5 => 31 | 6 => 30 | 7 => 31 | 8 => 31 | 9 => 30 | 10 => 31
  | 11 => 30 | 12 => 31 | _ => 0
  end.

(** Number of days before January 1st of year [y]. *)
Definition days_before_year (y : Z) : Z :=
  let y1 := y - 1 in y1 * 365 + y1 / 4 - y1 / 100 + y1 / 400.

(** Number of days in year [y] before the first day of month [m]. *)
Definition days_before_month (y m : Z) : Z :=
  match m with
  | 1 => 0 | 2 => 31 | 3 => 59 | 4 => 90 | 5 => 120 | 6 => 151 | 7 => 181
  | 8 => 212 | 9 => 243 | 10 => 273 | 11 => 304 | 12 => 334 | _ => 0
  end + (if (2 <? m) && is_leap y then 1 else 0).

Definition ymd2ord (y m d : Z) : Z :=
  days_before_year y + days_before_month y m + d.

(** The fields a [date] object can hold. *)
Definition valid_ymd (y m d : Z) : bool :=
  (MINYEAR <=? y) && (y <=? MAXYEAR) && (1 <=? m) && (m <=? 12) &&
  (1 <=? d) && (d <=? days_in_month y m).

Definition valid (d : date) : bool := valid_ymd (year d) (month d) (day d).

(** [date(y, m, d)]: the constructor checks the fields. *)
Definition date_new (y m d : Z) : result date :=
  if negb ((MINYEAR <=? y) && (y <=? MAXYEAR)) then
    Raise (ValueError ("year " +:+ str_of_int y +:+ " is out of range"))
  else if negb ((1 <=? m) && (m <=? 12)) then
    Raise (ValueError "month must be in 1..12")
  else if negb ((1 <=? d) && (d <=? days_in_month y m)) then
    Raise (ValueError "day is out of range for month")
  else Ok (mkdate y m d).

(** [d.replace(year=y)]. *)
Definition replace_year (d : date) (y : Z) : result date :=
  date_new y (month d) (day d).

(** Dates compare as the tuples (year, month, day). *)
Definition ltb (a b : date) : bool :=
  (year a <? year b) ||
  ((year a =? year b) &&
   ((month a <? month b) || ((month a =? month b) && (day a <? day b)))).

Definition eqb (a b : date) : bool :=
  (year a =? year b) && (month a =? month b) && (day a =? day b).

Definition leb (a b : date) : bool := ltb a b || eqb a b.

Definition toordinal (d : date) : Z := ymd2ord (year d) (month d) (day d).

Definition MAXORDINAL : Z := Eval cbv in ymd2ord 9999 12 31.

(** [d.weekday()]: Monday is 0 and Sunday is 6. *)
Definition weekday (d : date) : Z := (toordinal d + 6) mod 7.

(** The day after [d], inside one calendar (no range check). *)
Definition next_day (d : date) : date :=
  if day d <? days_in_month (year d) (month d) then
    mkdate (year d) (month d) (day d + 1)
  else if month d <? 12 then mkdate (year d) (month d + 1) 1
  else mkdate (year d + 1) 1 1.

Fixpoint iter_next (n : nat) (d : date) : date :=
  match n with
  | O => d
  | S n' => iter_next n' (next_day d)
  end.

(** [d + timedelta(days=n)] for [n >= 0]: the date [n] days later, and
    [OverflowError] when that is past [date.max]. *)
Definition add_days (d : date) (n : Z) : result date :=
  if toordinal d + n <=? MAXORDINAL then Ok (iter_next (Z.to_nat n) d)
  else Raise (OverflowError "date value out of range").

(** [(a - b).days]. *)
Definition sub_days (a b : date) : Z := toordinal a - toordinal b.

(** *** [strptime(s, "%d.%m.%Y")]

    The format is compiled to the regular expression
    [(3[0-1]|[1-2]\d|0[1-9]|[1-9]| [1-9])\.(1[0-2]|0[1-9]|[1-9])\.(\d\d\d\d)],
    matched at the start of the string with backtracking over the
    alternatives in the order written.  A matcher returns every way of
    matching a prefix, best first, as the value read and the rest. *)

Definition matcher (A : Type) : Type := string -> list (A * string).

(** [int] of one or two decimal digits. *)
Definition int1 (a : ascii) : Z := ord a - 48.
Definition int2 (a b : ascii) : Z := 10 * int1 a + int1 b.

(** An alternative made of two character classes. *)
Definition two (p q : ascii -> bool) : matcher Z := fun s =>
  match s with
  | String a (String b r) => if p a && q b then [(int2 a b, r)] else []
  | _ => []
  end.

(** An alternative made of one character class. *)
Definition one (p : ascii -> bool) : matcher Z := fun s =>
  match s with
  | String a r => if p a then [(int1 a, r)] else []
  | _ => []
  end.

(** The alternative [ [1-9]]: a blank, then a digit ([int] skips the
    blank). *)
Definition blank_one : matcher Z := fun s =>
  match s with
  | String a (String b r) =>
      if bool_decide (a = " "%char) && in_range "1" "9" b
      then [(int1 b, r)] else []
  | _ => []
  end.

Definition is_char (c : ascii) : ascii -> bool := fun a => bool_decide (a = c).

(** [%d] *)
Definition re_d : matcher Z := fun s =>
  two (is_char "3") (in_range "0" "1") s ++
  two (in_range "1" "2") is_decimal s ++
  two (is_char "0") (in_range "1" "9") s ++
  one (in_range "1" "9") s ++
  blank_one s.

(** [%m] *)
Definition re_m : matcher Z := fun s =>
  two (is_char "1") (in_range "0" "2") s ++
  two (is_char "0") (in_range "1" "9") s ++
  one (in_range "1" "9") s.

(** [%Y] *)
Definition re_Y : matcher Z := fun s =>
  match s with
  | String a (String b (String c (String d r))) =>
      if is_decimal a && is_decimal b && is_decimal c && is_decimal d
      then [(100 * int2 a b + int2 c d, r)] else []
  | _ => []
  end.

(** [\.] *)
Definition re_dot : matcher unit := fun s =>
  match s with
  | String a r => if is_char "." a then [(tt, r)] else []
  | _ => []
  end.

(** Sequencing of matchers: backtracking is the order of the list. *)
Definition andthen {A B} (p : matcher A) (k : A -> matcher B) : matcher B :=
  fun s => flat_map (fun ar => k (fst ar) (snd ar)) (p s).

Definition re_dmY : matcher (Z * Z * Z) :=
  andthen re_d (fun d => andthen re_dot (fun _ => andthen re_m (fun m =>
  andthen re_dot (fun _ => andthen re_Y (fun y => fun r => [((d, m, y), r)]))))).

(** The messages of the two parse errors quote the data; their text is not
    observable in this program and is abbreviated. *)
Definition strptime (s : string) : result date :=
  match re_dmY s with
  | [] => Raise (ValueError "time data does not match format '%d.%m.%Y'")
  | ((d, m, y), rest) :: _ =>
      match rest with
      | EmptyString => date_new y m d
      | String _ _ => Raise (ValueError ("unconverted data remains: " +:+ rest))
      end
  end.

(** The decimal digit of the units of [n], and [n] written with two and
    with four digits, zero padded. *)
Definition digit (n : Z) : ascii := ascii_of_nat (Z.to_nat (48 + n mod 10)).

Definition pad2 (n : Z) : string :=
  String (digit (n / 10)) (String (digit n) EmptyString).

Definition pad4 (n : Z) : string :=
  String (digit (n / 1000)) (String (digit (n / 100))
    (String (digit (n / 10)) (String (digit n) EmptyString))).

(** [%Y] of [strftime] is left to the C library, which writes the year
    as a decimal number without leading zeros: the year 999 gives "999",
    where [strptime] wants "0999".  A year is between 1 and 9999. *)
Definition year_text (y : Z) : string :=
  if y <? 10 then String (digit y) EmptyString
  else if y <? 100 then pad2 y
  else if y <? 1000 then String (digit (y / 100)) (pad2 y)
  else pad4 y.

(** [d.strftime("%d.%m.%Y")].  [%d] and [%m] give two digits, zero
    padded. *)
Definition strftime (d : date) : string :=
  pad2 (day d) +:+ "." +:+ pad2 (month d) +:+ "." +:+ year_text (year d).

End datetime.

(** ** Python's insertion-ordered [dict], keyed by strings

    An association list in insertion order whose keys are pairwise
    distinct ([dict_ok]); assigning to a key that is present keeps its
    place. *)

Section Dict.
Context {V : Type}.

Fixpoint dict_get (k : string) (d : list (string * V)) : option V :=
  match d with
  | [] => None
  | (k', v) :: d' => if decide (k = k') then Some v else dict_get k d'
  end.

(** [k in d] *)
Definition dict_mem (k : string) (d : list (string * V)) : bool :=
  match dict_get k d with Some _ => true | None => false end.

(** [d[k] = v] *)
Fixpoint dict_set (k : string) (v : V) (d : list (string * V)) : list (string * V) :=
  match d with
  | [] => [(k, v)]
  | (k', v') :: d' =>
      if decide (k = k') then (k', v) :: d' else (k', v') :: dict_set k v d'
  end.

(** [del d[k]], for a key that is present *)
Fixpoint dict_del (k : string) (d : list (string * V)) : list (string * V) :=
  match d with
  | [] => []
  | (k', v') :: d' =>
      if decide (k = k') then d' else (k', v') :: dict_del k d'
  end.

Definition dict_ok (d : list (string * V)) : Prop := List.NoDup (map fst d).

End Dict.

(** ** Python's [list] operations used on the phone list *)

Section PyList.
Context {A : Type} `{EqDecision A}.

(** [l.index(x)]: the first position holding [x]. *)
Fixpoint list_index (x : A) (l : list A) : result nat :=
  match l with
  | [] => Raise (ValueError "list.index(x): x not in list")
  | y :: l' =>
      if decide (x = y) then Ok O
      else match list_index x l' with
           | Ok i => Ok (S i)
           | Raise e => Raise e
           end
  end.

(** [l.remove(x)]: drops the first element equal to [x]. *)
Fixpoint list_remove (x : A) (l : list A) : result (list A) :=
  match l with
  | [] => Raise (ValueError "list.remove(x): x not in list")
  | y :: l' =>
      if decide (x = y) then Ok l'
      else match list_remove x l' with
           | Ok r => Ok (y :: r)
           | Raise e => Raise e
           end
  end.

End PyList.

(** ** The field classes *)

Record Field : Type := mkField { value : string }.

#[global] Instance Field_eq_dec : EqDecision Field.
Proof. solve_decision. Defined.

(** [class Name(Field): pass] *)
Definition Name : Type := Field.

Module Phone.

Definition validate_phone (phone : string) : bool :=
  isdigit phone && (len phone =? 10).

(** [Phone(value)] *)
Definition init (value : string) : result Field :=
  if negb (validate_phone value)
  then Raise (ValueError "Phone number must contain exactly 10 digits.")
  else Ok (mkField value).

End Phone.

Module Birthday.

(** The [try] catches [ValueError] only. *)
Definition validate_birthday (birthday : string) : result bool :=
  match datetime.strptime birthday with
  | Ok _ => Ok true
  | Raise (ValueError _) => Ok false
  | Raise e => Raise e
  end.

(** [Birthday(value)]: the object keeps the string it was given. *)
Definition init (value : string) : result Field :=
  match validate_birthday value with
  | Ok ok =>
      if negb ok
      then Raise (ValueError "Birthday must be in DD.MM.YYYY format.")
      else Ok (mkField value)
  | Raise e => Raise e
  end.

End Birthday.

(** ** [Record]

    The phone list holds [Phone] objects.  They are never mutated and no
    object is stored twice, so an object is identified with its value:
    [find_phone] returns the first object whose value matches, and
    [index] and [remove], which look for that very object, stop at the
    same position. *)

Module Record.

Record t : Type := mk {
  name : Name;
  phones : list Field;
  birthday : option Field
}.

(** [Record(name)] *)
Definition init (name : string) : t := mk (mkField name) [] None.

Definition set_phones (l : list Field) (self : t) : t :=
  mk (name self) l (birthday self).

Definition set_birthday (b : option Field) (self : t) : t :=
  mk (name self) (phones self) b.

Definition add_phone (phone : string) : M t unit :=
  do p <- lift_result (Phone.init phone);
  modify (fun self => set_phones (phones self ++ [p]) self).

(** The loop of [find_phone]. *)
Fixpoint find_phone_in (phone : string) (l : list Field) : option Field :=
  match l with
  | [] => None
  | phone_obj :: l' =>
      if decide (value phone_obj = phone) then Some phone_obj
      else find_phone_in phone l'
  end.

Definition find_phone (phone : string) : M t (option Field) :=
  do self <- get_state;
  ret (find_phone_in phone (phones self)).

Definition remove_phone (phone : string) : M t unit :=
  do phone_obj <- find_phone phone;
  match phone_obj with
  | Some o =>
      do self <- get_state;
      do l <- lift_result (list_remove o (phones self));
      put_state (set_phones l self)
  | None => raise (ValueError "Phone number not found.")
  end.

(** In [self.phones[self.phones.index(phone_obj)] = Phone(new_phone)] the
    right-hand side is evaluated first. *)
Definition edit_phone (old_phone new_phone : string) : M t unit :=
  do phone_obj <- find_phone old_phone;
  match phone_obj with
  | Some o =>
      do p <- lift_result (Phone.init new_phone);
      do self <- get_state;
      do i <- lift_result (list_index o (phones self));
      put_state (set_phones (<[i := p]> (phones self)) self)
  | None => raise (ValueError "Old phone number not found.")
  end.

Definition add_birthday (birthday : string) : M t unit :=
  do b <- lift_result (Birthday.init birthday);
  modify (set_birthday (Some b)).

Definition days_to_birthday (today : datetime.date) : M t (option Z) :=
  do self <- get_state;
  match birthday self with
  | None => ret None
  | Some b =>
      do d <- lift_result (datetime.strptime (value b));
      do bday_this_year <-
        lift_result (datetime.replace_year d (datetime.year today));
      do bday_this_year <-
        (if datetime.ltb bday_this_year today
         then lift_result
                (datetime.replace_year bday_this_year (datetime.year today + 1))
         else ret bday_this_year);
      ret (Some (datetime.sub_days bday_this_year today))
  end.

(** [__str__] *)
Definition str (self : t) : string :=
  let phones_str := join ", " (map value (phones self)) in
  let birthday_str :=
    match birthday self with
    | Some b => ", Birthday: " +:+ value b
    | None => EmptyString
    end in
  value (name self) +:+ ": " +:+
  (match phones_str with EmptyString => "No phones" | _ => phones_str end) +:+
  birthday_str.

End Record.

(** ** The object store

    [Record] objects are mutable and are reached through references: the
    address book maps a name to a reference, and [find] hands that same
    reference to the handler, which mutates the object behind it.
    [next] is the first reference not yet allocated. *)

Definition ref : Type := nat.

Record World : Type := mkWorld {
  next : ref;
  objs : ref -> Record.t;
  data : list (string * ref)
}.

Definition set_data (d : list (string * ref)) (w : World) : World :=
  mkWorld (next w) (objs w) d.

(** [Record(name)] as an expression: a fresh object. *)
Definition new_record (name : string) : M World ref :=
  fun w => (Ok (next w),
            mkWorld (S (next w)) (<[next w := Record.init name]> (objs w)) (data w)).

(** A method call [r.m(...)] on the object behind [r]. *)
Definition call {A} (r : ref) (m : M Record.t A) : M World A :=
  fun w => match m (objs w r) with
           | (res, o') => (res, mkWorld (next w) (<[r := o']> (objs w)) (data w))
           end.

(** Two worlds with the same book and the same objects. *)
Definition same_world (w w' : World) : Prop :=
  data w' = data w /\ forall r, objs w' r = objs w r.

(** ** [AddressBook] *)

(** One line of the report: the dict with keys "name" and "birthday". *)
Record entry : Type := mkentry {
  entry_name : string;
  entry_birthday : datetime.date
}.

Module AddressBook.

Definition add_record (record : ref) : M World unit :=
  modify (fun w =>
    set_data (dict_set (value (Record.name (objs w record))) record (data w)) w).

Definition find (name : string) : M World (option ref) :=
  do w <- get_state;
  ret (dict_get name (data w)).

Definition delete (name : string) : M World unit :=
  do w <- get_state;
  if dict_mem name (data w)
  then put_state (set_data (dict_del name (data w)) w)
  else raise (ValueError "Name not found in address book.").

(** [self.data.values()], in iteration order. *)
Definition values (w : World) : list Record.t :=
  map (fun kv => objs w (snd kv)) (data w).

(** The body of the loop for one record with a birthday: [None] when the
    record is outside the window. *)
Definition upcoming_entry (today seven_days_later : datetime.date)
    (record : Record.t) (b : Field) : result (option entry) :=
  match datetime.strptime (value b) with
  | Raise e => Raise e
  | Ok d =>
      match datetime.replace_year d (datetime.year today) with
      | Raise e => Raise e
      | Ok bday_this_year =>
          if datetime.leb today bday_this_year
             && datetime.leb bday_this_year seven_days_later
          then
            match
              (if datetime.weekday bday_this_year =? 5
               then datetime.add_days bday_this_year 2
               else if datetime.weekday bday_this_year =? 6
               then datetime.add_days bday_this_year 1
               else Ok bday_this_year)
            with
            | Raise e => Raise e
            | Ok shifted =>
                Ok (Some (mkentry (value (Record.name record)) shifted))
            end
          else Ok None
      end
  end.

(** The [for] loop, appending to [upcoming_birthdays]. *)
Fixpoint upcoming_loop (today seven_days_later : datetime.date)
    (records : list Record.t) (upcoming_birthdays : list entry)
    : result (list entry) :=
  match records with
  | [] => Ok upcoming_birthdays
  | record :: rest =>
      match Record.birthday record with
      | None => upcoming_loop today seven_days_later rest upcoming_birthdays
      | Some b =>
          match upcoming_entry today seven_days_later record b with
          | Raise e => Raise e
          | Ok None =>
              upcoming_loop today seven_days_later rest upcoming_birthdays
          | Ok (Some e) =>
              upcoming_loop today seven_days_later rest
                (upcoming_birthdays ++ [e])
          end
      end
  end.

Definition get_upcoming_birthdays (today : datetime.date)
    : M World (list entry) :=
  do seven_days_later <- lift_result (datetime.add_days today 7);
  do w <- get_state;
  lift_result (upcoming_loop today seven_days_later (values w) []).

(** [__str__] *)
Definition str (w : World) : string :=
  let records := join (String "010" EmptyString) (map Record.str (values w)) in
  "AddressBook:" +:+ String "010" EmptyString +:+
  (match records with EmptyString => "No records" | _ => records end).

End AddressBook.

(** ** The command handlers *)

(** The decorator: three exception classes become a message. *)
Definition input_error (func : M World string) : M World string :=
  try_except func (fun e =>
    match e with
    | ValueError msg => Some (ret ("Error: " +:+ msg))
    | IndexError => Some (ret "Error: Not enough arguments provided.")
    | KeyError => Some (ret "Error: Contact not found.")
    | OverflowError _ => None
    end).

(** [except ValueError as e: return str(e)] *)
Definition return_str_of_ValueError (e : exn) : option (M World string) :=
  match e with
  | ValueError msg => Some (ret msg)
  | _ => None
  end.

Definition handle_add (args : list string) : M World string :=
  input_error
    match args with
    | [name; phone] =>
        do record <- AddressBook.find name;
        do _ <- match record with
                | Some record => call record (Record.add_phone phone)
                | None =>
                    do record <- new_record name;
                    do _ <- call record (Record.add_phone phone);
                    AddressBook.add_record record
                end;
        ret ("Contact '" +:+ name +:+ "' added with phone " +:+ phone +:+ ".")
    | _ => ret "Error: 'add' command should have two arguments [name] [phone]"
    end.

Definition handle_change (args : list string) : M World string :=
  input_error
    match args with
    | [name; old_phone; new_phone] =>
        do record <- AddressBook.find name;
        match record with
        | Some record =>
            try_except
              (do _ <- call record (Record.edit_phone old_phone new_phone);
               ret ("Phone number for '" +:+ name +:+ "' changed from " +:+
                    old_phone +:+ " to " +:+ new_phone +:+ "."))
              return_str_of_ValueError
        | None => ret ("Error: Contact '" +:+ name +:+ "' not found.")
        end
    | _ => ret "Error: 'change' command should have three arguments [name] [old phone] [new phone]"
    end.

Definition handle_phone (args : list string) : M World string :=
  input_error
    match args with
    | [name] =>
        do record <- AddressBook.find name;
        match record with
        | Some record =>
            do w <- get_state;
            ret ("Phone numbers for " +:+ name +:+ ": " +:+
                 join ", " (map value (Record.phones (objs w record))))
        | None => ret ("Error: Contact '" +:+ name +:+ "' not found.")
        end
    | _ => ret "Error: 'phone' command should have one argument [name]"
    end.

Definition handle_all : M World string :=
  input_error (do w <- get_state; ret (AddressBook.str w)).

Definition handle_add_birthday (args : list string) : M World string :=
  input_error
    match args with
    | [name; birthday] =>
        do record <- AddressBook.find name;
        match record with
        | Some record =>
            try_except
              (do _ <- call record (Record.add_birthday birthday);
               ret ("Birthday for '" +:+ name +:+ "' set to " +:+ birthday +:+ "."))
              return_str_of_ValueError
        | None => ret ("Error: Contact '" +:+ name +:+ "' not found.")
        end
    | _ => ret "Error: 'add-birthday' command should have two arguments [name] [birthday]"
    end.

Definition handle_show_birthday (args : list string) : M World string :=
  input_error
    match args with
    | [name] =>
        do record <- AddressBook.find name;
        do w <- get_state;
        match record with
        | Some record =>
            match Record.birthday (objs w record) with
            | Some b =>
                ret ("Birthday for " +:+ name +:+ " is " +:+ value b +:+ ".")
            | None =>
                ret ("Error: Contact '" +:+ name +:+ "' not found or has no birthday set.")
            end
        | None =>
            ret ("Error: Contact '" +:+ name +:+ "' not found or has no birthday set.")
        end
    | _ => ret "Error: 'show-birthday' command should have one argument [name]"
    end.

Definition handle_birthdays (today : datetime.date) : M World string :=
  input_error
    (do upcoming_birthdays <- AddressBook.get_upcoming_birthdays today;
     match upcoming_birthdays with
     | [] => ret "No birthdays in the next 7 days."
     | _ =>
         ret (join (String "010" EmptyString)
                (map (fun e => entry_name e +:+ "'s birthday celebration is on " +:+
                               datetime.strftime (entry_birthday e))
                     upcoming_birthdays))
     end).

(** ** Inputs used in the examples *)

Fixpoint replicate_char (n : nat) (c : ascii) : string :=
  match n with
  | O => EmptyString
  | S n' => String c (replicate_char n' c)
  end.

(** Ten times the character U+00B2, SUPERSCRIPT TWO. *)
Definition superscript_twos : string := replicate_char 10 "178".

(** The empty address book of [main]. *)
Definition empty_world : World := mkWorld O (fun _ => Record.init EmptyString) [].

(** ** Worlds and messages used in the statements *)

(** The message of a successful [add]. *)
Definition added_message (name phone : string) : string :=
  "Contact '" +:+ name +:+ "' added with phone " +:+ phone +:+ ".".

(** The exceptions that [input_error] turns into a message. *)
Definition caught (e : exn) : bool :=
  match e with OverflowError _ => false | _ => true end.

(** Two records named "Ann": two objects, not yet in the book. *)
Definition two_anns : World :=
  snd ((do a <- new_record "Ann"; do b <- new_record "Ann";
        do _ <- call b (Record.add_phone "0123456789");
        ret tt) empty_world).

(** A book with "Ann" (reference 0) and "Bob" (reference 1). *)
Definition ann_and_bob : World :=
  snd ((do _ <- handle_add ["Ann"; "0123456789"];
        handle_add ["Bob"; "9876543210"]) empty_world).

(** ** The words of the specification about birthdays *)

(** The occurrence of a birthday in year [y]: its month and day in that
    year. *)
Definition occurrence (y : Z) (bd : datetime.date) : datetime.date :=
  datetime.mkdate y (datetime.month bd) (datetime.day bd).

(** The date of birth a record holds, if it holds one. *)
Definition birthday_date (r : Record.t) : option datetime.date :=
  match Record.birthday r with
  | Some b =>
      match datetime.strptime (value b) with
      | Ok d => Some d
      | Raise _ => None
      end
  | None => None
  end.

(** The record has a birthday whose occurrence in today's year is today or
    one of the seven days after it. *)
Definition in_window (today : datetime.date) (r : Record.t) : bool :=
  match birthday_date r with
  | Some bd =>
      let occ := occurrence (datetime.year today) bd in
      (datetime.toordinal today <=? datetime.toordinal occ) &&
      (datetime.toordinal occ <=? datetime.toordinal today + 7)
  | None => false
  end.

(** Two days after a Saturday, one day after a Sunday. *)
Definition weekend_shift (occ : datetime.date) : Z :=
  if datetime.weekday occ =? 5 then 2
  else if datetime.weekday occ =? 6 then 1
  else 0.

(** The entry [e] is the report for the record [r]: its name, and the
    date that lies [weekend_shift] days after the occurrence. *)
Definition reports (today : datetime.date) (r : Record.t) (e : entry) : Prop :=
  entry_name e = value (Record.name r) /\
  exists bd,
    birthday_date r = Some bd /\
    datetime.valid (entry_birthday e) = true /\
    datetime.toordinal (entry_birthday e) =
      datetime.toordinal (occurrence (datetime.year today) bd) +
      weekend_shift (occurrence (datetime.year today) bd).

(** The invariant of [Birthday] objects: the string went through the
    constructor. *)
Definition Record_ok (r : Record.t) : Prop :=
  forall b, Record.birthday r = Some b ->
            is_Ok (datetime.strptime (value b)) = true.

(** The birthday of the record, if any, is a day of year [y]. *)
Definition occurs_in (y : Z) (r : Record.t) : Prop :=
  forall bd, birthday_date r = Some bd ->
             datetime.valid (occurrence y bd) = true.

(** Ann, born on 29 February 2024. *)
Definition leap_day_book : World :=
  snd ((do _ <- handle_add ["Ann"; "0123456789"];
        handle_add_birthday ["Ann"; "29.02.2024"]) empty_world).

(** The contact of the spec's example, born on 15 June 1990. *)
Definition june_book : World :=
  snd ((do _ <- handle_add ["Bob"; "9876543210"];
        do _ <- handle_add_birthday ["Bob"; "15.06.1990"];
        do _ <- handle_add ["Eve"; "1112223334"];
        do _ <- handle_add_birthday ["Eve"; "1.1.2000"];
        handle_add ["Joe"; "5556667778"]) empty_world).

(** ** The strings [strptime] reads, described without backtracking

    These definitions are not part of the model: they state what the
    regular expression of [datetime.re_dmY] accepts, and the lemmas below
    prove that it does. *)

Definition two_digit_day (a b : ascii) : bool :=
  (datetime.is_char "3" a && in_range "0" "1" b) ||
  (in_range "1" "2" a && is_decimal b) ||
  (datetime.is_char "0" a && in_range "1" "9" b).

Definition two_digit_month (a b : ascii) : bool :=
  (datetime.is_char "1" a && in_range "0" "2" b) ||
  (datetime.is_char "0" a && in_range "1" "9" b).

(** The day and the dot after it, and what is left. *)
Definition day_dot (s : string) : option (Z * string) :=
  match s with
  | String a (String b rest) =>
      if datetime.is_char "." b then
        if in_range "1" "9" a then Some (datetime.int1 a, rest) else None
      else
        match rest with
        | String c rest' =>
            if datetime.is_char "." c then
              if two_digit_day a b then Some (datetime.int2 a b, rest')
              else if datetime.is_char " " a && in_range "1" "9" b
                   then Some (datetime.int1 b, rest')
                   else None
            else None
        | EmptyString => None
        end
  | _ => None
  end.

(** The month and the dot after it, and what is left. *)
Definition month_dot (s : string) : option (Z * string) :=
  match s with
  | String a (String b rest) =>
      if datetime.is_char "." b then
        if in_range "1" "9" a then Some (datetime.int1 a, rest) else None
      else
        match rest with
        | String c rest' =>
            if datetime.is_char "." c then
              if two_digit_month a b then Some (datetime.int2 a b, rest')
              else None
            else None
        | EmptyString => None
        end
  | _ => None
  end.

(** The ways of writing a day and a month that [%d] and [%m] read: two
    digits, or for a number below ten one digit, or for a day one digit
    after a blank. *)
Definition day_forms (n : Z) : list string :=
  if n <? 10
  then [datetime.pad2 n; String (datetime.digit n) EmptyString;
        String " " (String (datetime.digit n) EmptyString)]
  else [datetime.pad2 n].

Definition month_forms (n : Z) : list string :=
  if n <? 10
  then [datetime.pad2 n; String (datetime.digit n) EmptyString]
  else [datetime.pad2 n].

(** [s] is day, dot, month, dot, four-digit year for the date [d]. *)
Definition written_as (d : datetime.date) (s : string) : Prop :=
  exists ds ms,
    In ds (day_forms (datetime.day d)) /\
    In ms (month_forms (datetime.month d)) /\
    s = ds +:+ "." +:+ ms +:+ "." +:+ datetime.pad4 (datetime.year d).

(** The spec's "DD.MM.YYYY" of a date: two digits, two digits and four
    digits, zero padded. *)
Definition DD_MM_YYYY (d : datetime.date) : string :=
  datetime.pad2 (datetime.day d) +:+ "." +:+
  datetime.pad2 (datetime.month d) +:+ "." +:+
  datetime.pad4 (datetime.year d).

(** The spec's reading of a "DD.MM.YYYY" string: the zero-padded writing
    of a calendar date. *)
Definition is_DD_MM_YYYY (s : string) : Prop :=
  exists d, datetime.valid d = true /\ s = DD_MM_YYYY d.

(** ** The command loop of [main]

    [input] and [print] are the only effects of the loop besides the
    address book.  A run is taken over the lines typed so far, each with
    the date the clock shows when it is handled; it ends waiting for the
    next line, with [break], or with an exception nobody catches. *)

(** [str.isspace] on one character: the white space below U+0100. *)
Definition isspace_char (c : ascii) : bool :=
  in_range "009" "013" c || in_range "028" "032" c ||
  (ord c =? 133) || (ord c =? 160).

(** [str.lower] on one character below U+0100: the letters A-Z and the
    capital letters U+00C0 .. U+00DE, the sign U+00D7 apart, move up by
    32. *)
Definition lower_char (c : ascii) : ascii :=
  if in_range "A" "Z" c ||
     ((192 <=? ord c) && (ord c <=? 222) && negb (ord c =? 215))
  then ascii_of_nat (Z.to_nat (ord c + 32))
  else c.

Fixpoint lower (s : string) : string :=
  match s with
  | EmptyString => EmptyString
  | String c s' => String (lower_char c) (lower s')
  end.

(** [s.lstrip()] *)
Fixpoint lstrip (s : string) : string :=
  match s with
  | EmptyString => EmptyString
  | String c s' => if isspace_char c then lstrip s' else s
  end.

(** [s.rstrip()] *)
Fixpoint rstrip (s : string) : string :=
  match s with
  | EmptyString => EmptyString
  | String c s' =>
      match rstrip s' with
      | EmptyString => if isspace_char c then EmptyString else String c EmptyString
      | String _ _ as r => String c r
      end
  end.

(** [s.strip()] *)
Definition strip (s : string) : string := rstrip (lstrip s).

(** [s.split()]: the maximal runs of characters that are not white
    space; [word] is the run being read. *)
Fixpoint split_from (word : string) (s : string) : list string :=
  match s with
  | EmptyString =>
      match word with EmptyString => [] | String _ _ => [word] end
  | String c s' =>
      if isspace_char c then
        match word with
        | EmptyString => split_from EmptyString s'
        | String _ _ => word :: split_from EmptyString s'
        end
      else split_from (word +:+ String c EmptyString) s'
  end.

Definition split (s : string) : list string := split_from EmptyString s.

(** What the terminal receives: the prompt of [input] and the lines of
    [print]. *)
Inductive out : Type :=
| Prompt (s : string)
| Print (s : string).

(** How a run over the lines typed so far ends. *)
Inductive outcome : Type :=
| Waiting
| Exited
| Crashed (e : exn).

(** One turn of the [while] loop once [input] has returned [user_input]:
    the text to print and whether the loop goes on.  [command_parts[0]]
    raises [IndexError] on an empty list. *)
Definition main_step (today : datetime.date) (user_input : string)
    : M World (string * bool) :=
  let user_input := strip user_input in
  let command_parts := split user_input in
  match command_parts with
  | [] => raise IndexError
  | first :: args =>
      let command := lower first in
      if String.eqb command "hello" then ret ("How can I help you?", true)
      else if String.eqb command "add" then
        do s <- handle_add args; ret (s, true)
      else if String.eqb command "change" then
        do s <- handle_change args; ret (s, true)
      else if String.eqb command "phone" then
        do s <- handle_phone args; ret (s, true)
      else if String.eqb command "all" then
        do s <- handle_all; ret (s, true)
      else if String.eqb command "add-birthday" then
        do s <- handle_add_birthday args; ret (s, true)
      else if String.eqb command "show-birthday" then
        do s <- handle_show_birthday args; ret (s, true)
      else if String.eqb command "birthdays" then
        do s <- handle_birthdays today; ret (s, true)
      else if String.eqb command "close" || String.eqb command "exit" then
        ret ("Good bye!", false)
      else ret ("Unknown command. Please try again.", true)
  end.

(** The loop over the lines typed so far. *)
Fixpoint main_loop (inputs : list (datetime.date * string)) (w : World)
    : list out * outcome * World :=
  match inputs with
  | [] => ([Prompt "Enter command: "], Waiting, w)
  | (today, user_input) :: rest =>
      match main_step today user_input w with
      | (Raise e, w') => ([Prompt "Enter command: "], Crashed e, w')
      | (Ok (text, false), w') =>
          ([Prompt "Enter command: "; Print text], Exited, w')
      | (Ok (text, true), w') =>
          match main_loop rest w' with
          | (outs, how, w'') =>
              (Prompt "Enter command: " :: Print text :: outs, how, w'')
          end
      end
  end.

(** [main()]: the loop started on an empty address book. *)
Definition main (inputs : list (datetime.date * string))
    : list out * outcome * World :=
  main_loop inputs empty_world.

(** ** What the objects of a book satisfy *)

(** A phone that went through the constructor of [Phone]. *)
Definition phone_ok (p : Field) : Prop :=
  Phone.validate_phone (value p) = true.

(** A record whose phones and birthday went through their constructors. *)
Definition Record_inv (r : Record.t) : Prop :=
  Forall phone_ok (Record.phones r) /\ Record_ok r.

(** A book as the handlers build it: distinct names, each leading to an
    allocated object that carries that name and satisfies [Record_inv]. *)
Definition entry_inv (w : World) (kv : string * ref) : Prop :=
  (snd kv < next w)%nat /\
  value (Record.name (objs w (snd kv))) = fst kv /\
  Record_inv (objs w (snd kv)).

Definition World_inv (w : World) : Prop :=
  dict_ok (data w) /\ Forall (entry_inv w) (data w).

(** * Properties *)

(** ** The calendar *)

Ltac bool_to_prop H :=
  repeat first
    [ rewrite orb_true_iff in H | rewrite andb_true_iff in H
    | rewrite Z.ltb_lt in H | rewrite Z.leb_le in H | rewrite Z.eqb_eq in H ].

Section Calendar.
Import datetime.

Lemma valid_ymd_spec y m d :
  valid_ymd y m d = true <->
  1 <= y <= 9999 /\ 1 <= m <= 12 /\ 1 <= d <= days_in_month y m.
Proof.
  unfold valid_ymd, MINYEAR, MAXYEAR.
  rewrite !andb_true_iff, !Z.leb_le. lia.
Qed.

Lemma month_cases m :
  1 <= m <= 12 ->
  m = 1 \/ m = 2 \/ m = 3 \/ m = 4 \/ m = 5 \/ m = 6 \/
  m = 7 \/ m = 8 \/ m = 9 \/ m = 10 \/ m = 11 \/ m = 12.
Proof. lia. Qed.

Lemma days_before_year_succ y :
  days_before_year (y + 1) =
  days_before_year y + (if is_leap y then 366 else 365).
Proof.
  unfold days_before_year, is_leap. cbv zeta.
  replace (y + 1 - 1) with y by lia.
  destruct (Z.eqb_spec (y mod 4) 0), (Z.eqb_spec (y mod 100) 0),
    (Z.eqb_spec (y mod 400) 0); cbn [negb andb orb];
    Z.div_mod_to_equations; lia.
Qed.

Lemma days_before_year_mono y y' :
  y < y' ->
  days_before_year y + (if is_leap y then 366 else 365) <= days_before_year y'.
Proof.
  intros Hlt. rewrite <- days_before_year_succ.
  unfold days_before_year. cbv zeta. Z.div_mod_to_equations. lia.
Qed.

(** The day of the year lies inside the year. *)
Lemma day_of_year_bounds y m d :
  1 <= m <= 12 -> 1 <= d <= days_in_month y m ->
  1 <= days_before_month y m + d <= (if is_leap y then 366 else 365).
Proof.
  intros Hm Hd. unfold days_before_month. unfold days_in_month in Hd.
  destruct (is_leap y);
  destruct (month_cases m Hm) as [->|[->|[->|[->|[->|[->|[->|[->|[->|[->|[->| ->]]]]]]]]]]];
    cbn in Hd |- *; lia.
Qed.

Lemma days_before_month_next y m :
  1 <= m < 12 ->
  days_before_month y (m + 1) = days_before_month y m + days_in_month y m.
Proof.
  intros Hm. unfold days_before_month, days_in_month.
  assert (m = 1 \/ m = 2 \/ m = 3 \/ m = 4 \/ m = 5 \/ m = 6 \/
          m = 7 \/ m = 8 \/ m = 9 \/ m = 10 \/ m = 11) as Hc by lia.
  destruct (is_leap y);
  destruct Hc as [->|[->|[->|[->|[->|[->|[->|[->|[->|[->| ->]]]]]]]]]];
    reflexivity.
Qed.

Lemma days_before_month_mono y m m' :
  1 <= m -> m < m' -> m' <= 12 ->
  days_before_month y m + days_in_month y m <= days_before_month y m'.
Proof.
  intros H1 Hlt H12. unfold days_before_month, days_in_month.
  assert (1 <= m <= 12) as Hm by lia. assert (1 <= m' <= 12) as Hm' by lia.
  destruct (is_leap y);
  destruct (month_cases m Hm) as [->|[->|[->|[->|[->|[->|[->|[->|[->|[->|[->| ->]]]]]]]]]]];
  destruct (month_cases m' Hm') as [->|[->|[->|[->|[->|[->|[->|[->|[->|[->|[->| ->]]]]]]]]]]];
    try lia; cbv; discriminate.
Qed.

(** The order of dates is the order of their ordinals. *)
Lemma ltb_toordinal a b :
  valid a = true -> valid b = true ->
  ltb a b = true -> toordinal a < toordinal b.
Proof.
  destruct a as [ya ma da], b as [yb mb db]. unfold valid, ltb, toordinal, ymd2ord.
  cbn [year month day]. intros Ha Hb Hlt.
  apply valid_ymd_spec in Ha as (Hya & Hma & Hda).
  apply valid_ymd_spec in Hb as (Hyb & Hmb & Hdb).
  pose proof (day_of_year_bounds ya ma da Hma Hda) as Ba.
  pose proof (day_of_year_bounds yb mb db Hmb Hdb) as Bb.
  bool_to_prop Hlt.
  destruct Hlt as [Hy | (-> & [Hm | (-> & Hd)])].
  - pose proof (days_before_year_mono ya yb Hy). lia.
  - pose proof (days_before_month_mono yb ma mb ltac:(lia) Hm ltac:(lia)). lia.
  - lia.
Qed.

Lemma leb_negb_ltb a b : leb a b = negb (ltb b a).
Proof.
  unfold leb, ltb, eqb.
  destruct (Z.ltb_spec (year a) (year b)), (Z.ltb_spec (year b) (year a)),
    (Z.eqb_spec (year a) (year b)), (Z.eqb_spec (year b) (year a)),
    (Z.ltb_spec (month a) (month b)), (Z.ltb_spec (month b) (month a)),
    (Z.eqb_spec (month a) (month b)), (Z.eqb_spec (month b) (month a)),
    (Z.ltb_spec (day a) (day b)), (Z.ltb_spec (day b) (day a)),
    (Z.eqb_spec (day a) (day b)); cbn; try reflexivity; lia.
Qed.

Lemma ltb_spec a b :
  valid a = true -> valid b = true ->
  (ltb a b = true <-> toordinal a < toordinal b).
Proof.
  intros Ha Hb. split; [apply ltb_toordinal; assumption|].
  intros Hlt. destruct (ltb a b) eqn:E; [reflexivity|].
  assert (leb b a = true) as Hle by (rewrite leb_negb_ltb, E; reflexivity).
  unfold leb in Hle. apply orb_true_iff in Hle as [H | H].
  - pose proof (ltb_toordinal b a Hb Ha H). lia.
  - unfold eqb in H. rewrite !andb_true_iff, !Z.eqb_eq in H.
    destruct H as ((Hy & Hm) & Hd). unfold toordinal in Hlt.
    rewrite Hy, Hm, Hd in Hlt. lia.
Qed.

Lemma leb_spec a b :
  valid a = true -> valid b = true ->
  (leb a b = true <-> toordinal a <= toordinal b).
Proof.
  intros Ha Hb. rewrite leb_negb_ltb, negb_true_iff.
  pose proof (ltb_spec b a Hb Ha) as H.
  destruct (ltb b a); split; intros; try discriminate; try reflexivity.
  - destruct H as [H _]. specialize (H eq_refl). lia.
  - destruct (Z.lt_ge_cases (toordinal b) (toordinal a)) as [Hlt | Hge]; [|lia].
    apply H in Hlt. discriminate.
Qed.

(** Two dates with the same ordinal are the same date. *)
Lemma toordinal_inj a b :
  valid a = true -> valid b = true -> toordinal a = toordinal b -> a = b.
Proof.
  intros Ha Hb Heq.
  assert (leb a b = true) as H1 by (apply leb_spec; [assumption..|lia]).
  assert (ltb a b = false) as H2.
  { destruct (ltb a b) eqn:E; [|reflexivity].
    apply ltb_spec in E; [lia|assumption..]. }
  unfold leb in H1. rewrite H2 in H1. cbn in H1.
  unfold eqb in H1. rewrite !andb_true_iff, !Z.eqb_eq in H1.
  destruct a, b; cbn in *. f_equal; lia.
Qed.

Lemma toordinal_bounds d :
  valid d = true -> 1 <= toordinal d <= MAXORDINAL.
Proof.
  intros Hv. set (lo := mkdate 1 1 1). set (hi := mkdate 9999 12 31).
  assert (leb lo d = true /\ leb d hi = true) as [H1 H2].
  { rewrite !leb_negb_ltb, !negb_true_iff. unfold ltb, lo, hi. cbn [year month day].
    unfold valid in Hv. apply valid_ymd_spec in Hv as (Hy & Hm & Hd).
    assert (days_in_month (year d) (month d) <= 31) as Hdim.
    { unfold days_in_month.
      destruct (month_cases _ Hm) as [->|[->|[->|[->|[->|[->|[->|[->|[->|[->|[->| ->]]]]]]]]]]];
        try destruct (is_leap _); lia. }
    split.
    - destruct (Z.ltb_spec (year d) 1), (Z.eqb_spec (year d) 1),
        (Z.ltb_spec (month d) 1), (Z.eqb_spec (month d) 1),
        (Z.ltb_spec (day d) 1); cbn; try reflexivity; lia.
    - destruct (Z.ltb_spec 9999 (year d)), (Z.eqb_spec 9999 (year d)),
        (Z.ltb_spec 12 (month d)), (Z.eqb_spec 12 (month d)),
        (Z.ltb_spec 31 (day d)); cbn; try reflexivity; lia. }
  apply leb_spec in H1; [|reflexivity|assumption].
  apply leb_spec in H2; [|assumption|reflexivity].
  change (toordinal lo) with 1 in H1.
  change (toordinal hi) with MAXORDINAL in H2. lia.
Qed.

(** [next_day] is the next ordinal. *)
Lemma toordinal_next_day d :
  valid d = true -> toordinal (next_day d) = toordinal d + 1.
Proof.
  destruct d as [y m d]. unfold valid, next_day, toordinal, ymd2ord.
  cbn [year month day]. intros Hv. apply valid_ymd_spec in Hv as (Hy & Hm & Hd).
  destruct (Z.ltb_spec d (days_in_month y m)); cbn [year month day]; [lia|].
  assert (d = days_in_month y m) as -> by lia.
  destruct (Z.ltb_spec m 12); cbn [year month day].
  - rewrite days_before_month_next by lia. lia.
  - assert (m = 12) as -> by lia.
    rewrite days_before_year_succ. unfold days_before_month, days_in_month.
    destruct (is_leap y); cbv [Z.ltb Z.compare Pos.compare Pos.compare_cont andb]; lia.
Qed.

Lemma valid_next_day d :
  valid d = true -> toordinal d < MAXORDINAL -> valid (next_day d) = true.
Proof.
  intros Hv Hlt. pose proof Hv as Hv'.
  destruct d as [y m d]. unfold valid, next_day in *. cbn [year month day] in *.
  apply valid_ymd_spec in Hv as (Hy & Hm & Hd).
  destruct (Z.ltb_spec d (days_in_month y m)); cbn [year month day].
  { apply valid_ymd_spec. lia. }
  destruct (Z.ltb_spec m 12); cbn [year month day].
  { apply valid_ymd_spec. repeat split; try lia.
    unfold days_in_month.
    assert (1 <= m + 1 <= 12) as Hm1 by lia.
    destruct (month_cases _ Hm1) as [->|[->|[->|[->|[->|[->|[->|[->|[->|[->|[->| ->]]]]]]]]]]];
      try destruct (is_leap _); lia. }
  assert (m = 12) as -> by lia.
  change (days_in_month y 12) with 31 in *.
  assert (d = 31) as -> by lia.
  destruct (Z.eq_dec y 9999) as [-> | Hne].
  { exfalso. change (toordinal (mkdate 9999 12 31)) with MAXORDINAL in Hlt. lia. }
  apply valid_ymd_spec. change (days_in_month (y + 1) 1) with 31. lia.
Qed.

Lemma iter_next_spec n d :
  valid d = true -> toordinal d + Z.of_nat n <= MAXORDINAL ->
  valid (iter_next n d) = true /\
  toordinal (iter_next n d) = toordinal d + Z.of_nat n.
Proof.
  revert d. induction n as [|n IH]; intros d Hv Hle.
  - cbn. split; [assumption|lia].
  - cbn [iter_next].
    assert (valid (next_day d) = true) as Hv' by (apply valid_next_day; [assumption|lia]).
    pose proof (toordinal_next_day d Hv) as Hn.
    destruct (IH (next_day d) Hv' ltac:(lia)) as [IH1 IH2].
    split; [assumption|lia].
Qed.

(** [d + timedelta(days=n)] is the date whose ordinal is [n] more, and it
    exists as long as that ordinal is in range. *)
Lemma add_days_spec d n :
  valid d = true -> 0 <= n -> toordinal d + n <= MAXORDINAL ->
  exists d', add_days d n = Ok d' /\ valid d' = true /\
             toordinal d' = toordinal d + n.
Proof.
  intros Hv Hn Hle. unfold add_days.
  destruct (Z.leb_spec (toordinal d + n) MAXORDINAL); [|lia].
  destruct (iter_next_spec (Z.to_nat n) d Hv ltac:(lia)) as [H1 H2].
  exists (iter_next (Z.to_nat n) d). repeat split; [assumption|lia].
Qed.

Lemma add_days_overflow d n :
  MAXORDINAL < toordinal d + n ->
  add_days d n = Raise (OverflowError "date value out of range").
Proof.
  intros Hlt. unfold add_days.
  destruct (Z.leb_spec (toordinal d + n) MAXORDINAL); [lia|reflexivity].
Qed.

(** What the constructor accepts. *)
Lemma date_new_Ok y m d :
  valid_ymd y m d = true -> date_new y m d = Ok (mkdate y m d).
Proof.
  intros Hv. unfold date_new. unfold valid_ymd in Hv.
  rewrite !andb_true_iff in Hv. destruct Hv as (((((H1 & H2) & H3) & H4) & H5) & H6).
  rewrite H1, H2, H3, H4, H5, H6. reflexivity.
Qed.

Lemma date_new_Raise y m d :
  valid_ymd y m d = false -> exists msg, date_new y m d = Raise (ValueError msg).
Proof.
  intros Hv. unfold date_new. unfold valid_ymd in Hv.
  destruct ((MINYEAR <=? y) && (y <=? MAXYEAR)) eqn:E1; cbn [negb]; [|eauto].
  destruct ((1 <=? m) && (m <=? 12)) eqn:E2; cbn [negb]; [|eauto].
  destruct ((1 <=? d) && (d <=? days_in_month y m)) eqn:E3; cbn [negb]; [|eauto].
  exfalso. apply andb_true_iff in E1 as [? ?], E2 as [? ?], E3 as [? ?].
  revert Hv. repeat match goal with H : _ = true |- _ => rewrite H; clear H end.
  discriminate.
Qed.

Lemma date_new_inv y m d x :
  date_new y m d = Ok x -> x = mkdate y m d /\ valid_ymd y m d = true.
Proof.
  intros H. destruct (valid_ymd y m d) eqn:E.
  - rewrite (date_new_Ok _ _ _ E) in H. inversion H. auto.
  - destruct (date_new_Raise _ _ _ E) as [msg Hm]. congruence.
Qed.

End Calendar.
Example strptime_padded :
  datetime.strptime "15.06.1990" = Ok (datetime.mkdate 1990 6 15).
Proof. reflexivity. Qed.

Example strptime_unpadded :
  datetime.strptime " 1.2.2024" = Ok (datetime.mkdate 2024 2 1).
Proof. reflexivity. Qed.

Example strptime_feb31 :
  datetime.strptime "31.02.2024" = Raise (ValueError "day is out of range for month").
Proof. reflexivity. Qed.

Example weekday_2024_06_15 :
  datetime.weekday (datetime.mkdate 2024 6 15) = 5.
Proof. reflexivity. Qed.

Example maxordinal : datetime.MAXORDINAL = 3652059.
Proof. reflexivity. Qed.

Example add_days_wraps_year :
  datetime.add_days (datetime.mkdate 2024 12 28) 7 = Ok (datetime.mkdate 2025 1 4).
Proof. reflexivity. Qed.

(** ** Phone numbers *)

Section PhoneFacts.

Lemma len_eqb_10 s : (len s =? 10) = (String.length s =? 10)%nat.
Proof.
  unfold len. destruct (Z.eqb_spec (Z.of_nat (String.length s)) 10),
    (Nat.eqb_spec (String.length s) 10); try reflexivity; lia.
Qed.

Lemma validate_phone_spec s :
  Phone.validate_phone s = true <->
  string_forall is_digit_char s = true /\ String.length s = 10%nat.
Proof.
  unfold Phone.validate_phone. rewrite len_eqb_10, andb_true_iff, Nat.eqb_eq.
  destruct s as [|c s]; cbn [isdigit String.length]; [|reflexivity].
  split; intros [H1 H2]; discriminate.
Qed.

Lemma Phone_init_valid s :
  Phone.validate_phone s = true -> Phone.init s = Ok (mkField s).
Proof. intros H. unfold Phone.init. rewrite H. reflexivity. Qed.

Lemma Phone_init_invalid s :
  Phone.validate_phone s = false ->
  Phone.init s = Raise (ValueError "Phone number must contain exactly 10 digits.").
Proof. intros H. unfold Phone.init. rewrite H. reflexivity. Qed.

Lemma is_digit_char_ascii c :
  is_ascii c = true -> is_digit_char c = is_decimal c.
Proof.
  unfold is_ascii, is_digit_char. intros H. apply Z.ltb_lt in H.
  destruct (Z.eqb_spec (ord c) 178), (Z.eqb_spec (ord c) 179),
    (Z.eqb_spec (ord c) 185); try lia.
  rewrite !orb_false_r. reflexivity.
Qed.

Lemma string_forall_ascii_digits s :
  string_forall is_ascii s = true ->
  string_forall is_digit_char s = string_forall is_decimal s.
Proof.
  induction s as [|c s IH]; cbn; [reflexivity|].
  intros H. apply andb_true_iff in H as [Hc Hs].
  rewrite (is_digit_char_ascii c Hc), (IH Hs). reflexivity.
Qed.

End PhoneFacts.

(** C3, as the code has it: [Phone(s)] succeeds exactly when [s] has
    length 10 and every character is a digit in the sense of
    [str.isdigit]; the object then holds [s] itself; every other string
    raises the [ValueError] of the class.  For a string of ASCII
    characters the digits of [str.isdigit] are the decimal digits 0-9. *)
Theorem C3_phone_construction (s : string) :
  (Phone.init s = Ok (mkField s) <->
     string_forall is_digit_char s = true /\ String.length s = 10%nat) /\
  (Phone.init s = Raise (ValueError "Phone number must contain exactly 10 digits.") <->
     ~ (string_forall is_digit_char s = true /\ String.length s = 10%nat)) /\
  (forall p, Phone.init s = Ok p -> value p = s) /\
  (string_forall is_ascii s = true ->
     string_forall is_digit_char s = string_forall is_decimal s).
Proof.
  rewrite <- validate_phone_spec.
  destruct (Phone.validate_phone s) eqn:E.
  - rewrite (Phone_init_valid s E).
    split; [tauto|]. split; [split; [discriminate|tauto]|].
    split; [|apply string_forall_ascii_digits].
    intros p Hp. injection Hp as <-. reflexivity.
  - rewrite (Phone_init_invalid s E).
    split; [split; discriminate|]. split; [split; [discriminate|reflexivity]|].
    split; [discriminate|apply string_forall_ascii_digits].
Qed.

(** C3 as stated fails: ten superscript twos (U+00B2) are no decimal
    digits, and [Phone] accepts them. *)
Lemma C3_superscript_digits_accepted :
  Phone.init superscript_twos = Ok (mkField superscript_twos) /\
  String.length superscript_twos = 10%nat /\
  string_forall is_decimal superscript_twos = false.
Proof. repeat split. Qed.

(** ** Editing a phone *)

Section EditPhone.

Lemma find_phone_in_None old l :
  Record.find_phone_in old l = None <-> ~ In old (map value l).
Proof.
  induction l as [|p l IH]; cbn.
  - tauto.
  - destruct (decide (value p = old)) as [Heq | Hne].
    + split; [discriminate | intros H; exfalso; apply H; left; exact Heq].
    + rewrite IH. tauto.
Qed.

(** The object found is the first one whose value matches, and [index]
    of that object is its position. *)
Lemma find_phone_in_Some old l o :
  Record.find_phone_in old l = Some o ->
  exists l1 l2,
    l = l1 ++ o :: l2 /\ value o = old /\ ~ In old (map value l1) /\
    list_index o l = Ok (List.length l1).
Proof.
  induction l as [|p l IH]; cbn; [discriminate|].
  destruct (decide (value p = old)) as [Heq | Hne].
  - intros [= ->]. exists [], l. cbn.
    destruct (decide (o = o)); [|congruence]. tauto.
  - intros H. destruct (IH H) as (l1 & l2 & -> & Hv & Hnot & Hidx).
    exists (p :: l1), l2. cbn.
    destruct (decide (o = p)) as [-> | _]; [congruence|].
    rewrite Hidx. repeat split; try assumption. tauto.
Qed.

Lemma insert_at_split {A} (l1 l2 : list A) (x y : A) :
  <[List.length l1 := y]> (l1 ++ x :: l2) = l1 ++ y :: l2.
Proof. induction l1 as [|a l1 IH]; cbn; [reflexivity|]. f_equal. exact IH. Qed.

End EditPhone.

(** C4: [edit_phone old new] raises "Old phone number not found." when no
    phone of the record has the value [old]; when one has, it raises the
    validation error of [Phone] if [new] is not valid, and otherwise puts
    [Phone(new)] in the place of the first phone with value [old], the
    phones before and after it, the name and the birthday staying as they
    were.  When it raises, the record is the one it was. *)
Theorem C4_edit_phone (self : Record.t) (old new : string) :
  (~ In old (map value (Record.phones self)) ->
     Record.edit_phone old new self =
       (Raise (ValueError "Old phone number not found."), self)) /\
  (In old (map value (Record.phones self)) ->
     Phone.validate_phone new = false ->
     Record.edit_phone old new self =
       (Raise (ValueError "Phone number must contain exactly 10 digits."), self)) /\
  (In old (map value (Record.phones self)) ->
     Phone.validate_phone new = true ->
     exists l1 o l2,
       Record.phones self = l1 ++ o :: l2 /\ value o = old /\
       ~ In old (map value l1) /\
       Record.edit_phone old new self =
         (Ok tt, Record.mk (Record.name self) (l1 ++ mkField new :: l2)
                   (Record.birthday self))).
Proof.
  unfold Record.edit_phone, Record.find_phone, bind, get_state, ret, raise,
    lift_result, put_state.
  destruct (Record.find_phone_in old (Record.phones self)) as [o|] eqn:Hfind.
  - assert (In old (map value (Record.phones self))) as Hin.
    { destruct (in_dec string_dec old (map value (Record.phones self))) as [H | H];
        [exact H|]. apply find_phone_in_None in H. congruence. }
    destruct (find_phone_in_Some _ _ _ Hfind) as (l1 & l2 & Hl & Hv & Hnot & Hidx).
    split; [tauto|]. split.
    + intros _ Hbad. rewrite (Phone_init_invalid new Hbad). reflexivity.
    + intros _ Hgood. rewrite (Phone_init_valid new Hgood), Hidx.
      exists l1, o, l2. repeat split; try assumption.
      unfold Record.set_phones. rewrite Hl, insert_at_split. reflexivity.
  - apply find_phone_in_None in Hfind.
    split; [reflexivity|]. split; intros Hin; contradiction.
Qed.

(** The record of the spec's example: one phone, "1111111111". *)
Lemma C4_edit_phone_witness :
  Record.edit_phone "1111111111" "2222222222"
    (Record.mk (mkField "John") [mkField "1111111111"] None) =
    (Ok tt, Record.mk (mkField "John") [mkField "2222222222"] None) /\
  Record.edit_phone "3333333333" "2222222222"
    (Record.mk (mkField "John") [mkField "1111111111"] None) =
    (Raise (ValueError "Old phone number not found."),
     Record.mk (mkField "John") [mkField "1111111111"] None).
Proof.
  split.
  - reflexivity.
  - apply (proj1 (C4_edit_phone
             (Record.mk (mkField "John") [mkField "1111111111"] None)
             "3333333333" "2222222222")).
    cbn. intros [H | []]. discriminate H.
Defined.

(** ** The dictionary *)

Section DictFacts.
Context {V : Type}.
Implicit Types (d : list (string * V)) (k : string) (v : V).

Lemma dict_get_None k d : dict_get k d = None <-> ~ In k (map fst d).
Proof.
  induction d as [|[k' v'] d IH]; cbn; [tauto|].
  destruct (decide (k = k')) as [-> | Hne].
  - split; [discriminate | intros H; exfalso; apply H; left; reflexivity].
  - rewrite IH. split; intros H; [intros [E | Hin]; [congruence | tauto] | tauto].
Qed.

Lemma dict_get_set_eq k v d : dict_get k (dict_set k v d) = Some v.
Proof.
  induction d as [|[k' v'] d IH]; cbn.
  - destruct (decide (k = k)); congruence.
  - destruct (decide (k = k')) as [-> | Hne]; cbn.
    + destruct (decide (k' = k')); congruence.
    + destruct (decide (k = k')); [contradiction | exact IH].
Qed.

Lemma dict_get_set_ne k k' v d :
  k' <> k -> dict_get k' (dict_set k v d) = dict_get k' d.
Proof.
  intros Hne. induction d as [|[k0 v0] d IH]; cbn.
  - destruct (decide (k' = k)); [contradiction | reflexivity].
  - destruct (decide (k = k0)) as [-> | Hk]; cbn.
    + destruct (decide (k' = k0)); [contradiction | reflexivity].
    + destruct (decide (k' = k0)); [reflexivity | exact IH].
Qed.

(** Assigning twice to a key is assigning the second value. *)
Lemma dict_set_set k v1 v2 d :
  dict_set k v2 (dict_set k v1 d) = dict_set k v2 d.
Proof.
  induction d as [|[k' v'] d IH]; cbn.
  - destruct (decide (k = k)); congruence.
  - destruct (decide (k = k')) as [-> | Hne]; cbn.
    + destruct (decide (k' = k')); congruence.
    + destruct (decide (k = k')); [contradiction | f_equal; exact IH].
Qed.

Lemma dict_set_keys k v d :
  map fst (dict_set k v d) =
  if dict_mem k d then map fst d else map fst d ++ [k].
Proof.
  unfold dict_mem. induction d as [|[k' v'] d IH]; cbn; [reflexivity|].
  destruct (decide (k = k')) as [-> | Hne]; cbn; [reflexivity|].
  rewrite IH. destruct (dict_get k d); reflexivity.
Qed.

Lemma dict_set_ok k v d : dict_ok d -> dict_ok (dict_set k v d).
Proof.
  unfold dict_ok. intros Hok. rewrite dict_set_keys. unfold dict_mem.
  destruct (dict_get k d) eqn:E; [exact Hok|].
  apply dict_get_None in E. apply List.NoDup_app; [exact Hok | |].
  - apply List.NoDup_cons; [intros [] | apply List.NoDup_nil].
  - intros x Hx [<- | []]. exact (E Hx).
Qed.

Lemma dict_get_del_ne k k' d :
  k' <> k -> dict_get k' (dict_del k d) = dict_get k' d.
Proof.
  intros Hne. induction d as [|[k0 v0] d IH]; cbn; [reflexivity|].
  destruct (decide (k = k0)) as [-> | Hk]; cbn.
  - destruct (decide (k' = k0)); [contradiction | reflexivity].
  - destruct (decide (k' = k0)); [reflexivity | exact IH].
Qed.

Lemma dict_del_absent k d : ~ In k (map fst d) -> dict_del k d = d.
Proof.
  induction d as [|[k0 v0] d IH]; cbn; [reflexivity|].
  intros H. destruct (decide (k = k0)) as [-> | Hk]; [tauto|].
  f_equal. apply IH. tauto.
Qed.

(** With distinct keys, deleting a key leaves the entries of the other
    keys, in their order. *)
Lemma dict_del_filter k d :
  dict_ok d ->
  dict_del k d = List.filter (fun kv => negb (String.eqb (fst kv) k)) d.
Proof.
  unfold dict_ok. induction d as [|[k0 v0] d IH]; cbn; [reflexivity|].
  intros Hok. apply List.NoDup_cons_iff in Hok as [Hnotin Hok].
  destruct (decide (k = k0)) as [-> | Hk].
  - rewrite String.eqb_refl. cbn.
    rewrite <- IH by exact Hok. symmetry. apply dict_del_absent.
    exact Hnotin.
  - destruct (String.eqb_spec k0 k) as [-> | _]; [congruence|]. cbn.
    f_equal. apply IH. exact Hok.
Qed.

Lemma dict_get_del_eq k d : dict_ok d -> dict_get k (dict_del k d) = None.
Proof.
  intros Hok. rewrite dict_del_filter by exact Hok.
  apply dict_get_None. intros Hin. apply in_map_iff in Hin as ([k' v'] & <- & Hin).
  apply filter_In in Hin as [_ Hne]. cbn in Hne.
  rewrite String.eqb_refl in Hne. discriminate.
Qed.

Lemma dict_del_ok k d : dict_ok d -> dict_ok (dict_del k d).
Proof.
  unfold dict_ok. induction d as [|[k0 v0] d IH]; cbn; [auto|].
  intros Hok. apply List.NoDup_cons_iff in Hok as [Hnotin Hok].
  destruct (decide (k = k0)) as [-> | Hk]; [exact Hok|].
  cbn. apply List.NoDup_cons; [|apply IH; exact Hok].
  intros Hin. apply Hnotin.
  apply in_map_iff in Hin as ([k' v'] & <- & Hin). cbn.
  apply in_map_iff. exists (k', v'). split; [reflexivity|].
  clear -Hin. induction d as [|[k1 v1] d IH]; cbn in *; [contradiction|].
  destruct (decide (k = k1)); [right; exact Hin|].
  destruct Hin as [E | Hin]; [left; exact E | right; apply IH; exact Hin].
Qed.

(** With distinct keys, a key that is present labels exactly one entry. *)
Lemma dict_ok_one_entry k v d :
  dict_ok d -> dict_get k d = Some v ->
  List.filter (fun kv => String.eqb (fst kv) k) d = [(k, v)].
Proof.
  unfold dict_ok. induction d as [|[k0 v0] d IH]; cbn; [discriminate|].
  intros Hok. apply List.NoDup_cons_iff in Hok as [Hnotin Hok].
  destruct (decide (k = k0)) as [-> | Hk].
  - intros [= ->]. rewrite String.eqb_refl. f_equal.
    clear IH Hok. induction d as [|[k1 v1] d IH]; cbn; [reflexivity|].
    destruct (String.eqb_spec k1 k0) as [-> | _].
    + exfalso. apply Hnotin. cbn. left. reflexivity.
    + apply IH. intros Hin. apply Hnotin. cbn. right. exact Hin.
  - destruct (String.eqb_spec k0 k) as [-> | _]; [congruence|].
    apply IH. exact Hok.
Qed.

End DictFacts.

(** ** The address book *)

(** C7: adding a record and then another one with the same name never
    raises and leaves the book as adding the second alone would: [find] on
    the name returns the second record, the other names keep their
    records, and (the keys of a dict being distinct) the name labels one
    entry only. *)
Theorem C7_add_record_last_write_wins (w : World) (r1 r2 : ref) :
  value (Record.name (objs w r1)) = value (Record.name (objs w r2)) ->
  let n := value (Record.name (objs w r2)) in
  let run := (do _ <- AddressBook.add_record r1; AddressBook.add_record r2) w in
  fst run = Ok tt /\
  AddressBook.find n (snd run) = (Ok (Some r2), snd run) /\
  snd run = snd (AddressBook.add_record r2 w) /\
  (forall n', n' <> n -> dict_get n' (data (snd run)) = dict_get n' (data w)) /\
  (dict_ok (data w) ->
     dict_ok (data (snd run)) /\
     List.filter (fun kv => String.eqb (fst kv) n) (data (snd run)) = [(n, r2)]).
Proof.
  intros Hname n run.
  assert (snd run = set_data (dict_set n r2 (data w)) w) as Hrun.
  { subst run n. unfold AddressBook.add_record, bind, modify, set_data. cbn.
    rewrite Hname, dict_set_set. reflexivity. }
  split; [reflexivity|]. rewrite Hrun.
  split; [|split; [reflexivity|split]].
  - unfold AddressBook.find, bind, get_state, ret. cbn. rewrite dict_get_set_eq. reflexivity.
  - intros n' Hne. cbn. apply dict_get_set_ne. exact Hne.
  - intros Hok. cbn. split; [apply dict_set_ok; exact Hok|].
    apply dict_ok_one_entry; [apply dict_set_ok; exact Hok | apply dict_get_set_eq].
Qed.

Lemma C7_add_record_witness :
  AddressBook.find "Ann"
    (snd ((do _ <- AddressBook.add_record 0%nat; AddressBook.add_record 1%nat) two_anns)) =
  (Ok (Some 1%nat),
   snd ((do _ <- AddressBook.add_record 0%nat; AddressBook.add_record 1%nat) two_anns)).
Proof.
  exact (proj1 (proj2 (C7_add_record_last_write_wins two_anns 0%nat 1%nat eq_refl))).
Defined.

(** C8: [delete name] raises "Name not found in address book." and leaves
    the book alone when the name is absent; when it is present the entry
    goes, [find name] then returns [None], and the other entries stay, in
    their order, with their objects. *)
Theorem C8_delete (w : World) (name : string) :
  (dict_get name (data w) = None ->
     AddressBook.delete name w =
       (Raise (ValueError "Name not found in address book."), w)) /\
  (dict_ok (data w) -> dict_get name (data w) <> None ->
     exists w',
       AddressBook.delete name w = (Ok tt, w') /\
       fst (AddressBook.find name w') = Ok None /\
       (forall n', n' <> name -> dict_get n' (data w') = dict_get n' (data w)) /\
       data w' = List.filter (fun kv => negb (String.eqb (fst kv) name)) (data w) /\
       objs w' = objs w /\
       dict_ok (data w')).
Proof.
  unfold AddressBook.delete, AddressBook.find, bind, get_state, ret, raise, put_state, dict_mem.
  split.
  - intros ->. reflexivity.
  - intros Hok Hin. destruct (dict_get name (data w)) eqn:E; [|congruence].
    eexists. split; [reflexivity|]. cbn.
    rewrite dict_get_del_eq by exact Hok.
    split; [reflexivity|]. split; [intros n' Hne; apply dict_get_del_ne; exact Hne|].
    split; [apply dict_del_filter; exact Hok|].
    split; [reflexivity | apply dict_del_ok; exact Hok].
Qed.

Lemma C8_delete_witness :
  (exists w', AddressBook.delete "Ann" ann_and_bob = (Ok tt, w') /\
              fst (AddressBook.find "Ann" w') = Ok None /\
              fst (AddressBook.find "Bob" w') = Ok (Some 1%nat)) /\
  AddressBook.delete "Eve" ann_and_bob =
    (Raise (ValueError "Name not found in address book."), ann_and_bob).
Proof.
  split.
  - destruct (proj2 (C8_delete ann_and_bob "Ann")) as (w' & Hdel & Hfind & Hother & _).
    + vm_compute. repeat constructor; cbn; intuition discriminate.
    + vm_compute. discriminate.
    + exists w'. split; [exact Hdel|]. split; [exact Hfind|].
      unfold AddressBook.find, bind, get_state, ret. cbn.
      rewrite (Hother "Bob") by discriminate. reflexivity.
  - apply (proj1 (C8_delete ann_and_bob "Eve")). reflexivity.
Defined.

(** ** Birthdays: what the constructor can do *)

Section BirthdayBasics.
Import datetime.

Lemma strptime_raises s e :
  strptime s = Raise e -> exists msg, e = ValueError msg.
Proof.
  unfold strptime.
  destruct (re_dmY s) as [|[[[d m] y] rest] ?]; [intros [= <-]; eauto|].
  destruct rest; [|intros [= <-]; eauto].
  destruct (valid_ymd y m d) eqn:E.
  - rewrite (date_new_Ok _ _ _ E). discriminate.
  - destruct (date_new_Raise _ _ _ E) as [msg ->]. intros [= <-]. eauto.
Qed.

Lemma strptime_valid s d : strptime s = Ok d -> valid d = true.
Proof.
  unfold strptime.
  destruct (re_dmY s) as [|[[[d' m] y] rest] ?]; [discriminate|].
  destruct rest; [|discriminate].
  intros H. apply date_new_inv in H as [-> H]. exact H.
Qed.

Lemma validate_birthday_spec s :
  Birthday.validate_birthday s = Ok (is_Ok (strptime s)).
Proof.
  unfold Birthday.validate_birthday.
  destruct (strptime s) as [d | e] eqn:E; [reflexivity|].
  destruct (strptime_raises s e E) as [msg ->]. reflexivity.
Qed.

Lemma Birthday_init_Ok s d :
  strptime s = Ok d -> Birthday.init s = Ok (mkField s).
Proof.
  intros H. unfold Birthday.init. rewrite validate_birthday_spec, H. reflexivity.
Qed.

Lemma Birthday_init_Raise s e :
  strptime s = Raise e ->
  Birthday.init s = Raise (ValueError "Birthday must be in DD.MM.YYYY format.").
Proof.
  intros H. unfold Birthday.init. rewrite validate_birthday_spec, H. reflexivity.
Qed.

Lemma Birthday_init_cases s :
  Birthday.init s = Ok (mkField s) \/
  Birthday.init s = Raise (ValueError "Birthday must be in DD.MM.YYYY format.").
Proof.
  destruct (strptime s) as [d | e] eqn:E.
  - left. exact (Birthday_init_Ok s d E).
  - right. exact (Birthday_init_Raise s e E).
Qed.

End BirthdayBasics.

(** ** The handlers *)

(** C10: [add] on a name the book already has, with a valid phone, goes
    through the reference that [find] returns: the object behind it gets
    the phone at the end of its list and keeps its name, its other phones
    and its birthday; the book, the other objects and the allocation
    counter are untouched (no record is created, no entry is assigned).
    The message is the one a new contact gets. *)
Theorem C10_add_to_existing_record (w : World) (n phone : string) (r : ref) :
  dict_get n (data w) = Some r ->
  Phone.validate_phone phone = true ->
  exists w',
    handle_add [n; phone] w = (Ok (added_message n phone), w') /\
    data w' = data w /\
    next w' = next w /\
    objs w' r =
      Record.mk (Record.name (objs w r))
        (Record.phones (objs w r) ++ [mkField phone])
        (Record.birthday (objs w r)) /\
    (forall r', r' <> r -> objs w' r' = objs w r') /\
    (forall w0, dict_get n (data w0) = None ->
       fst (handle_add [n; phone] w0) = Ok (added_message n phone)).
Proof.
  intros Hget Hvalid.
  exists (mkWorld (next w)
            (<[r := Record.set_phones
                      (Record.phones (objs w r) ++ [mkField phone]) (objs w r)]>
               (objs w))
            (data w)).
  split.
  { unfold handle_add, input_error, try_except, AddressBook.find, bind,
      get_state, ret.
    rewrite Hget. unfold call, Record.add_phone, bind, lift_result, modify.
    rewrite (Phone_init_valid phone Hvalid). reflexivity. }
  cbn [data next objs].
  split; [reflexivity|]. split; [reflexivity|].
  split; [apply fn_lookup_insert|].
  split; [intros r' Hne; apply fn_lookup_insert_ne; congruence|].
  intros w0 Hnone.
  unfold handle_add, input_error, try_except, AddressBook.find, bind,
    get_state, ret.
  rewrite Hnone.
  unfold new_record, call, AddressBook.add_record, Record.add_phone, bind,
    lift_result, modify. cbn [objs].
  rewrite (Phone_init_valid phone Hvalid). reflexivity.
Qed.

Lemma C10_add_to_existing_witness :
  exists w',
    handle_add ["Ann"; "5555555555"] ann_and_bob =
      (Ok "Contact 'Ann' added with phone 5555555555.", w') /\
    data w' = data ann_and_bob /\
    map value (Record.phones (objs w' 0%nat)) = ["0123456789"; "5555555555"].
Proof.
  destruct (C10_add_to_existing_record ann_and_bob "Ann" "5555555555" 0%nat
              eq_refl eq_refl) as (w' & Hrun & Hdata & _ & Hobj & _).
  exists w'. split; [exact Hrun|]. split; [exact Hdata|].
  rewrite Hobj. reflexivity.
Defined.

(** *** What the handlers return *)

Section HandlersReturn.

Lemma input_error_returns (func : M World string) w :
  (forall e, fst (func w) = Raise e -> caught e = true) ->
  exists s, fst (input_error func w) = Ok s.
Proof.
  intros H. unfold input_error, try_except.
  destruct (func w) as [[s | e] w'] eqn:E; cbn in *; [eauto|].
  specialize (H e eq_refl). destruct e; cbn in *; try discriminate; eauto.
Qed.

Lemma Phone_init_raises s e : Phone.init s = Raise e -> caught e = true.
Proof. unfold Phone.init. destruct (negb _); [intros [= <-]; reflexivity | discriminate]. Qed.

Lemma handle_add_returns args w : exists s, fst (handle_add args w) = Ok s.
Proof.
  apply input_error_returns. intros e.
  destruct args as [|name [|phone [|x args]]]; try discriminate.
  unfold AddressBook.find, bind, get_state, ret, call, new_record,
    AddressBook.add_record, Record.add_phone, bind, lift_result, modify.
  destruct (dict_get name (data w)); cbn [objs];
    destruct (Phone.init phone) eqn:E; cbn; try discriminate;
    intros [= <-]; exact (Phone_init_raises _ _ E).
Qed.

Lemma list_index_raises (o : Field) l e : list_index o l = Raise e -> caught e = true.
Proof.
  induction l as [|p l IH]; cbn; [intros [= <-]; reflexivity|].
  destruct (decide (o = p)); [discriminate|].
  destruct (list_index o l); [discriminate|]. intros [= <-]. apply IH. reflexivity.
Qed.

Lemma edit_phone_raises old new self e self' :
  Record.edit_phone old new self = (Raise e, self') -> caught e = true.
Proof.
  unfold Record.edit_phone, Record.find_phone, bind, get_state, ret, raise,
    lift_result, put_state.
  destruct (Record.find_phone_in old (Record.phones self)) as [o|];
    [|intros [= <- _]; reflexivity].
  destruct (Phone.init new) as [p | e'] eqn:Ep;
    [|intros [= <- _]; exact (Phone_init_raises _ _ Ep)].
  destruct (list_index o (Record.phones self)) as [i | e'] eqn:Ei;
    [discriminate|]. intros [= <- _]. exact (list_index_raises _ _ _ Ei).
Qed.

Lemma handle_change_returns args w : exists s, fst (handle_change args w) = Ok s.
Proof.
  apply input_error_returns. intros e.
  destruct args as [|name [|old [|new [|x args]]]]; try discriminate.
  unfold AddressBook.find, bind, get_state, ret, try_except, call.
  destruct (dict_get name (data w)) as [r|]; [|discriminate].
  destruct (Record.edit_phone old new (objs w r)) as [[[] | e'] o'] eqn:E;
    cbn; [discriminate|].
  pose proof (edit_phone_raises _ _ _ _ _ E) as Hc.
  destruct e'; cbn in Hc |- *; try discriminate; intros [= <-]; reflexivity.
Qed.

Lemma handle_phone_returns args w : exists s, fst (handle_phone args w) = Ok s.
Proof.
  apply input_error_returns. intros e.
  destruct args as [|name [|x args]]; try discriminate.
  unfold AddressBook.find, bind, get_state, ret.
  destruct (dict_get name (data w)); discriminate.
Qed.

Lemma handle_all_returns w : exists s, fst (handle_all w) = Ok s.
Proof. eexists. reflexivity. Qed.

Lemma handle_add_birthday_returns args w :
  exists s, fst (handle_add_birthday args w) = Ok s.
Proof.
  apply input_error_returns. intros e.
  destruct args as [|name [|birthday [|x args]]]; try discriminate.
  unfold AddressBook.find, bind, get_state, ret, try_except, call,
    Record.add_birthday, bind, lift_result, modify.
  destruct (dict_get name (data w)) as [r|]; [|discriminate].
  destruct (Birthday_init_cases birthday) as [-> | ->]; cbn; discriminate.
Qed.

Lemma handle_show_birthday_returns args w :
  exists s, fst (handle_show_birthday args w) = Ok s.
Proof.
  apply input_error_returns. intros e.
  destruct args as [|name [|x args]]; try discriminate.
  unfold AddressBook.find, bind, get_state, ret.
  destruct (dict_get name (data w)) as [r|]; [|discriminate].
  destruct (Record.birthday (objs w r)); discriminate.
Qed.

End HandlersReturn.

(** C5 holds in its first half: every handler that takes arguments
    returns a string, whatever the arguments and the book. *)
Lemma handlers_return_a_string (args : list string) (w : World) :
  (exists s, fst (handle_add args w) = Ok s) /\
  (exists s, fst (handle_change args w) = Ok s) /\
  (exists s, fst (handle_phone args w) = Ok s) /\
  (exists s, fst (handle_add_birthday args w) = Ok s) /\
  (exists s, fst (handle_show_birthday args w) = Ok s) /\
  (exists s, fst (handle_all w) = Ok s).
Proof.
  repeat split.
  - apply handle_add_returns.
  - apply handle_change_returns.
  - apply handle_phone_returns.
  - apply handle_add_birthday_returns.
  - apply handle_show_birthday_returns.
  - apply handle_all_returns.
Qed.

(** C5 fails in its second half.  In the book with Ann (phone
    "0123456789"), [change] with an invalid new phone, [change] with an
    unknown old phone and [add-birthday] with an invalid date all return
    the bare message of the exception, without the prefix "Error: ",
    because the inner [except ValueError] of these two handlers returns
    [str(e)].  The same invalid phone given to [add], which has no inner
    [try], comes back through the decorator with the prefix. *)
Theorem C5_validation_message_without_prefix :
  fst (handle_change ["Ann"; "0123456789"; "123"] ann_and_bob) =
    Ok "Phone number must contain exactly 10 digits." /\
  startswith "Error: " "Phone number must contain exactly 10 digits." = false /\
  fst (handle_change ["Ann"; "1111111111"; "2222222222"] ann_and_bob) =
    Ok "Old phone number not found." /\
  startswith "Error: " "Old phone number not found." = false /\
  fst (handle_add_birthday ["Ann"; "31.02.2024"] ann_and_bob) =
    Ok "Birthday must be in DD.MM.YYYY format." /\
  startswith "Error: " "Birthday must be in DD.MM.YYYY format." = false /\
  fst (handle_add ["Ann"; "123"] ann_and_bob) =
    Ok "Error: Phone number must contain exactly 10 digits.".
Proof. repeat split. Qed.

(** ** Days to the birthday *)

Section DaysToBirthday.
Import datetime.

Lemma birthday_date_Some r b bd :
  Record.birthday r = Some b -> strptime (value b) = Ok bd ->
  birthday_date r = Some bd.
Proof. intros Hb Hp. unfold birthday_date. rewrite Hb, Hp. reflexivity. Qed.

Lemma replace_year_occurrence bd y :
  valid (occurrence y bd) = true -> replace_year bd y = Ok (occurrence y bd).
Proof. intros H. unfold replace_year. apply date_new_Ok. exact H. Qed.

Lemma replace_year_fails bd y :
  valid (occurrence y bd) = false ->
  exists msg, replace_year bd y = Raise (ValueError msg).
Proof. intros H. unfold replace_year. apply date_new_Raise. exact H. Qed.

(** A day of a later year is a later day. *)
Lemma later_year a b :
  valid a = true -> valid b = true -> year a < year b ->
  toordinal a < toordinal b.
Proof.
  intros Ha Hb Hy. apply ltb_toordinal; [assumption..|].
  unfold ltb. apply Z.ltb_lt in Hy. rewrite Hy. reflexivity.
Qed.

End DaysToBirthday.

(** C2, as the code has it.  Without a birthday the answer is [None].
    With one, provided the occurrence the method builds exists (the
    birthday's month and day in today's year, and in the next year when
    the former is before today), the answer is the number of days from
    today to the occurrence in today's year, or to the one in the next
    year if the former is strictly before today; it is never negative.
    The record is not changed. *)
Theorem C2_days_to_birthday (today : datetime.date) (r : Record.t) :
  datetime.valid today = true ->
  (Record.birthday r = None ->
     Record.days_to_birthday today r = (Ok None, r)) /\
  (forall b bd,
     Record.birthday r = Some b ->
     datetime.strptime (value b) = Ok bd ->
     let y := datetime.year today in
     let passed :=
       datetime.toordinal (occurrence y bd) <? datetime.toordinal today in
     datetime.valid (occurrence y bd) = true ->
     (passed = true -> datetime.valid (occurrence (y + 1) bd) = true) ->
     exists n,
       Record.days_to_birthday today r = (Ok (Some n), r) /\
       n = datetime.toordinal (occurrence (if passed then y + 1 else y) bd)
           - datetime.toordinal today /\
       0 <= n).
Proof.
  intros Htoday. split.
  - intros Hb. unfold Record.days_to_birthday, bind, get_state, ret.
    rewrite Hb. reflexivity.
  - intros b bd Hb Hparse y passed Hocc Hnext.
    unfold Record.days_to_birthday, bind, get_state, ret, lift_result.
    rewrite Hb, Hparse. fold y.
    rewrite (replace_year_occurrence bd y Hocc).
    destruct (datetime.ltb (occurrence y bd) today) eqn:Hlt.
    + apply ltb_spec in Hlt; [|assumption..].
      assert (passed = true) as Hp by (apply Z.ltb_lt; exact Hlt).
      specialize (Hnext Hp). rewrite Hp.
      change (datetime.replace_year (occurrence y bd) (y + 1))
        with (datetime.replace_year bd (y + 1)).
      rewrite (replace_year_occurrence bd (y + 1) Hnext).
      eexists. split; [reflexivity|]. split; [reflexivity|].
      unfold datetime.sub_days.
      pose proof (later_year today (occurrence (y + 1) bd) Htoday Hnext) as H.
      cbn [datetime.year occurrence] in H. specialize (H ltac:(subst y; lia)). lia.
    + assert (passed = false) as Hp.
      { apply Z.ltb_ge. destruct (Z.lt_ge_cases (datetime.toordinal (occurrence y bd))
                                    (datetime.toordinal today)) as [H | H]; [|lia].
        apply ltb_spec in H; [congruence|assumption..]. }
      rewrite Hp. eexists. split; [reflexivity|]. split; [reflexivity|].
      unfold datetime.sub_days. apply Z.ltb_ge in Hp. lia.
Qed.

(** Bob's birthday, 15 June, seen from 10 June 2024 and from 1 July 2024. *)
Lemma C2_days_to_birthday_witness :
  fst (Record.days_to_birthday (datetime.mkdate 2024 6 10) (objs june_book 0%nat)) =
    Ok (Some 5) /\
  fst (Record.days_to_birthday (datetime.mkdate 2024 7 1) (objs june_book 0%nat)) =
    Ok (Some 349).
Proof.
  split.
  - destruct (proj2 (C2_days_to_birthday (datetime.mkdate 2024 6 10)
                       (objs june_book 0%nat) eq_refl)
                (mkField "15.06.1990") (datetime.mkdate 1990 6 15)
                eq_refl eq_refl eq_refl ltac:(discriminate))
      as (n & Hrun & -> & _).
    rewrite Hrun. reflexivity.
  - destruct (proj2 (C2_days_to_birthday (datetime.mkdate 2024 7 1)
                       (objs june_book 0%nat) eq_refl)
                (mkField "15.06.1990") (datetime.mkdate 1990 6 15)
                eq_refl eq_refl eq_refl ltac:(reflexivity))
      as (n & Hrun & -> & _).
    rewrite Hrun. reflexivity.
Defined.

(** C2 as stated fails where the occurrence does not exist.  A birthday on
    29 February has none in 2025, and 1 January has none in the year
    after 9999: the method raises instead of returning a number. *)
Lemma C2_no_occurrence_raises :
  Birthday.init "29.02.2024" = Ok (mkField "29.02.2024") /\
  Record.days_to_birthday (datetime.mkdate 2025 3 1) (objs leap_day_book 0%nat) =
    (Raise (ValueError "day is out of range for month"), objs leap_day_book 0%nat) /\
  Record.days_to_birthday (datetime.mkdate 9999 12 31) (objs june_book 0%nat) =
    (Raise (ValueError "year 10000 is out of range"), objs june_book 0%nat).
Proof. repeat split. Qed.

(** ** Upcoming birthdays *)

Section Upcoming.
Import datetime.

Lemma leb_toordinal a b :
  valid a = true -> valid b = true ->
  leb a b = (toordinal a <=? toordinal b).
Proof.
  intros Ha Hb. pose proof (leb_spec a b Ha Hb) as H.
  destruct (leb a b), (Z.leb_spec (toordinal a) (toordinal b));
    try reflexivity; [|tauto].
  destruct H as [H _]. specialize (H eq_refl). lia.
Qed.

(** The last day of the calendar is a Friday, so the shift of a weekend
    day never leaves the calendar. *)
Lemma weekend_shift_in_range d :
  toordinal d <= MAXORDINAL -> toordinal d + weekend_shift d <= MAXORDINAL.
Proof.
  unfold weekend_shift, weekday. change MAXORDINAL with 3652059. intros H.
  destruct (Z.eqb_spec ((toordinal d + 6) mod 7) 5) as [E5 | _];
    [Z.div_mod_to_equations; lia|].
  destruct (Z.eqb_spec ((toordinal d + 6) mod 7) 6) as [E6 | _];
    [Z.div_mod_to_equations; lia | lia].
Qed.

Lemma weekend_shift_nonneg d : 0 <= weekend_shift d <= 2.
Proof.
  unfold weekend_shift. destruct (weekday d =? 5); [lia|].
  destruct (weekday d =? 6); lia.
Qed.

(** The move of a weekend day to the Monday after it always succeeds. *)
Lemma weekend_move_spec occ :
  valid occ = true ->
  exists d',
    (if weekday occ =? 5 then add_days occ 2
     else if weekday occ =? 6 then add_days occ 1 else Ok occ) = Ok d' /\
    valid d' = true /\
    toordinal d' = toordinal occ + weekend_shift occ.
Proof.
  intros Hocc.
  pose proof (toordinal_bounds occ Hocc) as Hb1.
  pose proof (weekend_shift_in_range occ ltac:(lia)) as Hrange.
  pose proof (weekend_shift_nonneg occ) as Hnn.
  destruct (add_days_spec occ (weekend_shift occ) Hocc ltac:(lia) Hrange)
    as (d' & Hadd & Hv' & Hord).
  exists d'. split; [|split; assumption].
  unfold weekend_shift in Hadd, Hord.
  destruct (weekday occ =? 5); [exact Hadd|].
  destruct (weekday occ =? 6); [exact Hadd|].
  f_equal. apply toordinal_inj; [assumption..|lia].
Qed.

Variables today seven_days_later : date.
Hypothesis today_valid : valid today = true.
Hypothesis seven_valid : valid seven_days_later = true.
Hypothesis seven_ordinal : toordinal seven_days_later = toordinal today + 7.

(** One turn of the loop, for a record whose birthday exists this year. *)
Lemma upcoming_entry_spec (r : Record.t) (b : Field) (bd : date) :
  Record.birthday r = Some b ->
  strptime (value b) = Ok bd ->
  valid (occurrence (year today) bd) = true ->
  if in_window today r
  then exists e, AddressBook.upcoming_entry today seven_days_later r b = Ok (Some e) /\
                 reports today r e
  else AddressBook.upcoming_entry today seven_days_later r b = Ok None.
Proof.
  intros Hb Hparse Hocc.
  pose proof (birthday_date_Some r b bd Hb Hparse) as Hbd.
  unfold in_window, AddressBook.upcoming_entry. rewrite Hbd, Hparse.
  rewrite (replace_year_occurrence bd (year today) Hocc). cbv zeta.
  set (occ := occurrence (year today) bd) in *.
  rewrite (leb_toordinal today occ today_valid Hocc),
    (leb_toordinal occ seven_days_later Hocc seven_valid), seven_ordinal.
  destruct ((toordinal today <=? toordinal occ) &&
            (toordinal occ <=? toordinal today + 7)) eqn:Hwin; [|reflexivity].
  destruct (weekend_move_spec occ Hocc) as (d' & -> & Hv' & Hord).
  eexists. split; [reflexivity|].
  split; [reflexivity|]. exists bd. cbn [entry_birthday]. auto.
Qed.

(** The loop keeps what it has and appends the reports of the records in
    the window, in the order of the records. *)
Lemma upcoming_loop_spec (records : list Record.t) :
  Forall Record_ok records ->
  Forall (occurs_in (year today)) records ->
  forall acc, exists l,
    AddressBook.upcoming_loop today seven_days_later records acc = Ok (acc ++ l) /\
    Forall2 (reports today) (List.filter (in_window today) records) l.
Proof.
  induction records as [|r records IH]; intros Hok Hocc acc.
  - exists []. cbn. rewrite app_nil_r. split; [reflexivity | constructor].
  - apply List.Forall_cons_iff in Hok as [Hr Hok].
    apply List.Forall_cons_iff in Hocc as [Hor Hocc].
    specialize (IH Hok Hocc). cbn [AddressBook.upcoming_loop List.filter].
    destruct (Record.birthday r) as [b|] eqn:Hb.
    + specialize (Hr b Hb).
      destruct (strptime (value b)) as [bd|] eqn:Hparse; [|discriminate].
      pose proof (birthday_date_Some r b bd Hb Hparse) as Hbd.
      pose proof (upcoming_entry_spec r b bd Hb Hparse (Hor bd Hbd)) as Hentry.
      destruct (in_window today r).
      * destruct Hentry as (e & -> & Hrep).
        destruct (IH (acc ++ [e])) as (l & -> & Hl).
        exists (e :: l). rewrite <- app_assoc. split; [reflexivity|].
        constructor; assumption.
      * rewrite Hentry. apply IH.
    + assert (in_window today r = false) as ->.
      { unfold in_window, birthday_date. rewrite Hb. reflexivity. }
      apply IH.
Qed.

(** Whatever the loop raises is a [ValueError]. *)
Lemma upcoming_entry_raises (r : Record.t) (b : Field) (e : exn) :
  AddressBook.upcoming_entry today seven_days_later r b = Raise e ->
  exists msg, e = ValueError msg.
Proof.
  unfold AddressBook.upcoming_entry.
  destruct (strptime (value b)) as [d | e'] eqn:Hparse.
  - unfold replace_year.
    destruct (date_new (year today) (month d) (day d)) as [occ | e'] eqn:Hnew.
    + apply date_new_inv in Hnew as [-> Hocc].
      destruct (weekend_move_spec (mkdate (year today) (month d) (day d)) Hocc)
        as (d' & -> & _).
      destruct (_ && _); discriminate.
    + destruct (valid_ymd (year today) (month d) (day d)) eqn:Hv.
      * rewrite (date_new_Ok _ _ _ Hv) in Hnew. discriminate.
      * destruct (date_new_Raise _ _ _ Hv) as [msg Hmsg].
        rewrite Hmsg in Hnew. injection Hnew as <-. intros [= <-]. eauto.
  - destruct (strptime_raises _ _ Hparse) as [msg ->]. intros [= <-]. eauto.
Qed.

Lemma upcoming_loop_raises_ValueError (records : list Record.t) (e : exn) :
  forall acc,
    AddressBook.upcoming_loop today seven_days_later records acc = Raise e ->
    exists msg, e = ValueError msg.
Proof.
  induction records as [|r records IH]; intros acc; cbn [AddressBook.upcoming_loop];
    [discriminate|].
  destruct (Record.birthday r) as [b|]; [|apply IH].
  destruct (AddressBook.upcoming_entry today seven_days_later r b)
    as [[x|]|e'] eqn:He; [apply IH | apply IH |].
  intros [= <-]. exact (upcoming_entry_raises r b e' He).
Qed.

End Upcoming.

(** [birthdays] returns a string as long as today is at least seven days
    before the end of the calendar; in the last week of the year 9999
    the [OverflowError] of [today + timedelta(days=7)] is not one of the
    exceptions the decorator catches. *)
Lemma handle_birthdays_returns (today : datetime.date) (w : World) :
  datetime.valid today = true ->
  datetime.toordinal today + 7 <= datetime.MAXORDINAL ->
  exists s, fst (handle_birthdays today w) = Ok s.
Proof.
  intros Htoday Hrange. apply input_error_returns. intros e.
  destruct (add_days_spec today 7 Htoday ltac:(lia) Hrange)
    as (seven & Hadd & Hseven & Hord).
  unfold AddressBook.get_upcoming_birthdays, bind, lift_result, get_state, ret.
  rewrite Hadd.
  destruct (AddressBook.upcoming_loop today seven (AddressBook.values w) [])
    as [l | e'] eqn:Hloop.
  - destruct l; discriminate.
  - cbn. intros [= <-].
    destruct (upcoming_loop_raises_ValueError today seven _ _ _ Hloop) as [msg ->].
    reflexivity.
Qed.

Example handle_birthdays_end_of_calendar :
  fst (handle_birthdays (datetime.mkdate 9999 12 28) empty_world) =
    Raise (OverflowError "date value out of range").
Proof. reflexivity. Qed.

(** C1, as the code has it.  Where the call gets through, which is when
    today is at least seven days before the end of the calendar and every
    birthday of the book is a day of today's year, the report has one
    entry for each record whose birthday, moved to today's year and never
    to the next, falls on today or one of the seven days after it, and
    for no other record; the entries come in the order of the book; each
    carries the record's name and the date two days after the occurrence
    when that is a Saturday, one day after it when it is a Sunday, and
    the occurrence itself otherwise.  The book is not changed. *)
Theorem C1_upcoming_birthdays (today : datetime.date) (w : World) :
  datetime.valid today = true ->
  datetime.toordinal today + 7 <= datetime.MAXORDINAL ->
  Forall Record_ok (AddressBook.values w) ->
  Forall (occurs_in (datetime.year today)) (AddressBook.values w) ->
  exists l,
    AddressBook.get_upcoming_birthdays today w = (Ok l, w) /\
    Forall2 (reports today)
      (List.filter (in_window today) (AddressBook.values w)) l.
Proof.
  intros Htoday Hrange Hok Hocc.
  destruct (add_days_spec today 7 Htoday ltac:(lia) Hrange)
    as (seven & Hadd & Hseven & Hord).
  destruct (upcoming_loop_spec today seven Htoday Hseven Hord
              (AddressBook.values w) Hok Hocc []) as (l & Hloop & Hl).
  exists l. split; [|exact Hl].
  unfold AddressBook.get_upcoming_birthdays, bind, lift_result, get_state.
  rewrite Hadd, Hloop. reflexivity.
Qed.

(** ** What [strptime] reads *)

Section Parsing.
Import datetime.

Lemma ord_range c : 0 <= ord c < 256.
Proof.
  unfold ord. pose proof (nat_ascii_bounded c). lia.
Qed.

Lemma ord_inj a b : ord a = ord b -> a = b.
Proof.
  unfold ord. intros H. apply Nat2Z.inj in H.
  rewrite <- (ascii_nat_embedding a), <- (ascii_nat_embedding b), H. reflexivity.
Qed.

Lemma is_char_ord c a : is_char c a = (ord a =? ord c).
Proof.
  unfold is_char. destruct (Z.eqb_spec (ord a) (ord c)) as [E | E].
  - apply ord_inj in E. subst. apply bool_decide_eq_true. reflexivity.
  - apply bool_decide_eq_false. intros ->. apply E. reflexivity.
Qed.

Lemma ord_digit n : ord (digit n) = 48 + n mod 10.
Proof.
  unfold ord, digit. pose proof (Z.mod_pos_bound n 10 ltac:(lia)).
  rewrite nat_ascii_embedding by lia. lia.
Qed.

Lemma digit_int1 a : is_decimal a = true -> digit (int1 a) = a.
Proof.
  unfold is_decimal, in_range, int1. change (ord "0") with 48. change (ord "9") with 57.
  intros H. bool_to_prop H. apply ord_inj. rewrite ord_digit.
  rewrite Z.mod_small; lia.
Qed.

Lemma int1_digit n : int1 (digit n) = n mod 10.
Proof. unfold int1. rewrite ord_digit. lia. Qed.

End Parsing.

(** Character tests become comparisons of code points. *)
Ltac literal_ords :=
  repeat match goal with
  | |- context [ord (Ascii ?a ?b ?c ?d ?e ?f ?g ?h)] =>
      let v := eval vm_compute in (ord (Ascii a b c d e f g h)) in
      change (ord (Ascii a b c d e f g h)) with v
  end.

Ltac split_tests :=
  repeat match goal with
  | |- context [Z.leb ?x ?y] => destruct (Z.leb_spec x y); try (exfalso; lia)
  | |- context [Z.eqb ?x ?y] => destruct (Z.eqb_spec x y); try (exfalso; lia)
  end.

Ltac regex_cases :=
  repeat progress
    (rewrite ?is_char_ord; unfold is_decimal, in_range;
     literal_ords; split_tests;
     cbn [andb orb flat_map app fst snd]; rewrite ?app_nil_r);
  try reflexivity.

Section Regex.
Import datetime.
Context {B : Type}.

Lemma re_d_then_dot (k : Z -> matcher B) (s : string) :
  andthen re_d (fun d => andthen re_dot (fun _ => k d)) s =
  match day_dot s with Some (n, r) => k n r | None => [] end.
Proof.
  unfold andthen, re_d, re_dot, two, one, blank_one, day_dot, two_digit_day.
  destruct s as [|a [|b [|c r]]]; try reflexivity;
    try change (bool_decide (a = " "%char)) with (is_char " " a);
    regex_cases.
Qed.

Lemma re_m_then_dot (k : Z -> matcher B) (s : string) :
  andthen re_m (fun m => andthen re_dot (fun _ => k m)) s =
  match month_dot s with Some (n, r) => k n r | None => [] end.
Proof.
  unfold andthen, re_m, re_dot, two, one, month_dot, two_digit_month.
  destruct s as [|a [|b [|c r]]]; try reflexivity; regex_cases.
Qed.

End Regex.

Section Tokens.
Import datetime.

Lemma digit_mod n : digit n = digit (n mod 10).
Proof. unfold digit. rewrite Z.mod_mod by lia. reflexivity. Qed.

Lemma pad2_int2 a b :
  is_decimal a = true -> is_decimal b = true ->
  pad2 (int2 a b) = String a (String b EmptyString).
Proof.
  intros Ha Hb. pose proof (digit_int1 a Ha) as Da. pose proof (digit_int1 b Hb) as Db.
  unfold is_decimal, in_range in Ha, Hb. revert Ha Hb. literal_ords. intros Ha Hb.
  bool_to_prop Ha. bool_to_prop Hb.
  unfold pad2, int2. f_equal; [|f_equal].
  - rewrite <- Da at 2. f_equal. unfold int1 in *. Z.div_mod_to_equations. lia.
  - rewrite <- Db at 2. rewrite digit_mod. f_equal.
    unfold int1 in *. Z.div_mod_to_equations. lia.
Qed.

Lemma int2_pad2_digits n :
  0 <= n < 100 -> int2 (digit (n / 10)) (digit n) = n.
Proof.
  intros H. unfold int2. rewrite !int1_digit. Z.div_mod_to_equations. lia.
Qed.

Lemma pad2_in_day_forms n : In (pad2 n) (day_forms n).
Proof. unfold day_forms. destruct (n <? 10); left; reflexivity. Qed.

Lemma pad2_in_month_forms n : In (pad2 n) (month_forms n).
Proof. unfold month_forms. destruct (n <? 10); left; reflexivity. Qed.

(** What [day_dot] reads: a day between 1 and 31 in one of its forms. *)
Lemma day_dot_Some s n r :
  day_dot s = Some (n, r) ->
  1 <= n <= 31 /\ exists ds, In ds (day_forms n) /\ s = ds +:+ "." +:+ r.
Proof.
  unfold day_dot. destruct s as [|a [|b rest]]; try discriminate.
  destruct (is_char "." b) eqn:Eb.
  - destruct (in_range "1" "9" a) eqn:Ea; [|discriminate]. intros [= <- <-].
    assert (is_decimal a = true) as Hdec.
    { unfold is_decimal, in_range in *. revert Ea. literal_ords. intros Ea.
      bool_to_prop Ea. apply andb_true_iff. rewrite !Z.leb_le. lia. }
    unfold in_range in Ea. revert Ea. literal_ords. intros Ea. bool_to_prop Ea.
    unfold is_char in Eb. apply bool_decide_eq_true in Eb. subst b.
    split; [unfold int1; lia|].
    exists (String a EmptyString). split; [|reflexivity].
    unfold day_forms. destruct (Z.ltb_spec (int1 a) 10); [|unfold int1 in *; lia].
    right. left. rewrite (digit_int1 a Hdec). reflexivity.
  - destruct rest as [|c rest']; [discriminate|].
    destruct (is_char "." c) eqn:Ec; [|discriminate].
    unfold is_char in Ec. apply bool_decide_eq_true in Ec. subst c.
    destruct (two_digit_day a b) eqn:E2.
    + intros [= <- <-].
      assert (is_decimal a = true /\ is_decimal b = true /\ 1 <= int2 a b <= 31)
        as (Ha & Hb & Hn).
      { revert E2. unfold two_digit_day, is_decimal, in_range, int2, int1.
        rewrite !is_char_ord. literal_ords. intros E2. bool_to_prop E2.
        rewrite !andb_true_iff, !Z.leb_le. lia. }
      split; [exact Hn|]. exists (pad2 (int2 a b)).
      split; [apply pad2_in_day_forms|]. rewrite (pad2_int2 a b Ha Hb). reflexivity.
    + destruct (is_char " " a && in_range "1" "9" b) eqn:E3; [|discriminate].
      intros [= <- <-]. apply andb_true_iff in E3 as [Ea E3].
      unfold is_char in Ea. apply bool_decide_eq_true in Ea. subst a.
      assert (is_decimal b = true) as Hdec.
      { unfold is_decimal, in_range in *. revert E3. literal_ords. intros E3.
        bool_to_prop E3. apply andb_true_iff. rewrite !Z.leb_le. lia. }
      unfold in_range in E3. revert E3. literal_ords. intros E3. bool_to_prop E3.
      split; [unfold int1; lia|].
      exists (String " " (String b EmptyString)). split; [|reflexivity].
      unfold day_forms. destruct (Z.ltb_spec (int1 b) 10); [|unfold int1 in *; lia].
      right. right. left. rewrite (digit_int1 b Hdec). reflexivity.
Qed.

Lemma day_dot_forms n ds r :
  1 <= n <= 31 -> In ds (day_forms n) ->
  day_dot (ds +:+ "." +:+ r) = Some (n, r).
Proof.
  intros Hn Hin.
  assert (ds = pad2 n \/
          n < 10 /\ (ds = String (digit n) EmptyString \/
                     ds = String " " (String (digit n) EmptyString))) as Hds.
  { unfold day_forms in Hin. destruct (Z.ltb_spec n 10); cbn in Hin; intuition. }
  destruct Hds as [-> | (Hlt & [-> | ->])]; unfold pad2, day_dot;
    cbv [String.append].
  all: unfold two_digit_day, is_decimal, in_range, int2;
    rewrite ?is_char_ord, ?int1_digit, ?ord_digit; literal_ords;
    Z.div_mod_to_equations; split_tests; cbn [andb orb];
    repeat f_equal; lia.
Qed.

End Tokens.

Section MonthYear.
Import datetime.

Lemma month_dot_Some s n r :
  month_dot s = Some (n, r) ->
  1 <= n <= 12 /\ exists ms, In ms (month_forms n) /\ s = ms +:+ "." +:+ r.
Proof.
  unfold month_dot. destruct s as [|a [|b rest]]; try discriminate.
  destruct (is_char "." b) eqn:Eb.
  - destruct (in_range "1" "9" a) eqn:Ea; [|discriminate]. intros [= <- <-].
    assert (is_decimal a = true) as Hdec.
    { unfold is_decimal, in_range in *. revert Ea. literal_ords. intros Ea.
      bool_to_prop Ea. apply andb_true_iff. rewrite !Z.leb_le. lia. }
    unfold in_range in Ea. revert Ea. literal_ords. intros Ea. bool_to_prop Ea.
    unfold is_char in Eb. apply bool_decide_eq_true in Eb. subst b.
    split; [unfold int1; lia|].
    exists (String a EmptyString). split; [|reflexivity].
    unfold month_forms. destruct (Z.ltb_spec (int1 a) 10); [|unfold int1 in *; lia].
    right. left. rewrite (digit_int1 a Hdec). reflexivity.
  - destruct rest as [|c rest']; [discriminate|].
    destruct (is_char "." c) eqn:Ec; [|discriminate].
    unfold is_char in Ec. apply bool_decide_eq_true in Ec. subst c.
    destruct (two_digit_month a b) eqn:E2; [|discriminate].
    intros [= <- <-].
    assert (is_decimal a = true /\ is_decimal b = true /\ 1 <= int2 a b <= 12)
      as (Ha & Hb & Hn).
    { revert E2. unfold two_digit_month, is_decimal, in_range, int2, int1.
      rewrite !is_char_ord. literal_ords. intros E2. bool_to_prop E2.
      rewrite !andb_true_iff, !Z.leb_le. lia. }
    split; [exact Hn|]. exists (pad2 (int2 a b)).
    split; [apply pad2_in_month_forms|]. rewrite (pad2_int2 a b Ha Hb). reflexivity.
Qed.

Lemma month_dot_forms n ms r :
  1 <= n <= 12 -> In ms (month_forms n) ->
  month_dot (ms +:+ "." +:+ r) = Some (n, r).
Proof.
  intros Hn Hin.
  assert (ms = pad2 n \/ n < 10 /\ ms = String (digit n) EmptyString) as Hms.
  { unfold month_forms in Hin. destruct (Z.ltb_spec n 10); cbn in Hin; intuition. }
  destruct Hms as [-> | (Hlt & ->)]; unfold pad2, month_dot;
    cbv [String.append].
  all: unfold two_digit_month, is_decimal, in_range, int2;
    rewrite ?is_char_ord, ?int1_digit, ?ord_digit; literal_ords;
    Z.div_mod_to_equations; split_tests; cbn [andb orb];
    repeat f_equal; lia.
Qed.

Lemma digit_of_decimal a n :
  is_decimal a = true -> n mod 10 = int1 a -> digit n = a.
Proof.
  intros Ha Hn. rewrite digit_mod, Hn. apply digit_int1. exact Ha.
Qed.

Lemma int1_range a : is_decimal a = true -> 0 <= int1 a <= 9.
Proof.
  unfold is_decimal, in_range, int1. literal_ords. intros H. bool_to_prop H. lia.
Qed.

Lemma pad4_int a b c d :
  is_decimal a = true -> is_decimal b = true ->
  is_decimal c = true -> is_decimal d = true ->
  pad4 (100 * int2 a b + int2 c d) =
  String a (String b (String c (String d EmptyString))).
Proof.
  intros Ha Hb Hc Hd.
  pose proof (int1_range a Ha). pose proof (int1_range b Hb).
  pose proof (int1_range c Hc). pose proof (int1_range d Hd).
  unfold pad4, int2.
  f_equal; [|f_equal; [|f_equal; [|f_equal]]];
    apply digit_of_decimal; try assumption;
    Z.div_mod_to_equations; lia.
Qed.

(** [%Y] reads exactly four decimal digits. *)
Lemma re_Y_inv s y r :
  In (y, r) (re_Y s) -> 0 <= y <= 9999 /\ s = pad4 y +:+ r.
Proof.
  unfold re_Y. destruct s as [|a [|b [|c [|d rest]]]]; try (intros []).
  destruct (is_decimal a) eqn:Ha; [|intros []].
  destruct (is_decimal b) eqn:Hb; [|intros []].
  destruct (is_decimal c) eqn:Hc; [|intros []].
  destruct (is_decimal d) eqn:Hd; [|intros []].
  cbn [andb]. intros [[= <- <-] | []].
  rewrite (pad4_int a b c d Ha Hb Hc Hd).
  pose proof (int1_range a Ha). pose proof (int1_range b Hb).
  pose proof (int1_range c Hc). pose proof (int1_range d Hd).
  split; [unfold int2; lia | reflexivity].
Qed.

Lemma re_Y_pad4 y r : 0 <= y <= 9999 -> re_Y (pad4 y +:+ r) = [(y, r)].
Proof.
  intros Hy. unfold pad4, re_Y. cbv [String.append].
  unfold is_decimal, in_range, int2. rewrite ?int1_digit, ?ord_digit. literal_ords.
  Z.div_mod_to_equations; split_tests; cbn [andb orb].
  assert (100 * (10 * r3 + r4) + (10 * r5 + r2) = y) as -> by lia. reflexivity.
Qed.

Lemma flat_map_single {A C} (f : A -> C) (l : list A) :
  flat_map (fun a => [f a]) l = map f l.
Proof. induction l as [|a l IH]; cbn; [reflexivity|]. rewrite IH. reflexivity. Qed.

(** The regular expression, read without backtracking. *)
Lemma re_dmY_deterministic s :
  re_dmY s =
  match day_dot s with
  | Some (d, r1) =>
      match month_dot r1 with
      | Some (m, r2) => map (fun yr => ((d, m, fst yr), snd yr)) (re_Y r2)
      | None => []
      end
  | None => []
  end.
Proof.
  unfold re_dmY. rewrite re_d_then_dot.
  destruct (day_dot s) as [[d r1]|]; [|reflexivity].
  rewrite re_m_then_dot.
  destruct (month_dot r1) as [[m r2]|]; [|reflexivity].
  unfold andthen. apply flat_map_single.
Qed.

(** What [strptime] accepts and what it returns. *)
Lemma strptime_spec s d :
  strptime s = Ok d <-> valid d = true /\ written_as d s.
Proof.
  unfold strptime. rewrite re_dmY_deterministic. split.
  - destruct (day_dot s) as [[dd r1]|] eqn:Ed; [|discriminate].
    destruct (month_dot r1) as [[mm r2]|] eqn:Em; [|discriminate].
    destruct (re_Y r2) as [|[yy r3] l] eqn:Ey; [discriminate|].
    cbn [map fst snd]. destruct r3; [|discriminate].
    intros H. apply date_new_inv in H as [-> Hv]. split; [exact Hv|].
    apply day_dot_Some in Ed as (_ & ds & Hds & ->).
    apply month_dot_Some in Em as (_ & ms & Hms & ->).
    assert (In (yy, EmptyString) (re_Y r2)) as Hin by (rewrite Ey; left; reflexivity).
    apply re_Y_inv in Hin as (_ & ->).
    exists ds, ms. cbn [day month year]. repeat split; assumption.
  - intros [Hv (ds & ms & Hds & Hms & ->)].
    destruct d as [y m d]. cbn [day month year] in *.
    unfold valid in Hv. cbn [day month year] in Hv. pose proof Hv as Hv'.
    apply valid_ymd_spec in Hv as (Hy & Hm & Hd).
    assert (days_in_month y m <= 31) as Hdim.
    { unfold days_in_month.
      destruct (month_cases _ Hm) as [->|[->|[->|[->|[->|[->|[->|[->|[->|[->|[->| ->]]]]]]]]]]];
        try destruct (is_leap _); lia. }
    rewrite (day_dot_forms d ds _ ltac:(lia) Hds).
    rewrite (month_dot_forms m ms _ Hm Hms).
    change (pad4 y) with (pad4 y +:+ EmptyString).
    rewrite (re_Y_pad4 y EmptyString ltac:(lia)). cbn [map fst snd].
    apply date_new_Ok. exact Hv'.
Qed.

End MonthYear.

(** ** Birthdays *)

Section BirthdayFacts.
Import datetime.

Lemma DD_MM_YYYY_written_as d : written_as d (DD_MM_YYYY d).
Proof.
  exists (pad2 (day d)), (pad2 (month d)).
  split; [apply pad2_in_day_forms|]. split; [apply pad2_in_month_forms|reflexivity].
Qed.

(** Parsing the zero-padded writing of a date gives the date back. *)
Lemma strptime_DD_MM_YYYY d : valid d = true -> strptime (DD_MM_YYYY d) = Ok d.
Proof. intros Hv. apply strptime_spec. split; [exact Hv | apply DD_MM_YYYY_written_as]. Qed.

Lemma DD_MM_YYYY_length d : String.length (DD_MM_YYYY d) = 10%nat.
Proof. reflexivity. Qed.

(** The text of a year has four digits from 1000 on, fewer before. *)
Lemma year_text_cases y :
  (1000 <= y -> year_text y = pad4 y) /\
  (y < 1000 -> (String.length (year_text y) < 4)%nat).
Proof.
  unfold year_text.
  destruct (Z.ltb_spec y 10); [|destruct (Z.ltb_spec y 100);
    [|destruct (Z.ltb_spec y 1000)]];
    (split; intros Hc; [try lia; reflexivity | try lia; cbn; lia]).
Qed.

(** For a year, it is the decimal writing [str] gives. *)
Example year_text_is_str :
  year_text 7 = str_of_int 7 /\ year_text 42 = str_of_int 42 /\
  year_text 999 = str_of_int 999 /\ year_text 1000 = str_of_int 1000 /\
  year_text 9999 = str_of_int 9999.
Proof. repeat split. Qed.

Lemma strftime_length d :
  String.length (strftime d) = (6 + String.length (year_text (year d)))%nat.
Proof. reflexivity. Qed.

(** [strftime] gives the zero-padded writing of a date exactly from the
    year 1000 on. *)
Lemma strftime_DD_MM_YYYY d :
  valid d = true -> (strftime d = DD_MM_YYYY d <-> 1000 <= year d).
Proof.
  intros _. destruct (year_text_cases (year d)) as [Hfour Hless]. split.
  - intros H. destruct (Z.le_gt_cases 1000 (year d)) as [|Hlt]; [assumption|].
    apply (f_equal String.length) in H.
    rewrite strftime_length, DD_MM_YYYY_length in H.
    specialize (Hless ltac:(lia)). lia.
  - intros H. unfold strftime, DD_MM_YYYY. rewrite (Hfour H). reflexivity.
Qed.

(** The texts the library gives for a year below 1000 and for one above. *)
Example strftime_year_999 :
  strftime (mkdate 999 6 17) = "17.06.999" /\
  strftime (mkdate 1990 6 15) = "15.06.1990" /\
  strptime "17.06.0999" = Ok (mkdate 999 6 17).
Proof. repeat split. Qed.

End BirthdayFacts.

(** C6, as the code has it.  [Birthday(s)] succeeds exactly when [s] is a
    day, a dot, a month, a dot and a four-digit year that name a date of
    the calendar (years 1 to 9999, leap years by the Gregorian rule),
    where the day and the month are written with two digits or, below
    ten, with one digit, and a one-digit day may follow a blank.  Every
    other string raises the [ValueError] of the class.  The object keeps
    the string it was given, so showing it gives that string back.  Every
    zero-padded DD.MM.YYYY string of a calendar date is accepted and read
    as that date; [strftime] with the same format gives the string back
    exactly when the year is 1000 or later, the leading zeros of an
    earlier year being lost.  Strings are those of the embedding, with
    code points below U+0100. *)
Theorem C6_birthday_construction (s : string) :
  (Birthday.init s = Ok (mkField s) <->
     exists d, datetime.valid d = true /\ written_as d s) /\
  (Birthday.init s = Ok (mkField s) \/
   Birthday.init s =
     Raise (ValueError "Birthday must be in DD.MM.YYYY format.")) /\
  (forall f, Birthday.init s = Ok f -> value f = s) /\
  (is_DD_MM_YYYY s ->
     Birthday.init s = Ok (mkField s) /\
     exists d, datetime.strptime s = Ok d /\ DD_MM_YYYY d = s /\
               (datetime.strftime d = s <-> 1000 <= datetime.year d)).
Proof.
  split; [|split; [apply Birthday_init_cases|split]].
  - split.
    + intros H. destruct (datetime.strptime s) as [d | e] eqn:E.
      * exists d. apply strptime_spec. exact E.
      * rewrite (Birthday_init_Raise s e E) in H. discriminate.
    + intros (d & Hv & Hw). apply (Birthday_init_Ok s d).
      apply strptime_spec. split; assumption.
  - intros f H. destruct (Birthday_init_cases s) as [E | E];
      rewrite E in H; [|discriminate]. injection H as <-. reflexivity.
  - intros (d & Hv & ->). pose proof (strptime_DD_MM_YYYY d Hv) as Hp.
    split; [exact (Birthday_init_Ok _ d Hp)|]. exists d.
    split; [exact Hp|]. split; [reflexivity | exact (strftime_DD_MM_YYYY d Hv)].
Qed.

Lemma C6_birthday_construction_witness :
  Birthday.init "15.06.1990" = Ok (mkField "15.06.1990") /\
  (exists d, datetime.strptime "15.06.0999" = Ok d /\
             DD_MM_YYYY d = "15.06.0999" /\
             (datetime.strftime d = "15.06.0999" <-> 1000 <= datetime.year d)) /\
  Birthday.init "31.02.2024" =
    Raise (ValueError "Birthday must be in DD.MM.YYYY format.").
Proof.
  split; [|split].
  - apply (proj2 (proj2 (proj2 (C6_birthday_construction "15.06.1990")))).
    exists (datetime.mkdate 1990 6 15). split; reflexivity.
  - apply (proj2 (proj2 (proj2 (C6_birthday_construction "15.06.0999")))).
    exists (datetime.mkdate 999 6 15). split; reflexivity.
  - destruct (proj1 (proj2 (C6_birthday_construction "31.02.2024"))) as [H | H];
      [discriminate H | exact H].
Defined.

(** C6 as stated fails: "1.2.2024" is not a DD.MM.YYYY string (those have
    ten characters), and [Birthday] accepts it, as it accepts " 1.2.2024". *)
Lemma C6_unpadded_date_accepted :
  Birthday.init "1.2.2024" = Ok (mkField "1.2.2024") /\
  Birthday.init " 1.2.2024" = Ok (mkField " 1.2.2024") /\
  ~ is_DD_MM_YYYY "1.2.2024" /\
  ~ is_DD_MM_YYYY " 1.2.2024".
Proof.
  split; [reflexivity|]. split; [reflexivity|].
  split; intros (d & _ & H); apply (f_equal String.length) in H;
    rewrite DD_MM_YYYY_length in H; discriminate H.
Qed.

(** ** A birthday on 29 February *)

Section LeapDay.
Import datetime.

Lemma leap_then_not_leap y : is_leap y = true -> is_leap (y + 1) = false.
Proof.
  unfold is_leap. intros H. apply andb_true_iff in H as [H _].
  apply Z.eqb_eq in H. apply andb_false_iff. left. apply Z.eqb_neq.
  Z.div_mod_to_equations. lia.
Qed.

Lemma leap_day_valid y bd :
  month bd = 2 -> day bd = 29 ->
  valid (occurrence y bd) = (1 <=? y) && (y <=? 9999) && is_leap y.
Proof.
  intros Hm Hd. unfold valid, occurrence, valid_ymd, MINYEAR, MAXYEAR. cbn [year month day].
  rewrite Hm, Hd. change (days_in_month y 2) with (if is_leap y then 29 else 28).
  destruct (is_leap y); cbn; rewrite ?andb_true_r, ?andb_false_r; reflexivity.
Qed.

(** A record whose birthday has no occurrence in today's year stops the
    loop of [get_upcoming_birthdays], or a record before it did. *)
Lemma upcoming_loop_raises today seven records r b bd :
  In r records -> Record.birthday r = Some b -> strptime (value b) = Ok bd ->
  valid (occurrence (year today) bd) = false ->
  forall acc, exists e, AddressBook.upcoming_loop today seven records acc = Raise e.
Proof.
  intros Hin Hb Hparse Hocc. induction records as [|r0 records IH]; [destruct Hin|].
  intros acc. cbn [AddressBook.upcoming_loop]. destruct Hin as [-> | Hin].
  - rewrite Hb. unfold AddressBook.upcoming_entry. rewrite Hparse.
    destruct (replace_year_fails bd (year today) Hocc) as [msg ->]. eauto.
  - specialize (IH Hin). destruct (Record.birthday r0) as [b0|]; [|apply IH].
    destruct (AddressBook.upcoming_entry today seven r0 b0) as [[e|]|e];
      [apply IH | apply IH | eauto].
Qed.

End LeapDay.

(** C9: every 29 February of a leap year, written DD.MM.YYYY, is accepted
    by [Birthday]; and for a record whose birthday reads as a 29 February,
    [days_to_birthday] raises [ValueError] and leaves the record alone
    whenever the year it substitutes is not a leap year, which is when
    today's year is not one, or is one with 29 February already passed
    (the next year never is); [get_upcoming_birthdays] raises, whatever
    else the book holds, whenever today's year is not a leap year. *)
Theorem C9_leap_day_birthday (s : string) (bd today : datetime.date) :
  datetime.strptime s = Ok bd ->
  datetime.month bd = 2 -> datetime.day bd = 29 ->
  datetime.valid today = true ->
  (forall y, 1 <= y <= 9999 -> datetime.is_leap y = true ->
     Birthday.init (DD_MM_YYYY (datetime.mkdate y 2 29)) =
       Ok (mkField (DD_MM_YYYY (datetime.mkdate y 2 29)))) /\
  Birthday.init s = Ok (mkField s) /\
  (forall r,
     Record.birthday r = Some (mkField s) ->
     datetime.is_leap (datetime.year today) = false \/
     datetime.toordinal (occurrence (datetime.year today) bd)
       < datetime.toordinal today ->
     exists msg,
       Record.days_to_birthday today r = (Raise (ValueError msg), r)) /\
  (forall w r,
     In r (AddressBook.values w) ->
     Record.birthday r = Some (mkField s) ->
     datetime.is_leap (datetime.year today) = false ->
     exists e,
       AddressBook.get_upcoming_birthdays today w = (Raise e, w) /\
       (datetime.toordinal today + 7 <= datetime.MAXORDINAL ->
        exists msg, e = ValueError msg)).
Proof.
  intros Hparse Hm Hd Htoday.
  pose proof Htoday as Hrange. unfold datetime.valid in Hrange.
  apply valid_ymd_spec in Hrange as (Hy & _ & _).
  split; [|split; [exact (Birthday_init_Ok s bd Hparse)|split]].
  - intros y Hy' Hleap. apply (Birthday_init_Ok _ (datetime.mkdate y 2 29)).
    apply strptime_DD_MM_YYYY. apply valid_ymd_spec. cbn.
    unfold datetime.days_in_month. rewrite Hleap. lia.
  - intros r Hb Hcase.
    unfold Record.days_to_birthday, bind, get_state, ret, lift_result.
    rewrite Hb. cbn [value]. rewrite Hparse.
    destruct (datetime.is_leap (datetime.year today)) eqn:Hleap.
    + destruct Hcase as [? | Hlt]; [discriminate|].
      assert (datetime.valid (occurrence (datetime.year today) bd) = true) as Hocc.
      { rewrite (leap_day_valid _ bd Hm Hd), Hleap.
        rewrite !andb_true_iff, !Z.leb_le. lia. }
      rewrite (replace_year_occurrence bd _ Hocc).
      apply ltb_spec in Hlt; [|assumption..]. rewrite Hlt.
      change (datetime.replace_year (occurrence (datetime.year today) bd)
                (datetime.year today + 1))
        with (datetime.replace_year bd (datetime.year today + 1)).
      destruct (replace_year_fails bd (datetime.year today + 1)) as [msg ->]; [|eauto].
      rewrite (leap_day_valid _ bd Hm Hd), (leap_then_not_leap _ Hleap).
      apply andb_false_r.
    + destruct (replace_year_fails bd (datetime.year today)) as [msg ->]; [|eauto].
      rewrite (leap_day_valid _ bd Hm Hd), Hleap. apply andb_false_r.
  - intros w r Hin Hb Hleap.
    unfold AddressBook.get_upcoming_birthdays, bind, lift_result, get_state.
    destruct (datetime.add_days today 7) as [seven | e] eqn:Hadd.
    + destruct (upcoming_loop_raises today seven (AddressBook.values w) r
                  (mkField s) bd Hin Hb Hparse) with (acc := @nil entry)
        as [e He].
      { rewrite (leap_day_valid _ bd Hm Hd), Hleap. apply andb_false_r. }
      rewrite He. exists e. split; [reflexivity|]. intros _.
      exact (upcoming_loop_raises_ValueError today seven _ _ _ He).
    + exists e. split; [reflexivity|]. intros Hrange'.
      destruct (add_days_spec today 7 Htoday ltac:(lia) Hrange') as (d' & Hd' & _).
      congruence.
Qed.

(** Ann, born on 29.02.2024, seen from 25 February 2025 and from
    1 March 2028. *)
Lemma C9_leap_day_witness :
  Birthday.init "29.02.2024" = Ok (mkField "29.02.2024") /\
  (exists msg,
     Record.days_to_birthday (datetime.mkdate 2025 2 25) (objs leap_day_book 0%nat) =
       (Raise (ValueError msg), objs leap_day_book 0%nat)) /\
  (exists msg,
     AddressBook.get_upcoming_birthdays (datetime.mkdate 2025 2 25) leap_day_book =
       (Raise (ValueError msg), leap_day_book)).
Proof.
  pose proof (C9_leap_day_birthday "29.02.2024" (datetime.mkdate 2024 2 29)
                (datetime.mkdate 2025 2 25) eq_refl eq_refl eq_refl eq_refl)
    as (_ & Hinit & Hdays & Hup).
  split; [exact Hinit|]. split.
  - apply Hdays; [reflexivity | left; reflexivity].
  - destruct (Hup leap_day_book (objs leap_day_book 0%nat))
      as (e & Hrun & He); [left; reflexivity | reflexivity | reflexivity |].
    destruct He as [msg ->]; [vm_compute; discriminate|].
    exists msg. exact Hrun.
Defined.

(** The book of the spec's example on Monday 10 June 2024: Bob's 15 June
    is a Saturday and is reported on Monday 17 June; Eve (1 January) and
    Joe (no birthday) are not reported. *)
Lemma C1_upcoming_birthdays_witness :
  exists l,
    AddressBook.get_upcoming_birthdays (datetime.mkdate 2024 6 10) june_book =
      (Ok l, june_book) /\
    Forall2 (reports (datetime.mkdate 2024 6 10))
      (List.filter (in_window (datetime.mkdate 2024 6 10))
         (AddressBook.values june_book)) l /\
    l = [mkentry "Bob" (datetime.mkdate 2024 6 17)].
Proof.
  destruct (C1_upcoming_birthdays (datetime.mkdate 2024 6 10) june_book)
    as (l & Hrun & Hl).
  - reflexivity.
  - vm_compute. discriminate.
  - let v := eval vm_compute in (AddressBook.values june_book) in
    change (AddressBook.values june_book) with v.
    apply List.Forall_cons; [|apply List.Forall_cons; [|apply List.Forall_cons;
      [|apply List.Forall_nil]]];
      intros b Hb; cbn in Hb; try discriminate Hb; injection Hb as <-; reflexivity.
  - let v := eval vm_compute in (AddressBook.values june_book) in
    change (AddressBook.values june_book) with v.
    apply List.Forall_cons; [|apply List.Forall_cons; [|apply List.Forall_cons;
      [|apply List.Forall_nil]]];
      intros bd Hbd; vm_compute in Hbd; try discriminate Hbd;
      injection Hbd as <-; reflexivity.
  - exists l. split; [exact Hrun|]. split; [exact Hl|].
    assert (fst (AddressBook.get_upcoming_birthdays (datetime.mkdate 2024 6 10)
                   june_book) = Ok [mkentry "Bob" (datetime.mkdate 2024 6 17)])
      as H by reflexivity.
    rewrite Hrun in H. injection H as ->. reflexivity.
Defined.

(** C1 as stated fails where the call does not get through.  With Ann
    born on 29.02.2024 in the book, the report of 25 February 2025 raises,
    and so does any report asked for in the last week of the year 9999. *)
Lemma C1_report_raises :
  AddressBook.get_upcoming_birthdays (datetime.mkdate 2025 2 25) leap_day_book =
    (Raise (ValueError "day is out of range for month"), leap_day_book) /\
  AddressBook.get_upcoming_birthdays (datetime.mkdate 9999 12 28) empty_world =
    (Raise (OverflowError "date value out of range"), empty_world).
Proof. split; reflexivity. Qed.

(** * Further properties of the code *)

(** ** The white space and the letters of the command line *)

Example isspace_table :
  List.filter (fun n => isspace_char (ascii_of_nat n)) (List.seq 0 256) =
  [9; 10; 11; 12; 13; 28; 29; 30; 31; 32; 133; 160]%nat.
Proof. reflexivity. Qed.

Example lower_table :
  List.filter
    (fun n => negb (Nat.eqb (nat_of_ascii (lower_char (ascii_of_nat n))) n))
    (List.seq 0 256) =
  (List.seq 65 26 ++ List.seq 192 23 ++ List.seq 216 7)%list /\
  forallb
    (fun n => Nat.eqb (nat_of_ascii (lower_char (ascii_of_nat n))) (n + 32))
    (List.seq 65 26 ++ List.seq 192 23 ++ List.seq 216 7) = true.
Proof. split; reflexivity. Qed.

Example split_strip_example :
  split (strip "  add  John	1234567890 ") = ["add"; "John"; "1234567890"].
Proof. reflexivity. Qed.

Example main_example :
  fst (main [(datetime.mkdate 2024 6 10, "ADD John 1234567890");
             (datetime.mkdate 2024 6 10, "phone John");
             (datetime.mkdate 2024 6 10, "Exit now");
             (datetime.mkdate 2024 6 10, "all")]) =
  ([Prompt "Enter command: "; Print "Contact 'John' added with phone 1234567890.";
    Prompt "Enter command: "; Print "Phone numbers for John: 1234567890";
    Prompt "Enter command: "; Print "Good bye!"], Exited).
Proof. reflexivity. Qed.

(** ** The phone list of a record *)

Section PhoneList.

Lemma find_phone_in_app q l x :
  Record.find_phone_in q (l ++ [x]) =
  match Record.find_phone_in q l with
  | Some o => Some o
  | None => if decide (value x = q) then Some x else None
  end.
Proof.
  induction l as [|p l IH]; cbn; [reflexivity|].
  destruct (decide (value p = q)); [reflexivity | exact IH].
Qed.

Lemma list_remove_first (o : Field) l1 l2 :
  ~ In o l1 -> list_remove o (l1 ++ o :: l2) = Ok (l1 ++ l2).
Proof.
  induction l1 as [|p l1 IH]; cbn; intros Hnot.
  - destruct (decide (o = o)); [reflexivity | congruence].
  - destruct (decide (o = p)) as [-> | _]; [tauto|].
    rewrite IH by tauto. reflexivity.
Qed.

Lemma not_in_values (o : Field) l : ~ In (value o) (map value l) -> ~ In o l.
Proof. intros H Hin. apply H. apply in_map. exact Hin. Qed.

Lemma record_eta (r : Record.t) :
  Record.mk (Record.name r) (Record.phones r) (Record.birthday r) = r.
Proof. destruct r; reflexivity. Qed.

Lemma field_eta (o : Field) : mkField (value o) = o.
Proof. destruct o; reflexivity. Qed.

(** What [remove_phone] does, case by case. *)
Lemma remove_phone_found (self : Record.t) p l1 o l2 :
  Record.phones self = l1 ++ o :: l2 -> value o = p ->
  ~ In p (map value l1) ->
  Record.remove_phone p self =
    (Ok tt, Record.mk (Record.name self) (l1 ++ l2) (Record.birthday self)).
Proof.
  intros Hl Hv Hnot.
  unfold Record.remove_phone, Record.find_phone, bind, get_state, ret,
    lift_result, put_state.
  assert (Record.find_phone_in p (Record.phones self) = Some o) as ->.
  { rewrite Hl. clear Hl. induction l1 as [|x l1 IH]; cbn.
    - destruct (decide (value o = p)); [reflexivity | contradiction].
    - cbn in Hnot. destruct (decide (value x = p)); [tauto|]. apply IH. tauto. }
  rewrite Hl, list_remove_first; [reflexivity|].
  apply not_in_values. rewrite Hv. exact Hnot.
Qed.

End PhoneList.

(** X1: [add_phone] with a valid number puts it at the end of the list,
    whether or not the number is already there, and keeps the name, the
    other phones and the birthday; [find_phone] then finds a phone with
    that number and answers as before for every other number.  With an
    invalid number it raises the error of [Phone] and the record is the
    one it was. *)
Theorem X1_add_phone_then_find (self : Record.t) (p : string) :
  (Phone.validate_phone p = true ->
     Record.add_phone p self =
       (Ok tt, Record.mk (Record.name self)
                 (Record.phones self ++ [mkField p]) (Record.birthday self)) /\
     (exists o,
        fst (Record.find_phone p (snd (Record.add_phone p self))) = Ok (Some o) /\
        value o = p) /\
     (forall q, q <> p ->
        fst (Record.find_phone q (snd (Record.add_phone p self))) =
        fst (Record.find_phone q self))) /\
  (Phone.validate_phone p = false ->
     Record.add_phone p self =
       (Raise (ValueError "Phone number must contain exactly 10 digits."), self)).
Proof.
  split; intros Hv.
  - assert (Record.add_phone p self =
              (Ok tt, Record.mk (Record.name self)
                        (Record.phones self ++ [mkField p]) (Record.birthday self)))
      as Hrun.
    { unfold Record.add_phone, bind, lift_result, modify.
      rewrite (Phone_init_valid p Hv). reflexivity. }
    rewrite Hrun. split; [reflexivity|].
    unfold Record.find_phone, bind, get_state, ret. cbn [fst snd Record.phones].
    split.
    + rewrite find_phone_in_app.
      destruct (Record.find_phone_in p (Record.phones self)) as [o|] eqn:E.
      * exists o. split; [reflexivity|].
        destruct (find_phone_in_Some _ _ _ E) as (? & ? & _ & Hval & _). exact Hval.
      * cbn [value]. destruct (decide (p = p)); [|congruence].
        exists (mkField p). split; reflexivity.
    + intros q Hne. rewrite find_phone_in_app.
      destruct (Record.find_phone_in q (Record.phones self)); [reflexivity|].
      cbn [value]. destruct (decide (p = q)); [congruence | reflexivity].
  - unfold Record.add_phone, bind, lift_result, modify.
    rewrite (Phone_init_invalid p Hv). reflexivity.
Qed.

Lemma X1_add_phone_witness :
  map value (Record.phones (snd (Record.add_phone "0123456789"
       (Record.mk (mkField "Ann") [mkField "0123456789"] None)))) =
    ["0123456789"; "0123456789"] /\
  Record.add_phone "12345"
    (Record.mk (mkField "Ann") [mkField "0123456789"] None) =
    (Raise (ValueError "Phone number must contain exactly 10 digits."),
     Record.mk (mkField "Ann") [mkField "0123456789"] None).
Proof.
  split.
  - rewrite (proj1 (proj1 (X1_add_phone_then_find
               (Record.mk (mkField "Ann") [mkField "0123456789"] None)
               "0123456789") eq_refl)).
    reflexivity.
  - exact (proj2 (X1_add_phone_then_find
               (Record.mk (mkField "Ann") [mkField "0123456789"] None)
               "12345") eq_refl).
Defined.

(** X2: [remove_phone] raises "Phone number not found." and leaves the
    record alone when no phone has the number; otherwise it takes out
    the first phone with that number and only that one, the phones
    before and after it keeping their order, and the name and the
    birthday staying. *)
Theorem X2_remove_phone (self : Record.t) (p : string) :
  (~ In p (map value (Record.phones self)) ->
     Record.remove_phone p self =
       (Raise (ValueError "Phone number not found."), self)) /\
  (In p (map value (Record.phones self)) ->
     exists l1 o l2,
       Record.phones self = l1 ++ o :: l2 /\ value o = p /\
       ~ In p (map value l1) /\
       Record.remove_phone p self =
         (Ok tt, Record.mk (Record.name self) (l1 ++ l2) (Record.birthday self))).
Proof.
  split.
  - intros Hnot. apply find_phone_in_None in Hnot.
    unfold Record.remove_phone, Record.find_phone, bind, get_state, ret, raise.
    rewrite Hnot. reflexivity.
  - intros Hin.
    destruct (Record.find_phone_in p (Record.phones self)) as [o|] eqn:E.
    + destruct (find_phone_in_Some _ _ _ E) as (l1 & l2 & Hl & Hv & Hnot & _).
      exists l1, o, l2. repeat split; try assumption.
      exact (remove_phone_found self p l1 o l2 Hl Hv Hnot).
    + apply find_phone_in_None in E. contradiction.
Qed.

Lemma X2_remove_phone_witness :
  (exists l1 o l2,
     [mkField "1111111111"; mkField "2222222222"; mkField "2222222222"] =
       l1 ++ o :: l2 /\
     value o = "2222222222" /\
     ~ In "2222222222" (map value l1) /\
     Record.remove_phone "2222222222"
       (Record.mk (mkField "Ann")
          [mkField "1111111111"; mkField "2222222222"; mkField "2222222222"] None) =
       (Ok tt, Record.mk (mkField "Ann") (l1 ++ l2) None)) /\
  Record.remove_phone "3333333333" (Record.init "Ann") =
    (Raise (ValueError "Phone number not found."), Record.init "Ann").
Proof.
  split.
  - apply (proj2 (X2_remove_phone
        (Record.mk (mkField "Ann")
           [mkField "1111111111"; mkField "2222222222"; mkField "2222222222"] None)
        "2222222222")).
    cbn. tauto.
  - apply (proj1 (X2_remove_phone (Record.init "Ann") "3333333333")).
    cbn. tauto.
Defined.

(** X3: adding a valid number and removing it again gives the record
    back when the number was not there before; when it was, the one
    removed is the earlier phone, so the number ends up last. *)
Theorem X3_add_then_remove_phone (self : Record.t) (p : string) :
  Phone.validate_phone p = true ->
  (~ In p (map value (Record.phones self)) ->
     (do _ <- Record.add_phone p; Record.remove_phone p) self = (Ok tt, self)) /\
  (forall l1 o l2,
     Record.phones self = l1 ++ o :: l2 -> value o = p ->
     ~ In p (map value l1) ->
     (do _ <- Record.add_phone p; Record.remove_phone p) self =
       (Ok tt, Record.mk (Record.name self) (l1 ++ l2 ++ [mkField p])
                 (Record.birthday self))).
Proof.
  intros Hv.
  assert (Record.add_phone p self =
            (Ok tt, Record.mk (Record.name self)
                      (Record.phones self ++ [mkField p]) (Record.birthday self)))
    as Hadd.
  { unfold Record.add_phone, bind, lift_result, modify.
    rewrite (Phone_init_valid p Hv). reflexivity. }
  split.
  - intros Hnot. unfold bind at 1. rewrite Hadd.
    rewrite (remove_phone_found _ p (Record.phones self) (mkField p) []);
      [|reflexivity | reflexivity | exact Hnot].
    cbn [Record.name Record.birthday]. rewrite app_nil_r, record_eta. reflexivity.
  - intros l1 o l2 Hl Ho Hnot. unfold bind at 1. rewrite Hadd.
    rewrite (remove_phone_found _ p l1 o (l2 ++ [mkField p]));
      [reflexivity | | exact Ho | exact Hnot].
    cbn [Record.phones]. rewrite Hl, <- app_assoc. reflexivity.
Qed.

Lemma X3_add_then_remove_witness :
  (do _ <- Record.add_phone "0123456789"; Record.remove_phone "0123456789")
    (Record.mk (mkField "Ann") [mkField "1111111111"] None) =
  (Ok tt, Record.mk (mkField "Ann") [mkField "1111111111"] None).
Proof.
  apply (proj1 (X3_add_then_remove_phone
                  (Record.mk (mkField "Ann") [mkField "1111111111"] None)
                  "0123456789" eq_refl)).
  cbn. intros [H | []]. discriminate H.
Defined.

(** ** How far away a birthday can be *)

Section BirthdayDistance.
Import datetime.

(** From one year to the next an occurrence moves by 365 or 366 days. *)
Lemma occurrence_next_year y bd :
  365 <= toordinal (occurrence (y + 1) bd) - toordinal (occurrence y bd) <= 366.
Proof.
  unfold toordinal, occurrence, ymd2ord, days_before_month. cbn [year month day].
  rewrite days_before_year_succ.
  destruct (is_leap y), (is_leap (y + 1)), (2 <? month bd); cbn [andb]; lia.
Qed.

(** Two days of one year are less than a year apart. *)
Lemma same_year_distance a b :
  valid a = true -> valid b = true -> year a = year b ->
  toordinal a - toordinal b <= 365.
Proof.
  intros Ha Hb Hy. unfold valid in Ha, Hb.
  apply valid_ymd_spec in Ha as (_ & Hma & Hda).
  apply valid_ymd_spec in Hb as (_ & Hmb & Hdb).
  pose proof (day_of_year_bounds _ _ _ Hma Hda) as Ba.
  pose proof (day_of_year_bounds _ _ _ Hmb Hdb) as Bb.
  unfold toordinal, ymd2ord. rewrite Hy in *. destruct (is_leap (year b)); lia.
Qed.

Lemma occurrence_is_today today bd :
  month bd = month today -> day bd = day today ->
  occurrence (year today) bd = today.
Proof. intros Hm Hd. unfold occurrence. rewrite Hm, Hd. destruct today; reflexivity. Qed.

End BirthdayDistance.

(** X4: whenever [days_to_birthday] returns a number, the number is
    between 0 and 365, and it is 0 exactly when today has the month and
    the day of the birthday; the record is not changed. *)
Theorem X4_days_to_birthday_range (today : datetime.date) (r r' : Record.t)
    (b : Field) (bd : datetime.date) (n : Z) :
  datetime.valid today = true ->
  Record.birthday r = Some b ->
  datetime.strptime (value b) = Ok bd ->
  Record.days_to_birthday today r = (Ok (Some n), r') ->
  0 <= n <= 365 /\
  (n = 0 <->
     datetime.month bd = datetime.month today /\
     datetime.day bd = datetime.day today) /\
  r' = r.
Proof.
  intros Htoday Hb Hparse.
  unfold Record.days_to_birthday, bind, get_state, ret, lift_result.
  rewrite Hb, Hparse. unfold datetime.replace_year at 1.
  destruct (datetime.date_new (datetime.year today) (datetime.month bd)
              (datetime.day bd)) as [occ | e] eqn:E1; [|discriminate].
  apply date_new_inv in E1 as [-> Hocc].
  change (datetime.mkdate (datetime.year today) (datetime.month bd) (datetime.day bd))
    with (occurrence (datetime.year today) bd) in *.
  change (datetime.valid_ymd (datetime.year today) (datetime.month bd) (datetime.day bd))
    with (datetime.valid (occurrence (datetime.year today) bd)) in Hocc.
  set (occ := occurrence (datetime.year today) bd) in *.
  destruct (datetime.ltb occ today) eqn:Hlt.
  - unfold datetime.replace_year.
    destruct (datetime.date_new (datetime.year today + 1) (datetime.month occ)
                (datetime.day occ)) as [nxt | e] eqn:E2; [|discriminate].
    apply date_new_inv in E2 as [-> Hnxt].
    change (datetime.mkdate (datetime.year today + 1) (datetime.month occ) (datetime.day occ))
      with (occurrence (datetime.year today + 1) bd) in *.
    change (datetime.valid_ymd (datetime.year today + 1) (datetime.month occ) (datetime.day occ))
      with (datetime.valid (occurrence (datetime.year today + 1) bd)) in Hnxt.
    intros [= <- <-]. unfold datetime.sub_days.
    apply ltb_spec in Hlt; [|assumption..].
    pose proof (occurrence_next_year (datetime.year today) bd) as Hstep. fold occ in Hstep.
    pose proof (later_year today _ Htoday Hnxt) as Hlater.
    cbn [datetime.year occurrence] in Hlater. specialize (Hlater ltac:(lia)).
    split; [lia|]. split; [|reflexivity]. split; [lia|].
    intros [Hm Hd]. pose proof (occurrence_is_today today bd Hm Hd) as Heq.
    fold occ in Heq. rewrite Heq in Hlt. lia.
  - intros [= <- <-]. unfold datetime.sub_days.
    assert (datetime.toordinal today <= datetime.toordinal occ) as Hle.
    { destruct (Z.lt_ge_cases (datetime.toordinal occ) (datetime.toordinal today))
        as [H | H]; [|lia].
      apply ltb_spec in H; [congruence | assumption..]. }
    pose proof (same_year_distance occ today Hocc Htoday eq_refl) as Hdist.
    split; [lia|]. split; [|reflexivity]. split.
    + intros Hz. assert (occ = today) as Heq
        by (apply toordinal_inj; [assumption..|lia]).
      rewrite <- Heq. split; reflexivity.
    + intros [Hm Hd]. pose proof (occurrence_is_today today bd Hm Hd) as Heq.
      fold occ in Heq. rewrite Heq. lia.
Qed.

(** Bob's birthday, 15 June, on the day itself. *)
Lemma X4_days_to_birthday_witness :
  0 <= 0 <= 365 /\
  (0 = 0 <-> 6 = 6 /\ 15 = 15) /\
  objs june_book 0%nat = objs june_book 0%nat.
Proof.
  exact (X4_days_to_birthday_range (datetime.mkdate 2024 6 15)
           (objs june_book 0%nat) (objs june_book 0%nat)
           (mkField "15.06.1990") (datetime.mkdate 1990 6 15) 0
           eq_refl eq_refl eq_refl eq_refl).
Defined.

(** ** The dates of the report *)

Section ReportDates.
Import datetime.

Variables today seven_days_later : date.
Hypothesis today_valid : valid today = true.
Hypothesis seven_valid : valid seven_days_later = true.
Hypothesis seven_ordinal : toordinal seven_days_later = toordinal today + 7.

Lemma upcoming_entry_Some (r : Record.t) (b : Field) (e : entry) :
  AddressBook.upcoming_entry today seven_days_later r b = Ok (Some e) ->
  entry_name e = value (Record.name r) /\
  valid (entry_birthday e) = true /\
  0 <= weekday (entry_birthday e) <= 4 /\
  toordinal today <= toordinal (entry_birthday e) <= toordinal today + 9.
Proof.
  unfold AddressBook.upcoming_entry.
  destruct (strptime (value b)) as [d | ?]; [|discriminate].
  unfold replace_year.
  destruct (date_new (year today) (month d) (day d)) as [occ | ?] eqn:Hnew;
    [|discriminate].
  apply date_new_inv in Hnew as [-> Hocc].
  set (occ := mkdate (year today) (month d) (day d)) in *.
  change (valid occ = true) in Hocc.
  rewrite (leb_toordinal today occ today_valid Hocc),
    (leb_toordinal occ seven_days_later Hocc seven_valid), seven_ordinal.
  destruct ((toordinal today <=? toordinal occ) &&
            (toordinal occ <=? toordinal today + 7)) eqn:Hwin; [|discriminate].
  apply andb_true_iff in Hwin as [H1 H2]. apply Z.leb_le in H1, H2.
  destruct (weekend_move_spec occ Hocc) as (d' & -> & Hv' & Hord).
  intros [= <-]. cbn [entry_name entry_birthday].
  split; [reflexivity|]. split; [exact Hv'|].
  pose proof (weekend_shift_nonneg occ) as Hnn.
  split; [|lia].
  unfold weekend_shift in *. unfold weekday in *. rewrite Hord.
  destruct (Z.eqb_spec ((toordinal occ + 6) mod 7) 5) as [E5 | N5];
    [Z.div_mod_to_equations; lia|].
  destruct (Z.eqb_spec ((toordinal occ + 6) mod 7) 6) as [E6 | N6];
    Z.div_mod_to_equations; lia.
Qed.

Lemma upcoming_loop_Ok (records : list Record.t) :
  forall acc l,
    AddressBook.upcoming_loop today seven_days_later records acc = Ok l ->
    exists l',
      l = acc ++ l' /\
      Forall (fun e =>
                (exists r, In r records /\ entry_name e = value (Record.name r)) /\
                valid (entry_birthday e) = true /\
                0 <= weekday (entry_birthday e) <= 4 /\
                toordinal today <= toordinal (entry_birthday e)
                  <= toordinal today + 9) l'.
Proof.
  induction records as [|r records IH]; intros acc l; cbn [AddressBook.upcoming_loop].
  - intros [= <-]. exists []. rewrite app_nil_r. split; [reflexivity | constructor].
  - assert (forall acc0 l0,
              AddressBook.upcoming_loop today seven_days_later records acc0 = Ok l0 ->
              exists l', l0 = acc0 ++ l' /\
                Forall (fun e =>
                  (exists r0, In r0 (r :: records) /\
                              entry_name e = value (Record.name r0)) /\
                  valid (entry_birthday e) = true /\
                  0 <= weekday (entry_birthday e) <= 4 /\
                  toordinal today <= toordinal (entry_birthday e)
                    <= toordinal today + 9) l') as IH'.
    { intros acc0 l0 H0. destruct (IH acc0 l0 H0) as (l' & -> & Hl').
      exists l'. split; [reflexivity|].
      eapply List.Forall_impl; [|exact Hl'].
      intros e ((r0 & Hin & Hn) & Hrest). split; [|exact Hrest].
      exists r0. split; [right; exact Hin | exact Hn]. }
    destruct (Record.birthday r) as [b|]; [|apply IH'].
    destruct (AddressBook.upcoming_entry today seven_days_later r b)
      as [[e|]|?] eqn:He; [| apply IH' | discriminate].
    intros Hloop. destruct (IH' _ _ Hloop) as (l' & -> & Hl').
    exists (e :: l'). rewrite <- app_assoc. split; [reflexivity|].
    constructor; [|exact Hl'].
    destruct (upcoming_entry_Some r b e He) as (Hn & Hrest).
    split; [|exact Hrest]. exists r. split; [left; reflexivity | exact Hn].
Qed.

End ReportDates.

(** X5: whenever [get_upcoming_birthdays] returns a list, every entry
    carries the name of a record of the book and a date that is never a
    Saturday or a Sunday and lies between today and nine days after it
    (a birthday seven days ahead that falls on a Saturday is reported for
    the Monday after); the book is not changed. *)
Theorem X5_report_dates (today : datetime.date) (w w' : World) (l : list entry) :
  datetime.valid today = true ->
  AddressBook.get_upcoming_birthdays today w = (Ok l, w') ->
  w' = w /\
  Forall (fun e =>
            (exists r, In r (AddressBook.values w) /\
                       entry_name e = value (Record.name r)) /\
            datetime.valid (entry_birthday e) = true /\
            0 <= datetime.weekday (entry_birthday e) <= 4 /\
            datetime.toordinal today <= datetime.toordinal (entry_birthday e)
              <= datetime.toordinal today + 9) l.
Proof.
  intros Htoday.
  unfold AddressBook.get_upcoming_birthdays, bind, lift_result, get_state.
  destruct (datetime.add_days today 7) as [seven | ?] eqn:Hadd; [|discriminate].
  assert (datetime.valid seven = true /\
          datetime.toordinal seven = datetime.toordinal today + 7) as [Hv Hord].
  { destruct (Z.le_gt_cases (datetime.toordinal today + 7) datetime.MAXORDINAL)
      as [Hle | Hgt].
    - destruct (add_days_spec today 7 Htoday ltac:(lia) Hle) as (d' & Hd' & H1 & H2).
      rewrite Hd' in Hadd. injection Hadd as <-. split; assumption.
    - rewrite (add_days_overflow today 7) in Hadd by lia. discriminate. }
  destruct (AddressBook.upcoming_loop today seven (AddressBook.values w) [])
    as [l0 | ?] eqn:Hloop; [|discriminate].
  intros [= <- <-]. split; [reflexivity|].
  destruct (upcoming_loop_Ok today seven Htoday Hv Hord _ _ _ Hloop)
    as (l' & -> & Hl').
  exact Hl'.
Qed.

Lemma X5_report_dates_witness :
  Forall (fun e =>
            (exists r, In r (AddressBook.values june_book) /\
                       entry_name e = value (Record.name r)) /\
            datetime.valid (entry_birthday e) = true /\
            0 <= datetime.weekday (entry_birthday e) <= 4 /\
            datetime.toordinal (datetime.mkdate 2024 6 8)
              <= datetime.toordinal (entry_birthday e)
              <= datetime.toordinal (datetime.mkdate 2024 6 8) + 9)
    [mkentry "Bob" (datetime.mkdate 2024 6 17)].
Proof.
  exact (proj2 (X5_report_dates (datetime.mkdate 2024 6 8) june_book june_book
                  [mkentry "Bob" (datetime.mkdate 2024 6 17)] eq_refl eq_refl)).
Defined.

(** ** The handlers on the book *)

Section HandlerFacts.

Lemma fresh_ref_differs (w : World) (r : ref) : (r < next w)%nat -> next w <> r.
Proof. intros Hlt E. rewrite E in Hlt. exact (Nat.lt_irrefl _ Hlt). Qed.

Lemma dict_set_absent {V} (k : string) (v : V) d :
  dict_get k d = None -> dict_set k v d = d ++ [(k, v)].
Proof.
  induction d as [|[k' v'] d IH]; cbn; [reflexivity|].
  destruct (decide (k = k')); [discriminate|]. intros H. rewrite (IH H). reflexivity.
Qed.

Lemma map_objs_ext (f g : ref -> Record.t) (d : list (string * ref)) :
  Forall (fun kv => f (snd kv) = g (snd kv)) d ->
  map (fun kv => f (snd kv)) d = map (fun kv => g (snd kv)) d.
Proof.
  intros H. induction H as [|kv d Hkv _ IH]; cbn; [reflexivity|].
  rewrite Hkv, IH. reflexivity.
Qed.

(** The records of the book do not depend on the objects that the book
    does not refer to. *)
Lemma values_ext (w w' : World) :
  data w' = data w ->
  Forall (fun kv => objs w' (snd kv) = objs w (snd kv)) (data w) ->
  AddressBook.values w' = AddressBook.values w.
Proof. unfold AddressBook.values. intros -> H. apply map_objs_ext. exact H. Qed.

Lemma edit_phone_found (self : Record.t) old new l1 o l2 :
  Record.phones self = l1 ++ o :: l2 -> value o = old ->
  ~ In old (map value l1) -> Phone.validate_phone new = true ->
  Record.edit_phone old new self =
    (Ok tt, Record.mk (Record.name self) (l1 ++ mkField new :: l2)
              (Record.birthday self)).
Proof.
  intros Hl Hv Hnot Hnew.
  unfold Record.edit_phone, Record.find_phone, bind, get_state, ret,
    lift_result, put_state.
  assert (Record.find_phone_in old (Record.phones self) = Some o) as Hfind.
  { rewrite Hl. clear Hl. induction l1 as [|x l1 IH]; cbn.
    - destruct (decide (value o = old)); [reflexivity | contradiction].
    - cbn in Hnot. destruct (decide (value x = old)); [tauto|]. apply IH. tauto. }
  rewrite Hfind, (Phone_init_valid new Hnew).
  assert (list_index o (Record.phones self) = Ok (List.length l1)) as ->.
  { rewrite Hl. pose proof (not_in_values o l1) as Hno. rewrite Hv in Hno.
    specialize (Hno Hnot). clear -Hno. induction l1 as [|x l1 IH]; cbn.
    - destruct (decide (o = o)); [reflexivity | congruence].
    - destruct (decide (o = x)) as [-> | _]; [cbn in Hno; tauto|].
      rewrite IH by (cbn in Hno; tauto). reflexivity. }
  unfold Record.set_phones. rewrite Hl, insert_at_split. reflexivity.
Qed.

Lemma handle_phone_reads args w : snd (handle_phone args w) = w.
Proof.
  unfold handle_phone, input_error, try_except, AddressBook.find, bind,
    get_state, ret.
  destruct args as [|n [|x args]]; try reflexivity.
  destruct (dict_get n (data w)); reflexivity.
Qed.

Lemma handle_show_birthday_reads args w : snd (handle_show_birthday args w) = w.
Proof.
  unfold handle_show_birthday, input_error, try_except, AddressBook.find, bind,
    get_state, ret.
  destruct args as [|n [|x args]]; try reflexivity.
  destruct (dict_get n (data w)) as [r|]; [|reflexivity].
  destruct (Record.birthday (objs w r)); reflexivity.
Qed.

Lemma handle_birthdays_reads today w : snd (handle_birthdays today w) = w.
Proof.
  unfold handle_birthdays, input_error, try_except,
    AddressBook.get_upcoming_birthdays, bind, lift_result, get_state, ret.
  destruct (datetime.add_days today 7) as [seven | []]; try reflexivity.
  destruct (AddressBook.upcoming_loop today seven (AddressBook.values w) [])
    as [[|e l] | []]; reflexivity.
Qed.

End HandlerFacts.

(** X6: [add] with a name the book does not have and a valid phone
    creates one record with that name, that phone and no birthday, puts
    it after the contacts already there and leaves their records as they
    were; [phone] then shows the number. *)
Theorem X6_add_new_contact (w : World) (n p : string) :
  dict_get n (data w) = None ->
  Phone.validate_phone p = true ->
  Forall (fun kv => (snd kv < next w)%nat) (data w) ->
  exists w',
    handle_add [n; p] w = (Ok (added_message n p), w') /\
    data w' = data w ++ [(n, next w)] /\
    AddressBook.values w' =
      AddressBook.values w ++ [Record.mk (mkField n) [mkField p] None] /\
    fst (handle_phone [n] w') = Ok ("Phone numbers for " +:+ n +:+ ": " +:+ p).
Proof.
  intros Hnone Hvalid Hrefs.
  set (new := Record.mk (mkField n) [mkField p] None).
  set (objs' := <[next w := new]> (<[next w := Record.init n]> (objs w))).
  exists (mkWorld (S (next w)) objs' (data w ++ [(n, next w)])).
  assert (objs' (next w) = new) as Hnew by apply fn_lookup_insert.
  split.
  { unfold handle_add, input_error, try_except, AddressBook.find, bind,
      get_state, ret.
    rewrite Hnone.
    unfold new_record, call, AddressBook.add_record, Record.add_phone, bind,
      lift_result, modify. cbn [objs next data].
    rewrite (Phone_init_valid p Hvalid). cbn [objs next data set_data].
    rewrite !fn_lookup_insert. cbn [Record.set_phones Record.init Record.name
      Record.phones Record.birthday value app].
    rewrite (dict_set_absent n (next w) (data w) Hnone). reflexivity. }
  split; [reflexivity|]. split.
  - unfold AddressBook.values. cbn [data objs]. rewrite map_app. cbn [map snd].
    rewrite Hnew. f_equal. apply map_objs_ext.
    eapply List.Forall_impl; [|exact Hrefs]. intros kv Hkv. unfold objs'.
    rewrite !fn_lookup_insert_ne by (apply fresh_ref_differs; exact Hkv).
    reflexivity.
  - unfold handle_phone, input_error, try_except, AddressBook.find, bind,
      get_state, ret. cbn [data objs].
    assert (dict_get n (data w ++ [(n, next w)]) = Some (next w)) as ->.
    { rewrite <- (dict_set_absent n (next w) (data w) Hnone).
      apply dict_get_set_eq. }
    cbn [objs]. rewrite Hnew. reflexivity.
Qed.

Lemma X6_add_new_contact_witness :
  exists w',
    handle_add ["Eve"; "5550001111"] ann_and_bob =
      (Ok "Contact 'Eve' added with phone 5550001111.", w') /\
    map fst (data w') = ["Ann"; "Bob"; "Eve"] /\
    fst (handle_phone ["Eve"] w') = Ok "Phone numbers for Eve: 5550001111".
Proof.
  destruct (X6_add_new_contact ann_and_bob "Eve" "5550001111" eq_refl eq_refl)
    as (w' & Hrun & Hdata & _ & Hphone).
  - repeat constructor.
  - exists w'. split; [exact Hrun|]. split; [rewrite Hdata; reflexivity | exact Hphone].
Defined.

(** X7: [add] with an invalid phone answers with the validation message
    behind "Error: " and adds nothing, neither a contact for a new name
    nor a phone to an existing one: the names of the book and every
    record it holds are the ones before. *)
Theorem X7_add_invalid_phone (w : World) (n p : string) :
  Phone.validate_phone p = false ->
  Forall (fun kv => (snd kv < next w)%nat) (data w) ->
  fst (handle_add [n; p] w) =
    Ok "Error: Phone number must contain exactly 10 digits." /\
  data (snd (handle_add [n; p] w)) = data w /\
  AddressBook.values (snd (handle_add [n; p] w)) = AddressBook.values w.
Proof.
  intros Hbad Hrefs.
  unfold handle_add, input_error, try_except, AddressBook.find, bind,
    get_state, ret.
  destruct (dict_get n (data w)) as [r|] eqn:Hget;
    unfold new_record, call, AddressBook.add_record, Record.add_phone, bind,
      lift_result, modify; cbn [objs next data];
    rewrite (Phone_init_invalid p Hbad); cbn [fst snd data].
  - split; [reflexivity|]. split; [reflexivity|].
    apply values_ext; [reflexivity|]. cbn [objs data].
    apply List.Forall_forall. intros kv _.
    destruct (decide (r = snd kv)) as [-> | Hne].
    + apply fn_lookup_insert.
    + apply fn_lookup_insert_ne. exact Hne.
  - split; [reflexivity|]. split; [reflexivity|].
    apply values_ext; [reflexivity|]. cbn [objs data].
    eapply List.Forall_impl; [|exact Hrefs]. intros kv Hlt.
    rewrite !fn_lookup_insert_ne by (apply fresh_ref_differs; exact Hlt).
    reflexivity.
Qed.

Lemma X7_add_invalid_phone_witness :
  fst (handle_add ["Eve"; "555"] ann_and_bob) =
    Ok "Error: Phone number must contain exactly 10 digits." /\
  map fst (data (snd (handle_add ["Eve"; "555"] ann_and_bob))) = ["Ann"; "Bob"].
Proof.
  destruct (X7_add_invalid_phone ann_and_bob "Eve" "555" eq_refl)
    as (Hmsg & Hdata & _).
  - repeat constructor.
  - split; [exact Hmsg | rewrite Hdata; reflexivity].
Defined.

(** X8: [change] on a contact that has the old number, with a valid new
    number, answers "Phone number for ... changed ...", puts the new
    number in the place of the first phone with the old one in the
    object of that contact and touches nothing else; [phone] then lists
    the numbers with the new one in that place. *)
Theorem X8_change_phone (w : World) (n old new : string) (r : ref)
    (l1 l2 : list Field) (o : Field) :
  dict_get n (data w) = Some r ->
  Record.phones (objs w r) = l1 ++ o :: l2 ->
  value o = old -> ~ In old (map value l1) ->
  Phone.validate_phone new = true ->
  exists w',
    handle_change [n; old; new] w =
      (Ok ("Phone number for '" +:+ n +:+ "' changed from " +:+ old +:+
           " to " +:+ new +:+ "."), w') /\
    data w' = data w /\
    objs w' r =
      Record.mk (Record.name (objs w r)) (l1 ++ mkField new :: l2)
        (Record.birthday (objs w r)) /\
    (forall r', r' <> r -> objs w' r' = objs w r') /\
    fst (handle_phone [n] w') =
      Ok ("Phone numbers for " +:+ n +:+ ": " +:+
          join ", " (map value l1 ++ new :: map value l2)%list).
Proof.
  intros Hget Hl Ho Hnot Hnew.
  set (rec' := Record.mk (Record.name (objs w r)) (l1 ++ mkField new :: l2)
                 (Record.birthday (objs w r))).
  exists (mkWorld (next w) (<[r := rec']> (objs w)) (data w)).
  split.
  { unfold handle_change, input_error, try_except, AddressBook.find, bind,
      get_state, ret.
    rewrite Hget. unfold call.
    rewrite (edit_phone_found (objs w r) old new l1 o l2 Hl Ho Hnot Hnew).
    reflexivity. }
  cbn [data objs]. split; [reflexivity|].
  split; [apply fn_lookup_insert|].
  split; [intros r' Hne; apply fn_lookup_insert_ne; congruence|].
  unfold handle_phone, input_error, try_except, AddressBook.find, bind,
    get_state, ret. cbn [data objs]. rewrite Hget. cbn [objs].
  rewrite fn_lookup_insert.
  cbn [fst Record.phones rec']. rewrite map_app. reflexivity.
Qed.

Lemma X8_change_phone_witness :
  exists w',
    handle_change ["Ann"; "0123456789"; "5550001111"] ann_and_bob =
      (Ok "Phone number for 'Ann' changed from 0123456789 to 5550001111.", w') /\
    fst (handle_phone ["Ann"] w') = Ok "Phone numbers for Ann: 5550001111".
Proof.
  destruct (X8_change_phone ann_and_bob "Ann" "0123456789" "5550001111" 0%nat
              [] [] (mkField "0123456789") eq_refl eq_refl eq_refl
              ltac:(intros []) eq_refl) as (w' & Hrun & _ & _ & _ & Hphone).
  exists w'. split; [exact Hrun | exact Hphone].
Defined.

(** X9: [add-birthday] on a contact of the book, with a date that
    [Birthday] accepts, stores the string as the contact's birthday in
    place of any earlier one, keeps the name and the phones, and
    [show-birthday] then shows that string; with a date that [Birthday]
    refuses, every object and the book stay as they were. *)
Theorem X9_birthday_set_then_shown (w : World) (n b : string) (r : ref) :
  dict_get n (data w) = Some r ->
  (is_Ok (datetime.strptime b) = true ->
     exists w',
       handle_add_birthday [n; b] w =
         (Ok ("Birthday for '" +:+ n +:+ "' set to " +:+ b +:+ "."), w') /\
       data w' = data w /\
       objs w' r =
         Record.mk (Record.name (objs w r)) (Record.phones (objs w r))
           (Some (mkField b)) /\
       (forall r', r' <> r -> objs w' r' = objs w r') /\
       fst (handle_show_birthday [n] w') =
         Ok ("Birthday for " +:+ n +:+ " is " +:+ b +:+ ".")) /\
  (is_Ok (datetime.strptime b) = false ->
     same_world w (snd (handle_add_birthday [n; b] w))).
Proof.
  intros Hget. split.
  - intros Hok. destruct (datetime.strptime b) as [d | ?] eqn:Hparse; [|discriminate].
    set (rec' := Record.mk (Record.name (objs w r)) (Record.phones (objs w r))
                   (Some (mkField b))).
    exists (mkWorld (next w) (<[r := rec']> (objs w)) (data w)).
    split.
    { unfold handle_add_birthday, input_error, try_except, AddressBook.find,
        bind, get_state, ret.
      rewrite Hget. unfold call, Record.add_birthday, bind, lift_result, modify.
      rewrite (Birthday_init_Ok b d Hparse). reflexivity. }
    cbn [data objs]. split; [reflexivity|].
    split; [apply fn_lookup_insert|].
    split; [intros r' Hne; apply fn_lookup_insert_ne; congruence|].
    unfold handle_show_birthday, input_error, try_except, AddressBook.find,
      bind, get_state, ret. cbn [data objs]. rewrite Hget. cbn [objs].
    rewrite fn_lookup_insert. reflexivity.
  - intros Hbad. destruct (datetime.strptime b) as [? | e] eqn:Hparse; [discriminate|].
    unfold handle_add_birthday, input_error, try_except, AddressBook.find,
      bind, get_state, ret.
    rewrite Hget. unfold call, Record.add_birthday, bind, lift_result, modify.
    rewrite (Birthday_init_Raise b e Hparse). cbn.
    split; [reflexivity|]. intros r'.
    destruct (decide (r = r')) as [-> | Hne];
      [apply fn_lookup_insert | apply fn_lookup_insert_ne; exact Hne].
Qed.

Lemma X9_birthday_witness :
  exists w',
    handle_add_birthday ["Ann"; "1.3.2001"] leap_day_book =
      (Ok "Birthday for 'Ann' set to 1.3.2001.", w') /\
    fst (handle_show_birthday ["Ann"] w') = Ok "Birthday for Ann is 1.3.2001.".
Proof.
  destruct (proj1 (X9_birthday_set_then_shown leap_day_book "Ann" "1.3.2001" 0%nat
                     eq_refl) eq_refl) as (w' & Hrun & _ & _ & _ & Hshow).
  exists w'. split; [exact Hrun | exact Hshow].
Defined.

(** X10: [phone], [show-birthday], [all] and [birthdays] only read: the
    book and its objects are the same after the call, whatever the
    arguments, also when [birthdays] raises. *)
Theorem X10_read_only_handlers (args : list string) (today : datetime.date)
    (w : World) :
  snd (handle_phone args w) = w /\
  snd (handle_show_birthday args w) = w /\
  snd (handle_all w) = w /\
  snd (handle_birthdays today w) = w.
Proof.
  split; [apply handle_phone_reads|].
  split; [apply handle_show_birthday_reads|].
  split; [reflexivity | apply handle_birthdays_reads].
Qed.

(** X11: a name the book does not have.  [change], [phone] and
    [add-birthday] answer "Error: Contact '...' not found.",
    [show-birthday] answers that the contact is not found or has no
    birthday, and none of them changes anything; [show-birthday] gives
    that same answer for a contact without a birthday. *)
Theorem X11_unknown_contact (w : World) (n a b : string) :
  (dict_get n (data w) = None ->
     handle_change [n; a; b] w =
       (Ok ("Error: Contact '" +:+ n +:+ "' not found."), w) /\
     handle_phone [n] w = (Ok ("Error: Contact '" +:+ n +:+ "' not found."), w) /\
     handle_add_birthday [n; a] w =
       (Ok ("Error: Contact '" +:+ n +:+ "' not found."), w) /\
     handle_show_birthday [n] w =
       (Ok ("Error: Contact '" +:+ n +:+ "' not found or has no birthday set."), w)) /\
  (forall r, dict_get n (data w) = Some r ->
     Record.birthday (objs w r) = None ->
     handle_show_birthday [n] w =
       (Ok ("Error: Contact '" +:+ n +:+ "' not found or has no birthday set."), w)).
Proof.
  split.
  - intros Hnone.
    unfold handle_change, handle_phone, handle_add_birthday, handle_show_birthday,
      input_error, try_except, AddressBook.find, bind, get_state, ret.
    rewrite Hnone. repeat split.
  - intros r Hget Hb.
    unfold handle_show_birthday, input_error, try_except, AddressBook.find, bind,
      get_state, ret.
    rewrite Hget, Hb. reflexivity.
Qed.

Lemma X11_unknown_contact_witness :
  handle_phone ["Eve"] ann_and_bob =
    (Ok "Error: Contact 'Eve' not found.", ann_and_bob) /\
  handle_show_birthday ["Ann"] ann_and_bob =
    (Ok "Error: Contact 'Ann' not found or has no birthday set.", ann_and_bob).
Proof.
  split.
  - exact (proj1 (proj2 (proj1 (X11_unknown_contact ann_and_bob "Eve" "1" "2")
                           eq_refl))).
  - exact (proj2 (X11_unknown_contact ann_and_bob "Ann" "1" "2") 0%nat eq_refl eq_refl).
Defined.

(** X12: a handler called with another number of arguments than it
    takes (two for [add] and [add-birthday], three for [change], one for
    [phone] and [show-birthday]) answers with its usage message and
    changes nothing. *)
Theorem X12_wrong_argument_count (args : list string) (w : World) :
  (List.length args <> 2%nat ->
     handle_add args w =
       (Ok "Error: 'add' command should have two arguments [name] [phone]", w) /\
     handle_add_birthday args w =
       (Ok "Error: 'add-birthday' command should have two arguments [name] [birthday]", w)) /\
  (List.length args <> 3%nat ->
     handle_change args w =
       (Ok "Error: 'change' command should have three arguments [name] [old phone] [new phone]", w)) /\
  (List.length args <> 1%nat ->
     handle_phone args w =
       (Ok "Error: 'phone' command should have one argument [name]", w) /\
     handle_show_birthday args w =
       (Ok "Error: 'show-birthday' command should have one argument [name]", w)).
Proof.
  split; [|split]; intros Hlen.
  - destruct args as [|a [|b [|c args]]]; cbn in Hlen; try lia; split; reflexivity.
  - destruct args as [|a [|b [|c [|d args]]]]; cbn in Hlen; try lia; reflexivity.
  - destruct args as [|a [|b args]]; cbn in Hlen; try lia; split; reflexivity.
Qed.

Lemma X12_wrong_argument_count_witness :
  handle_change ["Ann"; "0123456789"] ann_and_bob =
    (Ok "Error: 'change' command should have three arguments [name] [old phone] [new phone]",
     ann_and_bob).
Proof.
  apply (proj1 (proj2 (X12_wrong_argument_count ["Ann"; "0123456789"] ann_and_bob))).
  cbn. lia.
Defined.

(** ** What the methods and the handlers keep *)

Section Invariants.

Lemma Phone_init_ok p f : Phone.init p = Ok f -> phone_ok f.
Proof.
  unfold Phone.init, phone_ok. destruct (Phone.validate_phone p) eqn:E; cbn;
    [|discriminate]. intros [= <-]. exact E.
Qed.

Lemma Birthday_init_ok b f :
  Birthday.init b = Ok f -> is_Ok (datetime.strptime (value f)) = true.
Proof.
  intros H. destruct (datetime.strptime b) as [d | e] eqn:E.
  - rewrite (Birthday_init_Ok b d E) in H. injection H as <-. cbn. rewrite E. reflexivity.
  - rewrite (Birthday_init_Raise b e E) in H. discriminate.
Qed.

Lemma list_remove_Forall {A} `{EqDecision A} (P : A -> Prop) (x : A) l l' :
  list_remove x l = Ok l' -> Forall P l -> Forall P l'.
Proof.
  revert l'. induction l as [|y l IH]; cbn; intros l'; [discriminate|].
  destruct (decide (x = y)).
  - intros [= <-] H. apply List.Forall_cons_iff in H as [_ H]. exact H.
  - destruct (list_remove x l) as [r|]; [|discriminate]. intros [= <-] H.
    apply List.Forall_cons_iff in H as [Hy H]. constructor; [exact Hy | apply IH; auto].
Qed.

Lemma Record_inv_init n : Record_inv (Record.init n).
Proof. split; [constructor | intros b; discriminate]. Qed.

Lemma add_phone_keeps p self :
  Record_inv self ->
  Record_inv (snd (Record.add_phone p self)) /\
  Record.name (snd (Record.add_phone p self)) = Record.name self.
Proof.
  intros [Hp Hb]. unfold Record.add_phone, bind, lift_result, modify.
  destruct (Phone.init p) as [f|] eqn:E; cbn; [|split; [split|]; auto].
  split; [|reflexivity]. split; [|exact Hb].
  apply Forall_app. split; [exact Hp|]. constructor; [|constructor].
  exact (Phone_init_ok p f E).
Qed.

Lemma remove_phone_keeps p self :
  Record_inv self ->
  Record_inv (snd (Record.remove_phone p self)) /\
  Record.name (snd (Record.remove_phone p self)) = Record.name self.
Proof.
  intros [Hp Hb].
  unfold Record.remove_phone, Record.find_phone, bind, get_state, ret, raise,
    lift_result, put_state.
  destruct (Record.find_phone_in p (Record.phones self)) as [o|];
    [|split; [split|]; auto].
  destruct (list_remove o (Record.phones self)) as [l|] eqn:E; cbn;
    [|split; [split|]; auto].
  split; [|reflexivity]. split; [|exact Hb].
  exact (list_remove_Forall _ _ _ _ E Hp).
Qed.

Lemma edit_phone_keeps old new self :
  Record_inv self ->
  Record_inv (snd (Record.edit_phone old new self)) /\
  Record.name (snd (Record.edit_phone old new self)) = Record.name self.
Proof.
  intros [Hp Hb].
  unfold Record.edit_phone, Record.find_phone, bind, get_state, ret, raise,
    lift_result, put_state.
  destruct (Record.find_phone_in old (Record.phones self)) as [o|];
    [|split; [split|]; auto].
  destruct (Phone.init new) as [f|] eqn:E; [|split; [split|]; auto].
  destruct (list_index o (Record.phones self)) as [i|]; cbn;
    [|split; [split|]; auto].
  split; [|reflexivity]. split; [|exact Hb].
  apply Forall_insert; [exact Hp | exact (Phone_init_ok new f E)].
Qed.

Lemma add_birthday_keeps b self :
  Record_inv self ->
  Record_inv (snd (Record.add_birthday b self)) /\
  Record.name (snd (Record.add_birthday b self)) = Record.name self.
Proof.
  intros [Hp Hb]. unfold Record.add_birthday, bind, lift_result, modify.
  destruct (Birthday.init b) as [f|] eqn:E; cbn; [|split; [split|]; auto].
  split; [|reflexivity]. split; [exact Hp|].
  intros b' [= <-]. exact (Birthday_init_ok b f E).
Qed.

(** A method that keeps [Record_inv] and the name, called on any object,
    keeps [World_inv]. *)
Lemma call_keeps {A} (r : ref) (m : M Record.t A) (w : World) :
  (forall o, Record_inv o ->
     Record_inv (snd (m o)) /\ Record.name (snd (m o)) = Record.name o) ->
  World_inv w -> World_inv (snd (call r m w)).
Proof.
  intros Hm [Hok Hall]. unfold call.
  destruct (m (objs w r)) as [res o'] eqn:E. cbn [snd].
  split; [exact Hok|]. cbn [data].
  eapply List.Forall_impl; [|exact Hall].
  intros kv (Hlt & Hname & Hinv). unfold entry_inv. cbn [next objs].
  split; [exact Hlt|].
  destruct (decide (r = snd kv)) as [-> | Hne].
  - rewrite fn_lookup_insert. destruct (Hm _ Hinv) as [H1 H2].
    rewrite E in H1, H2. cbn in H1, H2. rewrite H2. auto.
  - rewrite fn_lookup_insert_ne by exact Hne. auto.
Qed.

Lemma Forall_dict_set {V} (P : string * V -> Prop) k v d :
  Forall P d -> P (k, v) -> Forall P (dict_set k v d).
Proof.
  intros Hd Hkv. induction Hd as [|[k' v'] d Hx Hd IH]; cbn.
  - constructor; [exact Hkv | constructor].
  - destruct (decide (k = k')) as [<- | _]; constructor; assumption.
Qed.

Lemma input_error_snd (func : M World string) w :
  snd (input_error func w) = snd (func w).
Proof.
  unfold input_error, try_except.
  destruct (func w) as [[s | []] w']; reflexivity.
Qed.

Lemma try_return_str_snd (m : M World string) w :
  snd (try_except m return_str_of_ValueError w) = snd (m w).
Proof.
  unfold try_except. destruct (m w) as [[s | []] w']; reflexivity.
Qed.

Lemma bind_keeps_state {A B} (m : M World A) (k : A -> M World B) w :
  (forall a s, snd (k a s) = s) -> snd (bind m k w) = snd (m w).
Proof.
  intros Hk. unfold bind. destruct (m w) as [[a | e] w']; [apply Hk | reflexivity].
Qed.

Lemma find_bind {A} n (k : option ref -> M World A) w :
  (do r <- AddressBook.find n; k r) w = k (dict_get n (data w)) w.
Proof. reflexivity. Qed.

Lemma handle_add_keeps args w : World_inv w -> World_inv (snd (handle_add args w)).
Proof.
  intros Hw. unfold handle_add. rewrite input_error_snd.
  destruct args as [|n [|p [|x args]]]; try exact Hw.
  rewrite find_bind.
  destruct (dict_get n (data w)) as [r|] eqn:Hget.
  - rewrite bind_keeps_state by reflexivity.
    apply call_keeps; [intros o; apply add_phone_keeps | exact Hw].
  - rewrite bind_keeps_state by reflexivity.
    destruct Hw as [Hok Hall].
    unfold new_record, call, AddressBook.add_record, Record.add_phone, bind,
      lift_result, modify. cbn [objs next data]. rewrite fn_lookup_insert.
    assert (forall objs' n', (forall r, (r < next w)%nat -> objs' r = objs w r) ->
              Forall (entry_inv (mkWorld (S (next w)) objs' n')) (data w)) as Hold.
    { intros objs' n' Hsame. eapply List.Forall_impl; [|exact Hall].
      intros kv (Hlt & Hname & Hinv). unfold entry_inv. cbn [next objs].
      rewrite (Hsame _ Hlt). split; [lia|]. auto. }
    destruct (Phone.init p) as [f|] eqn:E; cbn [snd fst].
    + unfold set_data. cbn [objs next data]. rewrite fn_lookup_insert.
      cbn [Record.set_phones Record.init Record.name Record.phones
           Record.birthday value app].
      split; [apply dict_set_ok; exact Hok|]. cbn [data].
      apply Forall_dict_set.
      * apply Hold. intros r Hlt. cbn [objs].
        rewrite !fn_lookup_insert_ne by (intros Eq; rewrite Eq in Hlt; lia).
        reflexivity.
      * unfold entry_inv. cbn [fst snd next objs]. rewrite fn_lookup_insert.
        split; [lia|]. split; [reflexivity|]. split.
        -- constructor; [exact (Phone_init_ok p f E) | constructor].
        -- intros b; discriminate.
    + split; [exact Hok|]. cbn [data]. apply Hold. intros r Hlt. cbn [objs].
      rewrite !fn_lookup_insert_ne by (intros Eq; rewrite Eq in Hlt; lia).
      reflexivity.
Qed.

Lemma handle_change_keeps args w :
  World_inv w -> World_inv (snd (handle_change args w)).
Proof.
  intros Hw. unfold handle_change. rewrite input_error_snd.
  destruct args as [|n [|a [|b [|x args]]]]; try exact Hw.
  rewrite find_bind.
  destruct (dict_get n (data w)) as [r|]; [|exact Hw].
  rewrite try_return_str_snd, bind_keeps_state by reflexivity.
  apply call_keeps; [intros o; apply edit_phone_keeps | exact Hw].
Qed.

Lemma handle_add_birthday_keeps args w :
  World_inv w -> World_inv (snd (handle_add_birthday args w)).
Proof.
  intros Hw. unfold handle_add_birthday. rewrite input_error_snd.
  destruct args as [|n [|a [|x args]]]; try exact Hw.
  rewrite find_bind.
  destruct (dict_get n (data w)) as [r|]; [|exact Hw].
  rewrite try_return_str_snd, bind_keeps_state by reflexivity.
  apply call_keeps; [intros o; apply add_birthday_keeps | exact Hw].
Qed.

Lemma World_inv_empty : World_inv empty_world.
Proof. split; constructor. Qed.

Lemma World_inv_values w : World_inv w -> Forall Record_inv (AddressBook.values w).
Proof.
  intros [_ Hall]. unfold AddressBook.values. apply List.Forall_map.
  eapply List.Forall_impl; [|exact Hall]. intros kv (_ & _ & H). exact H.
Qed.

Lemma main_step_keeps today line w :
  World_inv w -> World_inv (snd (main_step today line w)).
Proof.
  intros Hw. unfold main_step.
  destruct (split (strip line)) as [|first args]; [exact Hw|].
  repeat match goal with
  | |- context [if ?b then _ else _] => destruct b
  end;
  rewrite ?bind_keeps_state by reflexivity;
  rewrite ?handle_phone_reads, ?handle_show_birthday_reads,
    ?handle_birthdays_reads;
  first [ exact Hw | apply handle_add_keeps; exact Hw
        | apply handle_change_keeps; exact Hw
        | apply handle_add_birthday_keeps; exact Hw ].
Qed.

Lemma main_loop_keeps inputs :
  forall w, World_inv w -> World_inv (snd (main_loop inputs w)).
Proof.
  induction inputs as [|[today line] rest IH]; intros w Hw; cbn [main_loop];
    [exact Hw|].
  pose proof (main_step_keeps today line w Hw) as Hstep.
  destruct (main_step today line w) as [[[text []] | e] w']; cbn [snd] in *;
    try exact Hstep.
  specialize (IH w' Hstep).
  destruct (main_loop rest w') as [[outs how] w'']. exact IH.
Qed.

End Invariants.

(** X13: the four methods that change a record, whatever they are given
    and whether they succeed or raise, leave a record whose phones all
    pass [validate_phone] and whose birthday, if any, is a string that
    [strptime] reads, provided the record was such a one; and none of
    them changes the name.  A new record is such a one. *)
Theorem X13_record_methods_keep_validity (self : Record.t) (a b : string) :
  Record_inv (Record.init a) /\
  (Record_inv self ->
     (Record_inv (snd (Record.add_phone a self)) /\
      Record.name (snd (Record.add_phone a self)) = Record.name self) /\
     (Record_inv (snd (Record.remove_phone a self)) /\
      Record.name (snd (Record.remove_phone a self)) = Record.name self) /\
     (Record_inv (snd (Record.edit_phone a b self)) /\
      Record.name (snd (Record.edit_phone a b self)) = Record.name self) /\
     (Record_inv (snd (Record.add_birthday a self)) /\
      Record.name (snd (Record.add_birthday a self)) = Record.name self)).
Proof.
  split; [apply Record_inv_init|]. intros H.
  split; [apply add_phone_keeps; exact H|].
  split; [apply remove_phone_keeps; exact H|].
  split; [apply edit_phone_keeps; exact H | apply add_birthday_keeps; exact H].
Qed.

Lemma X13_record_methods_witness :
  Record_inv (snd (Record.add_phone "0123456789" (Record.init "Ann"))) /\
  Record_inv (snd (Record.add_birthday "31.02.2024" (Record.init "Ann"))).
Proof.
  pose proof (X13_record_methods_keep_validity (Record.init "Ann")
                "0123456789" "1") as [Hinit H].
  pose proof (X13_record_methods_keep_validity (Record.init "Ann")
                "31.02.2024" "1") as [_ H'].
  split; [exact (proj1 (proj1 (H Hinit))) |
          exact (proj1 (proj2 (proj2 (proj2 (H' Hinit)))))].
Defined.

(** X14: every handler keeps the book well formed: if the names of the
    book are distinct and each leads to an allocated record that carries
    that name, holds only valid phones and holds a readable birthday or
    none, then the same is true after the call, whatever the arguments
    and whether the handler reports success or an error. *)
Theorem X14_handlers_keep_the_book_well_formed (args : list string)
    (today : datetime.date) (w : World) :
  World_inv w ->
  World_inv (snd (handle_add args w)) /\
  World_inv (snd (handle_change args w)) /\
  World_inv (snd (handle_phone args w)) /\
  World_inv (snd (handle_all w)) /\
  World_inv (snd (handle_add_birthday args w)) /\
  World_inv (snd (handle_show_birthday args w)) /\
  World_inv (snd (handle_birthdays today w)).
Proof.
  intros Hw.
  split; [apply handle_add_keeps; exact Hw|].
  split; [apply handle_change_keeps; exact Hw|].
  split; [rewrite handle_phone_reads; exact Hw|].
  split; [exact Hw|].
  split; [apply handle_add_birthday_keeps; exact Hw|].
  split; [rewrite handle_show_birthday_reads; exact Hw|].
  rewrite handle_birthdays_reads; exact Hw.
Qed.

Lemma X14_handlers_witness :
  World_inv (snd (handle_add ["Eve"; "5550001111"] empty_world)) /\
  World_inv (snd (handle_change ["Eve"; "1"; "2"] empty_world)).
Proof.
  pose proof (X14_handlers_keep_the_book_well_formed ["Eve"; "5550001111"]
                (datetime.mkdate 2024 6 10) empty_world World_inv_empty) as H1.
  pose proof (X14_handlers_keep_the_book_well_formed ["Eve"; "1"; "2"]
                (datetime.mkdate 2024 6 10) empty_world World_inv_empty) as H2.
  split; [exact (proj1 H1) | exact (proj1 (proj2 H2))].
Defined.

(** X15: whatever is typed, and however the run ends, the book that
    [main] has built is well formed: its names are distinct, every
    record is filed under its own name, every phone in it has ten
    digits, and every birthday in it is a string that [strptime] reads,
    which is what [get_upcoming_birthdays] and [days_to_birthday] rely
    on when they parse it again. *)
Theorem X15_main_builds_a_well_formed_book
    (inputs : list (datetime.date * string)) :
  World_inv (snd (main inputs)) /\
  dict_ok (data (snd (main inputs))) /\
  Forall (fun r => Forall phone_ok (Record.phones r) /\ Record_ok r)
    (AddressBook.values (snd (main inputs))).
Proof.
  pose proof (main_loop_keeps inputs empty_world World_inv_empty) as H.
  split; [exact H|]. split; [exact (proj1 H)|]. exact (World_inv_values _ H).
Qed.

(** ** The command line *)

Section CommandLine.

Lemma lstrip_blank s : string_forall isspace_char s = true -> lstrip s = EmptyString.
Proof.
  induction s as [|c s IH]; cbn; [reflexivity|].
  intros H. apply andb_true_iff in H as [Hc Hs]. rewrite Hc. exact (IH Hs).
Qed.

Lemma lstrip_not_blank s :
  string_forall isspace_char s = false ->
  exists c s', lstrip s = String c s' /\ isspace_char c = false.
Proof.
  induction s as [|c s IH]; cbn; [discriminate|].
  destruct (isspace_char c) eqn:Hc; cbn; [exact IH | eauto].
Qed.

Lemma rstrip_keeps_head c s :
  isspace_char c = false -> exists t, rstrip (String c s) = String c t.
Proof.
  intros Hc. cbn [rstrip]. destruct (rstrip s); rewrite ?Hc; eauto.
Qed.

Lemma append_not_empty s c : s +:+ String c EmptyString <> EmptyString.
Proof. destruct s; discriminate. Qed.

Lemma split_from_word word s : word <> EmptyString -> split_from word s <> [].
Proof.
  revert word. induction s as [|c s IH]; intros word Hw; cbn.
  - destruct word; [contradiction | discriminate].
  - destruct (isspace_char c).
    + destruct word; [contradiction | discriminate].
    + apply IH. apply append_not_empty.
Qed.

(** A line has no word exactly when it is made of white space only. *)
Lemma split_strip_blank s :
  split (strip s) = [] <-> string_forall isspace_char s = true.
Proof.
  unfold split, strip. split.
  - intros H. destruct (string_forall isspace_char s) eqn:E; [reflexivity|].
    destruct (lstrip_not_blank s E) as (c & s' & Hl & Hc). rewrite Hl in H.
    destruct (rstrip_keeps_head c s' Hc) as [t Ht]. rewrite Ht in H.
    cbn [split_from] in H. rewrite Hc in H.
    exfalso. revert H. apply split_from_word. discriminate.
  - intros H. rewrite (lstrip_blank s H). reflexivity.
Qed.

Lemma bind_returns {A} (m : M World A) (w : World) (go : bool) :
  (exists a, fst (m w) = Ok a) ->
  exists text go', fst ((do s <- m; ret (s, go)) w) = Ok (text, go').
Proof.
  intros [a Ha]. unfold bind, ret. destruct (m w) as [[a' | e] w']; cbn in *;
    [eauto | discriminate].
Qed.

Lemma main_step_returns today line w :
  string_forall isspace_char line = false ->
  datetime.valid today = true ->
  datetime.toordinal today + 7 <= datetime.MAXORDINAL ->
  exists text go, fst (main_step today line w) = Ok (text, go).
Proof.
  intros Hline Htoday Hrange. unfold main_step.
  destruct (split (strip line)) as [|first args] eqn:Hsplit.
  { apply split_strip_blank in Hsplit. congruence. }
  repeat match goal with
  | |- context [if ?b then _ else _] => destruct b
  end;
  first [ eexists; eexists; reflexivity
        | apply bind_returns; apply handle_add_returns
        | apply bind_returns; apply handle_change_returns
        | apply bind_returns; apply handle_phone_returns
        | apply bind_returns; apply handle_all_returns
        | apply bind_returns; apply handle_add_birthday_returns
        | apply bind_returns; apply handle_show_birthday_returns
        | apply bind_returns; apply handle_birthdays_returns; assumption ].
Qed.

End CommandLine.

(** X16: the loop of [main] stops with an uncaught [IndexError] on a
    line that is empty or made of white space only: nothing is printed
    for it, the book is left as it is and the lines after it are not
    read.  Every other line is answered with one printed text, for any
    book, as long as the clock is at least seven days before the end of
    the calendar. *)
Theorem X16_blank_line_stops_the_loop (today : datetime.date) (line : string)
    (rest : list (datetime.date * string)) (w : World) :
  (string_forall isspace_char line = true ->
     main_step today line w = (Raise IndexError, w) /\
     main_loop ((today, line) :: rest) w =
       ([Prompt "Enter command: "], Crashed IndexError, w)) /\
  (string_forall isspace_char line = false ->
     datetime.valid today = true ->
     datetime.toordinal today + 7 <= datetime.MAXORDINAL ->
     exists text go, fst (main_step today line w) = Ok (text, go)).
Proof.
  split.
  - intros Hblank. apply split_strip_blank in Hblank.
    assert (main_step today line w = (Raise IndexError, w)) as Hstep.
    { unfold main_step. rewrite Hblank. reflexivity. }
    split; [exact Hstep|]. cbn [main_loop]. rewrite Hstep. reflexivity.
  - apply main_step_returns.
Qed.

Lemma X16_blank_line_witness :
  main_loop [(datetime.mkdate 2024 6 10, "   ");
             (datetime.mkdate 2024 6 10, "all")] ann_and_bob =
    ([Prompt "Enter command: "], Crashed IndexError, ann_and_bob) /\
  exists text go,
    fst (main_step (datetime.mkdate 2024 6 10) " birthdays " ann_and_bob) =
      Ok (text, go).
Proof.
  split.
  - exact (proj2 (proj1 (X16_blank_line_stops_the_loop (datetime.mkdate 2024 6 10)
                           "   " [(datetime.mkdate 2024 6 10, "all")] ann_and_bob)
                    eq_refl)).
  - apply (proj2 (X16_blank_line_stops_the_loop (datetime.mkdate 2024 6 10)
                    " birthdays " [] ann_and_bob)); [reflexivity | reflexivity |].
    vm_compute. discriminate.
Defined.

(** ** The listings *)

Section Listings.

Lemma append_empty_r s t : t <> EmptyString -> s +:+ t <> EmptyString.
Proof. destruct s; cbn; [auto | discriminate]. Qed.

Lemma join_cons_not_empty sep x l :
  x <> EmptyString -> join sep (x :: l) <> EmptyString.
Proof.
  intros Hx. cbn [join]. destruct l; [exact Hx|].
  destruct x; [contradiction | discriminate].
Qed.

Lemma phone_ok_not_empty f : phone_ok f -> value f <> EmptyString.
Proof.
  unfold phone_ok. intros H Hv. rewrite Hv in H. discriminate H.
Qed.

Lemma Record_str_not_empty r : Record.str r <> EmptyString.
Proof.
  unfold Record.str. cbv zeta. apply append_empty_r. discriminate.
Qed.

End Listings.

(** X17: the placeholders of the listings.  The text of a record with
    valid phones shows "No phones" exactly when the record has no phone,
    and otherwise its numbers joined by ", "; the birthday follows when
    there is one.  The text of the book is the heading and then
    "No records" exactly when the book is empty, and otherwise the texts
    of its records, one per line, in the order of the book. *)
Theorem X17_listing_placeholders (r : Record.t) (w : World) :
  (Forall phone_ok (Record.phones r) ->
     Record.str r =
       value (Record.name r) +:+ ": " +:+
       (match Record.phones r with
        | [] => "No phones"
        | _ :: _ => join ", " (map value (Record.phones r))
        end) +:+
       (match Record.birthday r with
        | Some b => ", Birthday: " +:+ value b
        | None => EmptyString
        end)) /\
  AddressBook.str w =
    "AddressBook:" +:+ String "010" EmptyString +:+
    (match data w with
     | [] => "No records"
     | _ :: _ => join (String "010" EmptyString)
                   (map Record.str (AddressBook.values w))
     end).
Proof.
  split.
  - intros Hp. unfold Record.str. cbv zeta.
    destruct (Record.phones r) as [|f l] eqn:E; [reflexivity|].
    apply List.Forall_cons_iff in Hp as [Hf _].
    pose proof (join_cons_not_empty ", " (value f) (map value l)
                  (phone_ok_not_empty f Hf)) as Hne.
    cbn [map]. destruct (join ", " (value f :: map value l)); [contradiction|].
    reflexivity.
  - unfold AddressBook.str, AddressBook.values. cbv zeta.
    destruct (data w) as [|kv d]; [reflexivity|]. cbn [map].
    pose proof (join_cons_not_empty (String "010" EmptyString)
                  (Record.str (objs w (snd kv)))
                  (map Record.str (map (fun kv0 => objs w (snd kv0)) d))
                  (Record_str_not_empty _)) as Hne.
    destruct (join _ (Record.str (objs w (snd kv)) :: _)); [contradiction|].
    reflexivity.
Qed.

Lemma X17_listing_witness :
  Record.str (objs june_book 0%nat) = "Bob: 9876543210, Birthday: 15.06.1990" /\
  Record.str (Record.init "Ann") = "Ann: No phones".
Proof.
  split.
  - rewrite (proj1 (X17_listing_placeholders (objs june_book 0%nat) june_book)).
    + reflexivity.
    + repeat constructor.
  - rewrite (proj1 (X17_listing_placeholders (Record.init "Ann") june_book)).
    + reflexivity.
    + constructor.
Defined.

(** ** Adding to the book and deleting from it *)

Section AddDelete.
Context {V : Type}.

Lemma dict_del_set (k : string) (v : V) d :
  dict_del k (dict_set k v d) = dict_del k d.
Proof.
  induction d as [|[k' v'] d IH]; cbn.
  - destruct (decide (k = k)); [reflexivity | congruence].
  - destruct (decide (k = k')) as [-> | Hne]; cbn.
    + destruct (decide (k' = k')); [reflexivity | congruence].
    + destruct (decide (k = k')); [contradiction|]. rewrite IH. reflexivity.
Qed.

Lemma keys_filter (name : string) (d : list (string * V)) :
  map fst (List.filter (fun kv => negb (String.eqb (fst kv) name)) d) =
  List.filter (fun k => negb (String.eqb k name)) (map fst d).
Proof.
  induction d as [|[k v] d IH]; cbn; [reflexivity|].
  destruct (String.eqb k name); cbn; rewrite IH; reflexivity.
Qed.

End AddDelete.

(** X18: [delete] right after [add_record], on the name of the record
    added, never raises, in a book whose names are distinct.  Afterwards
    the name is not in the book: [find] gives [None] for it, also when the
    name led to a record before, which is not brought back.  The other
    names lead to the records they led to, the entries left are those of
    the book before under the other names, in their order, and no object
    has changed.  If the name was new, the book is the one before the two
    calls. *)
Theorem X18_add_record_then_delete (w : World) (r : ref) :
  dict_ok (data w) ->
  let n := value (Record.name (objs w r)) in
  exists w',
    (do _ <- AddressBook.add_record r; AddressBook.delete n) w = (Ok tt, w') /\
    fst (AddressBook.find n w') = Ok None /\
    (forall n', n' <> n -> dict_get n' (data w') = dict_get n' (data w)) /\
    data w' = List.filter (fun kv => negb (String.eqb (fst kv) n)) (data w) /\
    objs w' = objs w /\
    next w' = next w /\
    dict_ok (data w') /\
    (dict_get n (data w) = None -> w' = w).
Proof.
  intros Hok n. exists (set_data (dict_del n (data w)) w).
  split.
  { subst n. unfold AddressBook.add_record, AddressBook.delete, bind, modify,
      get_state, put_state, raise, dict_mem. cbn [objs data set_data].
    rewrite dict_get_set_eq, dict_del_set. reflexivity. }
  unfold AddressBook.find, bind, get_state, ret. cbn [fst snd data set_data objs next].
  split; [rewrite (dict_get_del_eq n (data w) Hok); reflexivity|].
  split; [intros n' Hne; apply dict_get_del_ne; exact Hne|].
  split; [apply dict_del_filter; exact Hok|].
  split; [reflexivity|]. split; [reflexivity|].
  split; [apply dict_del_ok; exact Hok|].
  intros Hnone. unfold set_data. apply dict_get_None in Hnone.
  rewrite (dict_del_absent n (data w) Hnone). destruct w; reflexivity.
Qed.

(** Ann is in the book with reference 0: adding that record again and
    deleting "Ann" leaves Bob alone.  In the empty book of [two_anns] the
    two calls change nothing. *)
Lemma X18_add_record_then_delete_witness :
  (exists w',
     (do _ <- AddressBook.add_record 0%nat; AddressBook.delete "Ann") ann_and_bob =
       (Ok tt, w') /\
     fst (AddressBook.find "Ann" w') = Ok None /\
     data w' = [("Bob", 1%nat)]) /\
  (do _ <- AddressBook.add_record 1%nat; AddressBook.delete "Ann") two_anns =
    (Ok tt, two_anns).
Proof.
  split.
  - destruct (X18_add_record_then_delete ann_and_bob 0%nat)
      as (w' & Hrun & Hfind & _ & Hdata & _).
    + vm_compute. repeat constructor; cbn; intuition discriminate.
    + exists w'. split; [exact Hrun|]. split; [exact Hfind|]. exact Hdata.
  - destruct (X18_add_record_then_delete two_anns 1%nat)
      as (w' & Hrun & _ & _ & _ & _ & _ & _ & Hsame).
    + constructor.
    + rewrite (Hsame eq_refl) in Hrun. exact Hrun.
Defined.

(** X19: the order of the names.  [add_record] under a name the book
    already has keeps every name at its place, also the one reassigned;
    under a new name it puts the name last.  [delete] of a name of the
    book keeps the other names in their order. *)
Theorem X19_order_of_names (w : World) (r : ref) (name : string) :
  let n := value (Record.name (objs w r)) in
  (dict_get n (data w) <> None ->
     map fst (data (snd (AddressBook.add_record r w))) = map fst (data w)) /\
  (dict_get n (data w) = None ->
     map fst (data (snd (AddressBook.add_record r w))) =
       (map fst (data w) ++ [n])%list) /\
  (dict_ok (data w) -> dict_get name (data w) <> None ->
     map fst (data (snd (AddressBook.delete name w))) =
       List.filter (fun k => negb (String.eqb k name)) (map fst (data w))).
Proof.
  intros n. split; [|split].
  - intros Hin. unfold AddressBook.add_record, modify. cbn [snd set_data data].
    fold n. rewrite dict_set_keys. unfold dict_mem.
    destruct (dict_get n (data w)); [reflexivity | congruence].
  - intros Hnone. unfold AddressBook.add_record, modify. cbn [snd set_data data].
    fold n. rewrite dict_set_keys. unfold dict_mem. rewrite Hnone. reflexivity.
  - intros Hok Hin.
    unfold AddressBook.delete, bind, get_state, put_state, raise, dict_mem.
    destruct (dict_get name (data w)); [|congruence]. cbn [snd set_data data].
    rewrite (dict_del_filter name (data w) Hok). apply keys_filter.
Qed.

Lemma X19_order_of_names_witness :
  map fst (data (snd (AddressBook.delete "Ann" ann_and_bob))) = ["Bob"] /\
  map fst (data (snd (AddressBook.add_record 0%nat ann_and_bob))) = ["Ann"; "Bob"].
Proof.
  split.
  - rewrite (proj2 (proj2 (X19_order_of_names ann_and_bob 0%nat "Ann"))).
    + reflexivity.
    + repeat constructor; cbn; intuition discriminate.
    + discriminate.
  - rewrite (proj1 (X19_order_of_names ann_and_bob 0%nat "Ann")).
    + reflexivity.
    + discriminate.
Defined.
